(** * TicketPipeline: KPI derivation, column resolution and warehouse load

    A shallow embedding of [pipeline_etl.py] and [pipeline_elt.py].

    Conventions of the embedding.
    - Text is ASCII text ([string]).  On ASCII text Python's [str.upper] and
      SQLite's [UPPER] coincide; no non-ASCII character upper-cases to
      ["COMPLETED"], so the comparison with that literal is not affected.
    - A missing cell (pandas [NaN]/[NaT]/[<NA>], SQL [NULL]) is [None].
    - A pandas timestamp ([datetime64[ns]]) is the number of nanoseconds
      since the epoch, a [Z].
    - The real-valued column [resolution_time_h] is held as the exact
      rational ([Q]) of which the program stores a rounding; statements on
      it are on its being missing and on its comparison with the target,
      never on the equality of the values that the two modes compute.  The
      doubles that the two modes compute are given apart, in [Binary64]. *)

From Stdlib Require Import ZArith QArith Lia List String Ascii.
From Stdlib Require Import Floats.SpecFloat.
From stdpp Require Import base option list gmap strings.

Local Open Scope Z_scope.

(** ** Python string primitives on ASCII text *)
Module PyStr.

Local Open Scope N_scope.

(** [str.isspace] on one ASCII character: TAB, LF, VT, FF, CR, the four
    separators FS GS RS US and the blank. *)
Definition isspace (c : ascii) : bool :=
  let n := N_of_ascii c in
  ((9 <=? n) && (n <=? 13)) || ((28 <=? n) && (n <=? 31)) || (n =? 32).

Definition upper_char (c : ascii) : ascii :=
  let n := N_of_ascii c in
  if (97 <=? n) && (n <=? 122) then ascii_of_N (n - 32) else c.

Definition lower_char (c : ascii) : ascii :=
  let n := N_of_ascii c in
  if (65 <=? n) && (n <=? 90) then ascii_of_N (n + 32) else c.

Fixpoint map_chars (f : ascii -> ascii) (s : string) : string :=
  match s with
  | EmptyString => EmptyString
  | String c s' => String (f c) (map_chars f s')
  end.

(** [s.upper()] and [s.lower()] *)
Definition upper (s : string) : string := map_chars upper_char s.
Definition lower (s : string) : string := map_chars lower_char s.

(** [s.lstrip()] *)
Fixpoint lstrip (s : string) : string :=
  match s with
  | EmptyString => EmptyString
  | String c s' => if isspace c then lstrip s' else s
  end.

(** [s.rstrip()]: a character is dropped when it is white and everything
    after it has been dropped. *)
Fixpoint rstrip (s : string) : string :=
  match s with
  | EmptyString => EmptyString
  | String c s' =>
      match rstrip s' with
      | EmptyString => if isspace c then EmptyString else String c EmptyString
      | t => String c t
      end
  end.

(** [s.strip()] *)
Definition strip (s : string) : string := rstrip (lstrip s).

(** A text is clean at its end when [rstrip] leaves it alone, and clean at
    its start when it does not begin with a white character. *)
Definition ends_clean (t : string) : Prop := rstrip t = t.

Definition starts_clean (t : string) : Prop :=
  match t with
  | EmptyString => True
  | String c _ => isspace c = false
  end.

(** [s.split()] without argument: the maximal runs of non-white characters.
    [word] holds the run being read. *)
Fixpoint split_from (word : string) (s : string) : list string :=
  match s with
  | EmptyString =>
      match word with EmptyString => [] | _ => [word] end
  | String c s' =>
      if isspace c then
        match word with
        | EmptyString => split_from EmptyString s'
        | _ => word :: split_from EmptyString s'
        end
      else split_from (word +:+ String c EmptyString) s'
  end.

Definition split (s : string) : list string := split_from EmptyString s.

(** [sep.join(parts)] *)
Fixpoint join (sep : string) (parts : list string) : string :=
  match parts with
  | [] => EmptyString
  | [w] => w
  | w :: ws => w +:+ sep +:+ join sep ws
  end.

(** [int(s)] on ASCII text: blanks around the number are dropped, one sign
    is allowed, then decimal digits; single underscores may separate
    digits.  [None] stands for [ValueError]. *)
Definition digit_val (c : ascii) : option Z :=
  let n := N_of_ascii c in
  if (48 <=? n) && (n <=? 57) then Some (Z.of_N (n - 48)) else None.

Fixpoint digits_from (acc : Z) (after_digit : bool) (s : string) : option Z :=
  match s with
  | EmptyString => if after_digit then Some acc else None
  | String c s' =>
      if Ascii.eqb c "_" then
        (if after_digit then digits_from acc false s' else None)
      else
        match digit_val c with
        | Some d => digits_from (10 * acc + d)%Z true s'
        | None => None
        end
  end.

Definition int (s : string) : option Z :=
  match strip s with
  | String "+" t => digits_from 0%Z false t
  | String "-" t => Z.opp <$> digits_from 0%Z false t
  | t => digits_from 0%Z false t
  end.

(** [repr(s)] of a [str]: double quotes only when the text has a single
    quote and no double quote; the chosen quote, the backslash and the
    control characters are escaped. *)
Fixpoint contains_char (c : ascii) (s : string) : bool :=
  match s with
  | EmptyString => false
  | String d s' => Ascii.eqb c d || contains_char c s'
  end.

Definition hex_digit (n : N) : ascii :=
  if n <? 10 then ascii_of_N (48 + n) else ascii_of_N (87 + n).

Definition backslash : ascii := ascii_of_N 92.
Definition dquote : ascii := ascii_of_N 34.
Definition squote : ascii := ascii_of_N 39.

Definition escape (c : ascii) : string := String backslash (String c EmptyString).

Definition repr_char (quote c : ascii) : string :=
  let n := N_of_ascii c in
  if Ascii.eqb c quote || Ascii.eqb c backslash then escape c
  else if n =? 9 then escape "t"
  else if n =? 10 then escape "n"
  else if n =? 13 then escape "r"
  else if (n <? 32) || (n =? 127) then
    String backslash
      (String "x" (String (hex_digit (n / 16)) (String (hex_digit (n mod 16)) EmptyString)))
  else String c EmptyString.

Fixpoint repr_body (quote : ascii) (s : string) : string :=
  match s with
  | EmptyString => EmptyString
  | String c s' => repr_char quote c +:+ repr_body quote s'
  end.

Definition repr (s : string) : string :=
  let quote :=
    if contains_char squote s && negb (contains_char dquote s) then dquote else squote in
  String quote (repr_body quote s +:+ String quote EmptyString).

(** [repr(l)] of a list of [str] *)
Definition repr_list (l : list string) : string :=
  "[" +:+ join ", " (map repr l) +:+ "]".

End PyStr.

(** ** Python exceptions, as values *)
Inductive exn :=
| ValueError (msg : string)
| TypeError (msg : string)
| KeyError (key : string)
| UnicodeDecodeError
| AttributeError
| OtherError (what : string).

(** A computation that may raise: [inl e] is the exception that leaves it. *)
Definition result (A : Type) : Type := exn + A.

Definition raise {A} (e : exn) : result A := inl e.

Definition bind {A B} (m : result A) (k : A -> result B) : result B :=
  match m with inl e => inl e | inr a => k a end.

Notation "'let*' x ':=' m 'in' k" := (bind m (fun x => k))
  (at level 10, x pattern, m at level 100, k at level 200).

(** ** The KPI deriver, in both modes *)
Module Kpi.

Local Open Scope Q_scope.

(** One record of the 311 feed as [extract_311] of the ETL pipeline returns
    it.  The three date columns are parsed ([parse_dates]); the columns no
    KPI reads are kept as text. *)
Record RawRequest := {
  sr_number : option string;
  sr_type : option string;
  owner_department : option string;
  status : option string;
  created_date : option Z;
  closed_date : option Z;
  ward : option Z;
  community_area : option Z
}.

(** *** pandas element-wise operations on nullable columns *)

(** [col.str.upper()] *)
Definition str_upper (x : option string) : option string := PyStr.upper <$> x.

(** [col.ne(v)]: a missing cell is different from everything. *)
Definition series_ne (x : option string) (v : string) : bool :=
  match x with Some s => negb (String.eqb s v) | None => true end.

(** [col == v]: a missing cell is equal to nothing. *)
Definition series_eq (x : option string) (v : string) : bool :=
  match x with Some s => String.eqb s v | None => false end.

(** [col <= v] on a float column: a comparison with [NaN] is false. *)
Definition series_le (x : option Q) (v : Q) : bool :=
  match x with Some q => Qle_bool q v | None => false end.

(** [a - b] on two datetime columns: a timedelta in nanoseconds, [NaT] as
    soon as one side is [NaT]. *)
Definition series_sub (a b : option Z) : option Z :=
  match a, b with Some x, Some y => Some (x - y)%Z | _, _ => None end.

(** [col.dt.total_seconds()] *)
Definition total_seconds (d : option Z) : option Q :=
  (fun ns => inject_Z ns / inject_Z 1000000000) <$> d.

(** [col / k] *)
Definition series_div (x : option Q) (k : Q) : option Q := (fun q => q / k) <$> x.

(** [pd.to_datetime(col, errors="coerce")] on a column that is parsed
    already: nothing changes, a missing instant stays missing. *)
Definition to_datetime_coerce (t : option Z) : option Z := t.

(** [col.astype(int)] on a boolean column *)
Definition astype_int (b : bool) : Z := if b then 1%Z else 0%Z.

(** *** ETL: [transform_311] *)

(** The KPI columns [transform_311] adds to a row. *)
Record KpiColumns := {
  resolution_time_h : option Q;
  open_flag : Z;
  sla_met : Z;
  sla_target_h : Z
}.

Definition transform_311_row (sla_hours : Z) (r : RawRequest) : KpiColumns :=
  let created_date := to_datetime_coerce (created_date r) in
  let closed_date := to_datetime_coerce (closed_date r) in
  let resolution_time_h :=
    series_div (total_seconds (series_sub closed_date created_date)) 3600 in
  let open_flag := astype_int (series_ne (str_upper (status r)) "COMPLETED") in
  let sla_met :=
    astype_int (series_eq (str_upper (status r)) "COMPLETED"
                && series_le resolution_time_h (inject_Z sla_hours)) in
  {| resolution_time_h := resolution_time_h;
     open_flag := open_flag;
     sla_met := sla_met;
     sla_target_h := sla_hours |}.

(** The type [read_csv] gives the status column of the fetched frame: the
    texts make it an object column; when the frame has rows and every
    status is missing the column is a float64 column of [NaN].  A frame
    without rows has object columns. *)
Definition status_is_object (df : list RawRequest) : bool :=
  match df with
  | [] => true
  | _ :: _ => existsb (fun r => match status r with Some _ => true | None => false end) df
  end.

(** [df["status"].str]: the accessor is there for an object column only. *)
Definition str_accessor (df : list RawRequest) : result unit :=
  if status_is_object df then inr tt else raise AttributeError.

(** [transform_311]: once the accessor is there the columns are computed
    cell by cell, so row by row. *)
Definition transform_311 (df : list RawRequest) (sla_hours : Z)
  : result (list (RawRequest * KpiColumns)) :=
  let* _ := str_accessor df in
  inr (map (fun r => (r, transform_311_row sla_hours r)) df).

(** *** ELT: staging and the view [fact_requests_v] *)

(** A row of [stg_requests].  [extract_311] of the ELT pipeline renders the
    date columns with [strftime("%Y-%m-%d %H:%M:%S")]: such a text is
    represented by the whole second it denotes, counted from the epoch. *)
Record StagedRequest := {
  stg_sr_number : option string;
  stg_sr_type : option string;
  stg_owner_department : option string;
  stg_status : option string;
  stg_created_date : option Z;
  stg_closed_date : option Z;
  stg_ward : option Z;
  stg_community_area : option Z
}.

(** [col.dt.strftime("%Y-%m-%d %H:%M:%S")]: the fraction of the second is
    not printed; [NaT] gives a missing cell. *)
Definition strftime_seconds (t : option Z) : option Z :=
  (fun ns => (ns / 1000000000)%Z) <$> t.

Definition extract_311_elt_row (r : RawRequest) : StagedRequest :=
  {| stg_sr_number := sr_number r;
     stg_sr_type := sr_type r;
     stg_owner_department := owner_department r;
     stg_status := status r;
     stg_created_date := strftime_seconds (created_date r);
     stg_closed_date := strftime_seconds (closed_date r);
     stg_ward := ward r;
     stg_community_area := community_area r |}.

(** SQL scalar operators, with [NULL] as [None] and three-valued logic. *)
Definition UPPER (x : option string) : option string := PyStr.upper <$> x.

Definition sql_eq_text (x y : option string) : option bool :=
  match x, y with Some a, Some b => Some (String.eqb a b) | _, _ => None end.

(** [JULIANDAY(t)]: the Julian day number of the instant; the epoch is day
    2440587.5. *)
Definition JULIANDAY (t : option Z) : option Q :=
  (fun s => (24405875 # 10) + inject_Z s / 86400) <$> t.

Definition sql_sub (x y : option Q) : option Q :=
  match x, y with Some a, Some b => Some (a - b) | _, _ => None end.

Definition sql_mul (x y : option Q) : option Q :=
  match x, y with Some a, Some b => Some (a * b) | _, _ => None end.

Definition sql_le (x y : option Q) : option bool :=
  match x, y with Some a, Some b => Some (Qle_bool a b) | _, _ => None end.

(** [x AND y]: false wins over [NULL]. *)
Definition sql_and (x y : option bool) : option bool :=
  match x, y with
  | Some false, _ | _, Some false => Some false
  | Some true, Some true => Some true
  | _, _ => None
  end.

(** [CASE WHEN c THEN a ELSE b END]: the ELSE branch unless [c] is true. *)
Definition CASE_WHEN {A} (c : option bool) (a b : A) : A :=
  match c with Some true => a | _ => b end.

Definition sql_int (n : Z) : option Q := Some (inject_Z n).

(** [CAST(x AS REAL)] on a real or [NULL] value *)
Definition CAST_AS_REAL (x : option Q) : option Q := x.

(** The KPI columns of one row of [fact_requests_v]. *)
Definition fact_requests_v_row (s : StagedRequest) : KpiColumns :=
  {| resolution_time_h :=
       CAST_AS_REAL
         (sql_mul (sql_sub (JULIANDAY (stg_closed_date s)) (JULIANDAY (stg_created_date s)))
                  (sql_int 24));
     sla_target_h := 72%Z;
     sla_met :=
       CASE_WHEN
         (sql_and (sql_eq_text (UPPER (stg_status s)) (Some "COMPLETED"%string))
                  (sql_le (sql_mul (sql_sub (JULIANDAY (stg_closed_date s))
                                            (JULIANDAY (stg_created_date s)))
                                   (sql_int 24))
                          (sql_int 72)))
         1%Z 0%Z;
     open_flag :=
       CASE_WHEN (sql_eq_text (UPPER (stg_status s)) (Some "COMPLETED"%string)) 0%Z 1%Z |}.

Definition fact_requests_v (stg : list StagedRequest) : list (StagedRequest * KpiColumns) :=
  map (fun s => (s, fact_requests_v_row s)) stg.

(** The ELT run on a fetched frame: stage, then read the view. *)
Definition elt_kpis (r : RawRequest) : KpiColumns :=
  fact_requests_v_row (extract_311_elt_row r).

End Kpi.

(** ** The doubles of the resolution time

    Both modes compute the resolution time in IEEE 754 binary64, each
    operation rounding to nearest, ties to even. *)
Module Binary64.

Definition prec : Z := 53.
Definition emax : Z := 1024.

(** The double nearest to an integer *)
Definition of_Z (n : Z) : spec_float := binary_normalize prec emax n 0 false.

Definition div (x y : spec_float) : spec_float := SFdiv prec emax x y.
Definition sub (x y : spec_float) : spec_float := SFsub prec emax x y.
Definition mul (x y : spec_float) : spec_float := SFmul prec emax x y.
Definition leb (x y : spec_float) : bool := SFleb x y.

(** ETL: [(closed - created).dt.total_seconds() / 3600], on instants in
    nanoseconds.  The difference is an integer of nanoseconds;
    [total_seconds] divides it, as a double, by the 10^9 nanoseconds of a
    second. *)
Definition etl_resolution_time_h (created closed : Z) : spec_float :=
  div (div (of_Z (closed - created)) (of_Z 1000000000)) (of_Z 3600).

(** SQLite's [JULIANDAY] of a staged text, which denotes the whole second
    [s]: the milliseconds since the origin of the Julian days, an integer,
    divided by the 86400000 milliseconds of a day. *)
Definition JULIANDAY (s : Z) : spec_float :=
  div (of_Z (210866760000000 + 1000 * s)) (of_Z 86400000).

(** ELT: [(JULIANDAY(closed_date) - JULIANDAY(created_date)) * 24], on staged
    whole seconds. *)
Definition elt_resolution_time_h (created closed : Z) : spec_float :=
  mul (sub (JULIANDAY closed) (JULIANDAY created)) (of_Z 24).

End Binary64.

(** ** Run configuration and the two runs *)
Module Config.

(** [os.getenv(name, default)] over the environment of the process *)
Definition getenv (env : gmap string string) (name fallback : string) : string :=
  default fallback (env !! name).

(** [int(os.getenv(name, fallback))] *)
Definition getenv_int (env : gmap string string) (name fallback : string) : result Z :=
  let text := getenv env name fallback in
  match PyStr.int text with
  | Some n => inr n
  | None => raise (ValueError ("invalid literal for int() with base 10: " +:+ PyStr.repr text))
  end.

(** The module-level constants of [pipeline_etl.py] *)
Record EtlConfig := {
  ROW_LIMIT : Z;
  SLA_HOURS : Z;
  DB_PATH : string;
  ACS_PATH : string;
  MAP_PATH : string
}.

Definition etl_config (env : gmap string string) : result EtlConfig :=
  let* row_limit := getenv_int env "ROW_LIMIT" "10000" in
  let* sla_hours := getenv_int env "SLA_HOURS" "72" in
  inr {| ROW_LIMIT := row_limit;
         SLA_HOURS := sla_hours;
         DB_PATH := getenv env "DB_PATH_ETL" "warehouse_etl.db";
         ACS_PATH := getenv env "DEMO_ACS_PATH" "data/raw/acs_community.csv";
         MAP_PATH := getenv env "DEMO_MAP_PATH" "data/raw/Boundaries_Community_Areas.csv" |}.

(** The module-level constants of [pipeline_elt.py]: no SLA setting is read. *)
Record EltConfig := {
  elt_ROW_LIMIT : Z;
  elt_DB_PATH : string;
  elt_ACS_PATH : string;
  elt_MAP_PATH : string
}.

Definition elt_config (env : gmap string string) : result EltConfig :=
  let* row_limit := getenv_int env "ROW_LIMIT" "10000" in
  inr {| elt_ROW_LIMIT := row_limit;
         elt_DB_PATH := getenv env "DB_PATH_ELT" "warehouse_elt.db";
         elt_ACS_PATH := getenv env "DEMO_ACS_PATH" "data/raw/acs_community.csv";
         elt_MAP_PATH := getenv env "DEMO_MAP_PATH" "data/raw/Boundaries_Community_Areas.csv" |}.

(** The fact rows of an ETL run on the fetched frame [df]:
    [transform_311(df, SLA_HOURS)]. *)
Definition etl_fact_rows (env : gmap string string) (df : list Kpi.RawRequest)
  : result (list (Kpi.RawRequest * Kpi.KpiColumns)) :=
  let* cfg := etl_config env in
  Kpi.transform_311 df (SLA_HOURS cfg).

(** The fact rows of an ELT run on the fetched frame [df]: the view over the
    staged frame. *)
Definition elt_fact_rows (env : gmap string string) (df : list Kpi.RawRequest)
  : result (list (Kpi.StagedRequest * Kpi.KpiColumns)) :=
  let* _ := elt_config env in
  inr (Kpi.fact_requests_v (map Kpi.extract_311_elt_row df)).

(** The stored target and the SLA flag of each fact row of a run *)
Definition targets_and_flags {A} (rows : result (list (A * Kpi.KpiColumns)))
  : result (list (Z * Z)) :=
  let* l := rows in
  inr (map (fun x => (Kpi.sla_target_h x.2, Kpi.sla_met x.2)) l).

End Config.

(** ** Reference tables *)

(** A frame read from a CSV file: the header and the rows of cells, each row
    as long as the header; an empty cell is missing. *)
Record DataFrame := {
  columns : list string;
  data : list (list (option string))
}.

(** ** The column resolver of [extract_acs_and_mapping] *)
Module Resolver.

Definition newline : string := String (ascii_of_N 10) EmptyString.

Definition _norm (s : string) : string :=
  PyStr.join " " (PyStr.split (PyStr.lower (PyStr.strip s))).

(** [{_norm(c): c for c in cols}]: a later header replaces an earlier one
    with the same normal form. *)
Definition build_lookup (cols : list string) : gmap string string :=
  foldl (fun m c => <[_norm c := c]> m) ∅ cols.

Definition id_keys : list string :=
  ["area_numbe"; "area numbe"; "area_num"; "area num"; "area_num_1"; "area num 1";
   "community area number"; "community area num"; "community_area_number"].

Definition name_keys : list string :=
  ["community"; "community area"; "community_area_name"; "community area name"; "name"].

(** [for key in keys: if key in lookup: col = lookup[key]; break] *)
Fixpoint first_match (keys : list string) (lookup : gmap string string) : option string :=
  match keys with
  | [] => None
  | key :: rest =>
      match lookup !! key with
      | Some col => Some col
      | None => first_match rest lookup
      end
  end.

(** [not col]: [None] and the empty text are both false. *)
Definition falsy (col : option string) : bool :=
  match col with
  | None | Some EmptyString => true
  | Some _ => false
  end.

Definition unresolved_message (cols : list string) : string :=
  "Konnte Mapping-Spalten nicht erkennen." +:+ newline +:+
  "Vorhandene Spalten: " +:+ PyStr.repr_list cols +:+ newline +:+
  "Erwartet etwas wie 'AREA_NUMBE' (ID) und 'COMMUNITY' (Name).".

(** The resolution step: the pair (id column, name column) or [ValueError]. *)
Definition resolve_columns (cols : list string) : result (string * string) :=
  let lookup := build_lookup cols in
  let id_col := first_match id_keys lookup in
  let name_col := first_match name_keys lookup in
  if falsy id_col || falsy name_col then raise (ValueError (unresolved_message cols))
  else
    match id_col, name_col with
    | Some i, Some n => inr (i, n)
    | _, _ => raise (ValueError (unresolved_message cols))
    end.

End Resolver.

(** ** The reference reader [_robust_read_csv_local] *)
Module Reader.

Inductive separator := Comma | Semicolon.
Inductive encoding := Utf8 | Latin1.

(** [df.shape[1]] *)
Definition shape1 (df : DataFrame) : nat := length (columns df).

(** [try: body except UnicodeDecodeError: handler]: only a decoding error
    reaches the handler. *)
Definition try_except_decode {A} (body : result A) (handler : result A) : result A :=
  match body with
  | inl UnicodeDecodeError => handler
  | other => other
  end.

Section WithParser.

(** [pd.read_csv(path, sep=.., encoding=..)], the parser of pandas: its
    outcome on a file for a separator and an encoding. *)
Variable read_csv : string -> separator -> encoding -> result DataFrame.

(** One attempt in a given encoding: the plain parse, and the semicolon parse
    when the plain one found a single column. *)
Definition read_attempt (path : string) (enc : encoding) : result DataFrame :=
  let* df := read_csv path Comma enc in
  if Nat.eqb (shape1 df) 1 then read_csv path Semicolon enc else inr df.

Definition _robust_read_csv_local (path : string) : result DataFrame :=
  try_except_decode (read_attempt path Utf8) (read_attempt path Latin1).

End WithParser.

End Reader.

(** ** Canonical area keys: the normalisation of [extract_acs_and_mapping] *)
Module Canonical.

(** [col.astype(str)]: a missing cell becomes the text [nan]. *)
Definition astype_str (cell : option string) : string := default "nan" cell.

(** [col.astype(str).str.strip().str.upper()] *)
Definition normalize_name (cell : option string) : string :=
  PyStr.upper (PyStr.strip (astype_str cell)).

Definition is_whole (q : Q) : bool := Pos.eqb (Qden (Qred q)) 1.

(** The range of a signed integer of 64 bits *)
Definition int64_min : Z := - 2 ^ 63.
Definition int64_max : Z := 2 ^ 63 - 1.

Definition in_int64 (n : Z) : bool := (int64_min <=? n)%Z && (n <=? int64_max)%Z.

(** What the cast to int64 gives back unchanged: a whole number of the
    range of int64. *)
Definition castable (q : Q) : bool := is_whole q && in_int64 (Qnum (Qred q)).

(** [col.astype("Int64")] on a numeric column: missing stays missing, a
    whole number of the range of int64 becomes that integer; the cast
    raises [TypeError] as soon as one number is not whole or is out of the
    range.  The message is the one of a float64 column, which is what
    [pd.to_numeric] gives when a cell is missing or is not an integer. *)
Definition astype_Int64 (col : list (option Q)) : result (list (option Z)) :=
  if forallb (fun x => match x with Some q => castable q | None => true end) col
  then inr (map (fun x => (fun q => Qnum (Qred q)) <$> x) col)
  else raise (TypeError "cannot safely cast non-equivalent float64 to int64").

(** [frame[name]]: the cells of a column, [KeyError] when there is none. *)
Fixpoint index_of (name : string) (cols : list string) : option nat :=
  match cols with
  | [] => None
  | c :: rest => if String.eqb c name then Some O else S <$> index_of name rest
  end.

Definition column (df : DataFrame) (name : string) : result (list (option string)) :=
  match index_of name (columns df) with
  | Some i => inr (map (fun row => mjoin (row !! i)) (data df))
  | None => raise (KeyError name)
  end.

(** A row of [df_map], which gives the canonical area key *)
Record AreaMapRow := {
  community_area_int : option Z;
  community_area_name : string
}.

(** A row of [acs_small] *)
Record DemographicsRow := {
  acs_community_area_int : option string;
  acs_community_area_name : string;
  per_capita_income : option string;
  hardship_index : option string
}.




Section WithNumericParser.

(** The scalar parser behind [pd.to_numeric]: the number pandas reads a text
    as, if it reads one. *)
Variable to_numeric_scalar : string -> option Q.

(** [pd.to_numeric(col, errors="coerce")]: what does not parse is missing. *)
Definition to_numeric_coerce (col : list (option string)) : list (option Q) :=
  map (fun cell => cell ≫= to_numeric_scalar) col.

Definition zip_map_rows (codes : list (option Z)) (names : list string) : list AreaMapRow :=
  zip_with (fun c n => {| community_area_int := c; community_area_name := n |}) codes names.

Definition zip_acs_rows (codes : list (option string)) (names : list string)
    (incomes hardships : list (option string)) : list DemographicsRow :=
  zip_with (fun cn ih =>
              {| acs_community_area_int := cn.1; acs_community_area_name := cn.2;
                 per_capita_income := ih.1; hardship_index := ih.2 |})
           (zip codes names) (zip incomes hardships).

(** [extract_acs_and_mapping], from the two frames the reader returned. *)
Definition extract_acs_and_mapping (acs mapping : DataFrame)
  : result (list DemographicsRow * list AreaMapRow) :=
  let* acs_codes := column acs "Community Area Number" in
  let* acs_names := column acs "COMMUNITY AREA NAME" in
  let* acs_incomes := column acs "PER CAPITA INCOME " in
  let* acs_hardships := column acs "HARDSHIP INDEX" in
  let* resolved := Resolver.resolve_columns (columns mapping) in
  let id_col := resolved.1 in
  let name_col := resolved.2 in
  let* map_codes := column mapping id_col in
  let* map_names := column mapping name_col in
  let* codes := astype_Int64 (to_numeric_coerce map_codes) in
  let df_map := zip_map_rows codes (map normalize_name map_names) in
  let acs_small :=
    zip_acs_rows acs_codes (map normalize_name acs_names) acs_incomes acs_hardships in
  inr (acs_small, df_map).


End WithNumericParser.

End Canonical.

(** ** The warehouse loader: [ensure_schema] and [load_fact] *)
Module Loader.

(** A value bound to a statement parameter *)
Inductive sqlval :=
| SNull
| SInt (n : Z)
| SReal (q : Q)
| SText (s : string).

(** A row of [fact_requests]: the primary key column [sr_number] (declared
    [TEXT PRIMARY KEY], so [NULL] is accepted) and the 23 other columns in
    the order of the DDL. *)
Record FactRow := {
  fr_sr_number : option string;
  fr_others : list sqlval
}.

(** The table, in rowid order *)
Abbreviation table := (list FactRow).

(** [DROP TABLE IF EXISTS fact_requests; CREATE TABLE fact_requests (...)] *)
Definition ensure_schema (old : table) : table := [].

(** Two rows collide on the primary key when their keys are equal and not
    [NULL]: for a uniqueness constraint a [NULL] differs from every value,
    another [NULL] included. *)
Definition pk_conflict (new old : FactRow) : bool :=
  match fr_sr_number new, fr_sr_number old with
  | Some a, Some b => String.eqb a b
  | _, _ => false
  end.

(** [INSERT OR REPLACE INTO fact_requests VALUES (...)]: the colliding rows
    are deleted, then the row is inserted with a fresh rowid. *)
Definition insert_or_replace (t : table) (r : FactRow) : table :=
  filter (fun old => pk_conflict r old = false) t ++ [r].

(** [conn.executemany(..., rows)], on the parameter tuples that [load_fact]
    has built from the frame *)
Definition load_fact (t : table) (rows : list FactRow) : table :=
  foldl insert_or_replace t rows.

(** A stored row survives a batch when no row of the batch collides with it. *)
Definition survives (rows : list FactRow) (old : FactRow) : Prop :=
  Forall (fun r => pk_conflict r old = false) rows.

End Loader.

(** ** The rules of the specification, in its own words *)
Module Spec.

(** Every maximal run of white characters becomes one blank; [in_run] tells
    that the previous character was white. *)
Fixpoint collapse_from (in_run : bool) (s : string) : string :=
  match s with
  | EmptyString => EmptyString
  | String c s' =>
      if PyStr.isspace c then
        (if in_run then collapse_from true s' else String " " (collapse_from true s'))
      else String c (collapse_from false s')
  end.

Definition collapse (s : string) : string := collapse_from false s.

(** Header normalisation: trim, lowercase, collapse internal whitespace. *)
Definition normalize_header (s : string) : string :=
  collapse (PyStr.lower (PyStr.strip s)).


(** Two real-valued cells agree: both missing, or the same number. *)
Definition same_real (x y : option Q) : Prop :=
  match x, y with
  | Some a, Some b => (a == b)%Q
  | None, None => True
  | _, _ => False
  end.

(** The two modes agree on a row: the three KPI values are equal. *)
Definition kpis_agree (etl elt : Kpi.KpiColumns) : Prop :=
  same_real (Kpi.resolution_time_h etl) (Kpi.resolution_time_h elt)
  /\ Kpi.sla_met etl = Kpi.sla_met elt
  /\ Kpi.open_flag etl = Kpi.open_flag elt.

(** The SLA rule: the status is completed and the resolution time is defined
    and within the target stored in the row. *)
Definition sla_rule (upper_status : option string) (k : Kpi.KpiColumns) : Prop :=
  upper_status = Some "COMPLETED"%string
  /\ exists h, Kpi.resolution_time_h k = Some h /\ (h <= inject_Z (Kpi.sla_target_h k))%Q.

(** Created and closed instants have the same fraction of a second; nothing
    is asked of a row that lacks one of them. *)
Definition same_subsecond (r : Kpi.RawRequest) : Prop :=
  match Kpi.created_date r, Kpi.closed_date r with
  | Some o, Some c => (o mod 1000000000 = c mod 1000000000)%Z
  | _, _ => True
  end.

(** [needle] occurs in [text]. *)
Definition occurs_in (needle text : string) : Prop :=
  exists before after, text = before +:+ needle +:+ after.

End Spec.

(** ** Sample inputs *)
Module Samples.

Definition second : Z := 1000000000.
Definition hour : Z := 3600 * second.

(** A request created at the epoch and closed [ns] nanoseconds later. *)
Definition request (st : option string) (closed : option Z) : Kpi.RawRequest :=
  {| Kpi.sr_number := Some "SR24-00000001"%string;
     Kpi.sr_type := Some "Pothole in Street Complaint"%string;
     Kpi.owner_department := Some "CDOT"%string;
     Kpi.status := st;
     Kpi.created_date := Some 0;
     Kpi.closed_date := closed;
     Kpi.ward := Some 12;
     Kpi.community_area := Some 58 |}.

Definition completed_72h : Kpi.RawRequest :=
  request (Some "Completed"%string) (Some (72 * hour)).

(** 72.01 hours are 259236 seconds. *)
Definition completed_72_01h : Kpi.RawRequest :=
  request (Some "Completed"%string) (Some (259236 * second)).

Definition completed_60h : Kpi.RawRequest :=
  request (Some "Completed"%string) (Some (60 * hour)).

(** Closed one second and a half after creation. *)
Definition completed_1500ms : Kpi.RawRequest :=
  request (Some "Completed"%string) (Some 1500000000).

(** Closed half a second after the 72 hours. *)
Definition completed_72h_500ms : Kpi.RawRequest :=
  request (Some "Completed"%string) (Some (72 * hour + 500000000)).

Definition open_request : Kpi.RawRequest := request (Some "Open"%string) None.

Definition no_status : Kpi.RawRequest := request None (Some hour).

Definition env_sla_48 : gmap string string := {[ "SLA_HOURS"%string := "48"%string ]}.

Definition boundary_headers : list string :=
  ["AREA_NUMBE"; "COMMUNITY"; "SHAPE_AREA"]%string.

Definition unknown_headers : list string :=
  ["the_geom"; "PERIMETER"; "SHAPE_LEN"]%string.

(** Three files and what the parser of pandas makes of them: one separated
    by semicolons, one in Latin-1 separated by semicolons, one that no
    encoding makes readable. *)
Definition semicolon_frame : DataFrame :=
  {| columns := ["AREA_NUMBE"; "COMMUNITY"]%string;
     data := [[Some "8"; Some "NEAR NORTH SIDE"]]%string |}.

Definition one_column_frame : DataFrame :=
  {| columns := ["AREA_NUMBE;COMMUNITY"]%string;
     data := [[Some "8;NEAR NORTH SIDE"]]%string |}.

Definition disk_read_csv (path : string) (sep : Reader.separator) (enc : Reader.encoding)
  : result DataFrame :=
  if String.eqb path "semicolon.csv" then
    match sep with
    | Reader.Comma => inr one_column_frame
    | Reader.Semicolon => inr semicolon_frame
    end
  else if String.eqb path "latin1.csv" then
    match enc, sep with
    | Reader.Utf8, _ => raise UnicodeDecodeError
    | Reader.Latin1, Reader.Comma => inr one_column_frame
    | Reader.Latin1, Reader.Semicolon => inr semicolon_frame
    end
  else if String.eqb path "broken.csv" then
    match enc with
    | Reader.Utf8 => raise UnicodeDecodeError
    | Reader.Latin1 => raise (OtherError "ParserError")
    end
  else raise (OtherError "FileNotFoundError").

(** A scalar parser that reads decimal integers and the text [3.5]. *)
Definition parse_number (s : string) : option Q :=
  if String.eqb s "3.5" then Some (7 # 2)%Q else inject_Z <$> PyStr.int s.

Definition acs_frame : DataFrame :=
  {| columns := ["Community Area Number"; "COMMUNITY AREA NAME"; "PER CAPITA INCOME ";
                 "HARDSHIP INDEX"]%string;
     data := [[Some "8"; Some "Near North Side"; Some "88669"; Some "1"]]%string |}.

(** A boundaries file with an unreadable code and a name with two blanks
    inside and blanks around. *)
Definition mapping_frame : DataFrame :=
  {| columns := ["the_geom"; "AREA_NUMBE"; "COMMUNITY"]%string;
     data := [[Some "MULTIPOLYGON"; Some "8"; Some "near north side"];
              [Some "MULTIPOLYGON"; Some "n/a"; Some "  Near  North "]]%string |}.

(** The same file with a code that is a number but not a whole one. *)
Definition mapping_frame_fraction : DataFrame :=
  {| columns := ["AREA_NUMBE"; "COMMUNITY"]%string;
     data := [[Some "3.5"; Some "LOOP"]]%string |}.

(** The same file with a code that is 2^63, one more than int64 holds. *)
Definition mapping_frame_huge : DataFrame :=
  {| columns := ["AREA_NUMBE"; "COMMUNITY"]%string;
     data := [[Some "9223372036854775808"; Some "LOOP"]]%string |}.

(** Fact rows as [load_fact] binds them: one with a request number, one
    whose request number is missing. *)
Definition fact_row (key : option string) (open_flag : Z) : Loader.FactRow :=
  {| Loader.fr_sr_number := key;
     Loader.fr_others := [Loader.SText "Pothole in Street Complaint"; Loader.SInt open_flag] |}.

Definition keyed_rows : list Loader.FactRow :=
  [fact_row (Some "SR24-1"%string) 1; fact_row (Some "SR24-2"%string) 1;
   fact_row (Some "SR24-1"%string) 0].

Definition unkeyed_rows : list Loader.FactRow := [fact_row None 1].

End Samples.

(** ** Words: what [split] returns *)
Module Words.

Fixpoint has_space (s : string) : bool :=
  match s with
  | EmptyString => false
  | String c s' => PyStr.isspace c || has_space s'
  end.

(** A word is a non-empty text without white character. *)
Definition is_word (w : string) : Prop := w <> EmptyString /\ has_space w = false.

End Words.

(** ** The calendar splits of [transform_311] that need no calendar: hour
    and day of the week *)
Module Splits.

Definition ns_per_hour : Z := 3600000000000.
Definition ns_per_day : Z := 86400000000000.

(** [col.dt.hour.astype("Int64")] *)
Definition dt_hour (t : option Z) : option Z :=
  (fun ns => (ns / ns_per_hour) mod 24) <$> t.

(** [col.dt.weekday.astype("Int64")], 0 for Monday to 6 for Sunday; the
    epoch was a Thursday. *)
Definition dt_weekday (t : option Z) : option Z :=
  (fun ns => (ns / ns_per_day + 3) mod 7) <$> t.

(** The four columns [created_hour], [created_dow], [closed_hour] and
    [closed_dow] of a transformed row. *)
Record HourDowColumns := {
  created_hour : option Z;
  created_dow : option Z;
  closed_hour : option Z;
  closed_dow : option Z
}.

Definition transform_311_hour_dow (r : Kpi.RawRequest) : HourDowColumns :=
  let created_date := Kpi.to_datetime_coerce (Kpi.created_date r) in
  let closed_date := Kpi.to_datetime_coerce (Kpi.closed_date r) in
  {| created_hour := dt_hour created_date;
     created_dow := dt_weekday created_date;
     closed_hour := dt_hour closed_date;
     closed_dow := dt_weekday closed_date |}.

End Splits.

(** ** The parameter tuples of [load_fact] *)
Module FactParams.

(** A cell of the transformed frame, or of a record made of it.  [NA] is
    [pd.NA]; [NaN] is the missing value of float, object and datetime
    columns; [PyNone] is the [None] of Python, which no frame cell is before
    the records are made; [CTimeText] is a text [YYYY-MM-DD HH:MM:SS], held
    as the whole second it denotes. *)
Inductive cell :=
| NA
| NaN
| PyNone
| CText (s : string)
| CInt (n : Z)
| CReal (q : Q)
| CTimestamp (ns : Z)
| CTimeText (seconds : Z).

(** A frame: the column labels, which may repeat, and the rows of cells. *)
Record Frame := {
  fcolumns : list string;
  frows : list (list cell)
}.

(** Every row has one cell per column. *)
Definition well_formed (d : Frame) : Prop :=
  Forall (fun row => length row = length (fcolumns d)) (frows d).

(** The target columns, in the order of the DDL *)
Definition cols : list string :=
  ["sr_number"; "request_type_name"; "owner_dept_name"; "status";
   "created_date"; "closed_date";
   "created_date_key"; "created_date_only"; "created_time"; "created_hour";
   "created_dow"; "created_month";
   "closed_date_key"; "closed_date_only"; "closed_time"; "closed_hour";
   "closed_dow"; "closed_month";
   "ward_int"; "community_area_int";
   "resolution_time_h"; "sla_target_h"; "open_flag"; "sla_met"].

(** The mapping given to [rename] *)
Definition renames : list (string * string) :=
  [("sr_type", "request_type_name"); ("owner_department", "owner_dept_name");
   ("ward", "ward_int"); ("community_area", "community_area_int")].

Fixpoint dict_get (k : string) (dict : list (string * string)) : option string :=
  match dict with
  | [] => None
  | (a, b) :: rest => if String.eqb a k then Some b else dict_get k rest
  end.

Definition rename_label (c : string) : string := default c (dict_get c renames).

(** [d.rename(columns=renames)] *)
Definition rename (d : Frame) : Frame :=
  {| fcolumns := map rename_label (fcolumns d); frows := frows d |}.

Definition has_column (d : Frame) (c : string) : bool := bool_decide (c ∈ fcolumns d).

(** The number of columns labelled [c] *)
Definition count_label (c : string) (labels : list string) : nat :=
  length (filter (fun x => x = c) labels).

(** The cells of a row under the columns labelled [c] are replaced. *)
Fixpoint map_under (c : string) (f : cell -> cell) (labels : list string) (row : list cell)
  : list cell :=
  match labels, row with
  | l :: labels', v :: row' =>
      (if String.eqb l c then f v else v) :: map_under c f labels' row'
  | _, _ => row
  end.

(** [x.dt.strftime("%Y-%m-%d %H:%M:%S")] on one instant *)
Definition strftime_cell (t : option Z) : cell :=
  match Kpi.strftime_seconds t with
  | Some s => CTimeText s
  | None => NaN
  end.

Section WithDatetimeParser.

(** The scalar conversion behind [pd.to_datetime(col, errors="coerce")]:
    the instant a cell denotes, if it denotes one. *)
Variable to_datetime_scalar : cell -> option Z.

(** [if col in d.columns: d[col] = pd.to_datetime(d[col],
    errors="coerce").dt.strftime(...)].  With the label repeated, [d[col]]
    is a frame and [to_datetime] refuses it. *)
Definition format_datetime_column (col : string) (d : Frame) : result Frame :=
  if has_column d col then
    if Nat.eqb (count_label col (fcolumns d)) 1 then
      inr {| fcolumns := fcolumns d;
             frows := map (map_under col (fun v => strftime_cell (to_datetime_scalar v))
                                     (fcolumns d))
                          (frows d) |}
    else raise (ValueError "cannot assemble with duplicate keys")
  else inr d.

(** [if c not in d.columns: d[c] = pd.NA] *)
Definition fill_missing (d : Frame) (c : string) : Frame :=
  if has_column d c then d
  else {| fcolumns := fcolumns d ++ [c]; frows := map (fun row => row ++ [NA]) (frows d) |}.

(** The labels that the filling adds, in order: those of [wanted] that are
    not there yet. *)
Fixpoint missing_of (labels wanted : list string) : list string :=
  match wanted with
  | [] => []
  | c :: rest =>
      if bool_decide (c ∈ labels) then missing_of labels rest
      else c :: missing_of (labels ++ [c]) rest
  end.

(** A frame with further columns of [pd.NA] *)
Definition extend (d : Frame) (added : list string) : Frame :=
  {| fcolumns := fcolumns d ++ added;
     frows := map (fun row => row ++ replicate (length added) NA) (frows d) |}.

(** The boxing that [to_dict] applies to each cell: [pd.NA] becomes [None],
    every other cell keeps its value. *)
Definition maybe_box_native (v : cell) : cell :=
  match v with
  | NA => PyNone
  | _ => v
  end.

(** [d[cols].to_dict(orient="records")]: the rows, cell by cell boxed; the
    labels of a record are looked up by [record_get]. *)
Definition to_dict_records (rows : list (list cell)) : list (list cell) :=
  map (map maybe_box_native) rows.

(** [r[c]] in a record of [to_dict(orient="records")]: with a repeated
    label the dictionary keeps the cell of the last column. *)
Fixpoint record_get (labels : list string) (row : list cell) (c : string) : option cell :=
  match labels, row with
  | l :: labels', v :: row' =>
      match record_get labels' row' c with
      | Some x => Some x
      | None => if String.eqb l c then Some v else None
      end
  | _, _ => None
  end.

(** [tuple(r[c] for c in cols)] *)
Fixpoint tuple_of (labels : list string) (row : list cell) (wanted : list string)
  : result (list cell) :=
  match wanted with
  | [] => inr []
  | c :: rest =>
      match record_get labels row c with
      | None => raise (KeyError c)
      | Some v => let* vs := tuple_of labels row rest in inr (v :: vs)
      end
  end.

Fixpoint tuples_of (labels : list string) (rows : list (list cell)) : result (list (list cell)) :=
  match rows with
  | [] => inr []
  | row :: rest =>
      let* t := tuple_of labels row cols in
      let* ts := tuples_of labels rest in
      inr (t :: ts)
  end.

(** The list that [load_fact] hands to [executemany]. *)
Definition load_fact_parameters (df : Frame) : result (list (list cell)) :=
  let* d := format_datetime_column "created_date" df in
  let* d := format_datetime_column "closed_date" d in
  let d := rename d in
  let d := foldl fill_missing d cols in
  tuples_of (fcolumns d) (to_dict_records (frows d)).

End WithDatetimeParser.

End FactParams.

(** ** The dimension view [dim_area_extended_v] of the ELT pipeline *)
Module DimView.

(** A row of [stg_area_map]: the code is an integer or [NULL]. *)
Record AreaMapStaged := {
  m_community_area_int : option Z;
  m_community_area_name : option string
}.

(** A row of [stg_demographics].  The code is held as the number it
    compares as ([NULL] when it is missing). *)
Record DemographicsStaged := {
  a_community_area_int : option Q;
  a_community_area_name : option string;
  a_per_capita_income : Loader.sqlval;
  a_hardship_index : Loader.sqlval
}.

(** A row of the view *)
Record DimAreaRow := {
  community_area_int : option Z;
  community_area_name : option string;
  per_capita_income : Loader.sqlval;
  hardship_index : Loader.sqlval
}.

(** [x = y] between an integer and a number *)
Definition sql_eq_num (x : option Z) (y : option Q) : option bool :=
  match x, y with
  | Some a, Some b => Some (Qeq_bool (inject_Z a) b)
  | _, _ => None
  end.

(** The [ON] condition of the join *)
Definition on_condition (m : AreaMapStaged) (a : DemographicsStaged) : option bool :=
  Kpi.sql_and
    (sql_eq_num (m_community_area_int m) (a_community_area_int a))
    (Kpi.sql_eq_text (Kpi.UPPER (m_community_area_name m))
                     (Kpi.UPPER (a_community_area_name a))).

Definition joined (m : AreaMapStaged) (a : DemographicsStaged) : DimAreaRow :=
  {| community_area_int := m_community_area_int m;
     community_area_name := m_community_area_name m;
     per_capita_income := a_per_capita_income a;
     hardship_index := a_hardship_index a |}.

Definition unmatched (m : AreaMapStaged) : DimAreaRow :=
  {| community_area_int := m_community_area_int m;
     community_area_name := m_community_area_name m;
     per_capita_income := Loader.SNull;
     hardship_index := Loader.SNull |}.

(** The demographics rows for which the condition is true *)
Definition matches (m : AreaMapStaged) (demographics : list DemographicsStaged)
  : list DemographicsStaged :=
  filter (fun a => on_condition m a = Some true) demographics.

(** [FROM stg_area_map m LEFT JOIN stg_demographics a ON ...]: the rows
    that one row of the left table gives. *)
Definition left_join_rows (demographics : list DemographicsStaged) (m : AreaMapStaged)
  : list DimAreaRow :=
  match matches m demographics with
  | [] => [unmatched m]
  | found => map (joined m) found
  end.

Definition dim_area_extended_v (stg_area_map : list AreaMapStaged)
    (stg_demographics : list DemographicsStaged) : list DimAreaRow :=
  concat (map (left_join_rows stg_demographics) stg_area_map).

End DimView.

(** ** The orchestration [run] of both pipelines *)
Module Orchestrator.

(** The steps a run calls *)
Inductive step :=
| Extract311
| ExtractAcsAndMapping
| Transform311
| Connect
| EnsureSchema
| LoadFact
| LoadDimAreaExtended
| Stage (name : string)
| EnsureSchemaAndViews
| HealthCheck.

(** What a run does, in order: the steps it calls, what it logs itself, and
    the closing of the connection. *)
Inductive event :=
| Called (s : step)
| LogStart
| LogSuccess
| LogFailed (e : exn)
| LogEnd
| Closed.

(** A program returns or raises, and leaves a trace. *)
Definition prog (A : Type) : Type := list event * result A.

Definition ret {A} (a : A) : prog A := ([], inr a).

Definition seq {A B} (m : prog A) (k : A -> prog B) : prog B :=
  match m with
  | (t, inl e) => (t, inl e)
  | (t, inr a) => let (t', r) := k a in (t ++ t', r)
  end.

Definition emit (ev : event) : prog unit := ([ev], inr tt).

(** Calling a step whose outcome is [r] *)
Definition call {A} (s : step) (r : result A) : prog A := ([Called s], r).

(** [try: body except Exception as e: handler(e)] *)
Definition try_except {A} (body : prog A) (handler : exn -> prog A) : prog A :=
  match body with
  | (t, inl e) => let (t', r) := handler e in (t ++ t', r)
  | done => done
  end.

(** [try: body finally: final], with a [final] that does not raise *)
Definition try_finally {A} (body : prog A) (final : prog unit) : prog A :=
  let (t, r) := body in (t ++ fst final, r).

Definition throw {A} (e : exn) : prog A := ([], inl e).

Notation "'run*' x ':=' m 'in' k" := (seq m (fun x => k))
  (at level 10, x pattern, m at level 100, k at level 200).

Section WithSteps.

Variables Frame Refs Conn : Type.

(** The outcomes of the steps of the ETL run *)
Variable extract_311 : result Frame.
Variable extract_acs_and_mapping : result Refs.
Variable transform_311 : Frame -> result Frame.
Variable connect : result Conn.
Variable ensure_schema : Conn -> result unit.
Variable load_fact : Conn -> Frame -> result unit.
Variable load_dim_area_extended : Conn -> Refs -> result unit.
Variable health_check : Conn -> result unit.

(** [run] of [pipeline_etl.py] *)
Definition run_etl : prog unit :=
  run* _ := emit LogStart in
  run* df := call Extract311 extract_311 in
  run* refs := call ExtractAcsAndMapping extract_acs_and_mapping in
  run* tf := call Transform311 (transform_311 df) in
  run* conn := call Connect connect in
  try_finally
    (try_except
       (run* _ := call EnsureSchema (ensure_schema conn) in
        run* _ := call LoadFact (load_fact conn tf) in
        run* _ := call LoadDimAreaExtended (load_dim_area_extended conn refs) in
        run* _ := call HealthCheck (health_check conn) in
        emit LogSuccess)
       (fun e => run* _ := emit (LogFailed e) in throw e))
    (run* _ := emit Closed in emit LogEnd).

(** The outcomes of the steps that only the ELT run has *)
Variable stage : Conn -> string -> result unit.
Variable ensure_schema_and_views : Conn -> result unit.

(** [run] of [pipeline_elt.py] *)
Definition run_elt : prog unit :=
  run* _ := emit LogStart in
  run* df := call Extract311 extract_311 in
  run* refs := call ExtractAcsAndMapping extract_acs_and_mapping in
  run* conn := call Connect connect in
  try_finally
    (try_except
       (run* _ := call (Stage "stg_requests") (stage conn "stg_requests") in
        run* _ := call (Stage "stg_demographics") (stage conn "stg_demographics") in
        run* _ := call (Stage "stg_area_map") (stage conn "stg_area_map") in
        run* _ := call EnsureSchemaAndViews (ensure_schema_and_views conn) in
        run* _ := call HealthCheck (health_check conn) in
        emit LogSuccess)
       (fun e => run* _ := emit (LogFailed e) in throw e))
    (run* _ := emit Closed in emit LogEnd).

(** The plain sequencing of the outcomes of the steps, without any handler *)
Definition etl_outcome : result unit :=
  let* df := extract_311 in
  let* refs := extract_acs_and_mapping in
  let* tf := transform_311 df in
  let* conn := connect in
  let* _ := ensure_schema conn in
  let* _ := load_fact conn tf in
  let* _ := load_dim_area_extended conn refs in
  health_check conn.

Definition elt_outcome : result unit :=
  let* df := extract_311 in
  let* refs := extract_acs_and_mapping in
  let* conn := connect in
  let* _ := stage conn "stg_requests" in
  let* _ := stage conn "stg_demographics" in
  let* _ := stage conn "stg_area_map" in
  let* _ := ensure_schema_and_views conn in
  health_check conn.

(** What precedes the [try] block: the frames and the connection, or the
    first exception. *)
Definition etl_opening : result (Frame * Refs * Conn) :=
  let* df := extract_311 in
  let* refs := extract_acs_and_mapping in
  let* tf := transform_311 df in
  let* conn := connect in
  inr (tf, refs, conn).

Definition elt_opening : result (Frame * Refs * Conn) :=
  let* df := extract_311 in
  let* refs := extract_acs_and_mapping in
  let* conn := connect in
  inr (df, refs, conn).

(** What the [try] block does on an open connection *)
Definition etl_body (tf : Frame) (refs : Refs) (conn : Conn) : result unit :=
  let* _ := ensure_schema conn in
  let* _ := load_fact conn tf in
  let* _ := load_dim_area_extended conn refs in
  health_check conn.

Definition elt_body (conn : Conn) : result unit :=
  let* _ := stage conn "stg_requests" in
  let* _ := stage conn "stg_demographics" in
  let* _ := stage conn "stg_area_map" in
  let* _ := ensure_schema_and_views conn in
  health_check conn.

End WithSteps.

(** A step that talks to the database through the connection *)
Definition uses_connection (ev : event) : bool :=
  match ev with
  | Called EnsureSchema | Called LoadFact | Called LoadDimAreaExtended
  | Called (Stage _) | Called EnsureSchemaAndViews | Called HealthCheck => true
  | _ => false
  end.

Definition is_closed (ev : event) : bool :=
  match ev with Closed => true | _ => false end.

Definition is_failure_log (ev : event) : bool :=
  match ev with LogFailed _ => true | _ => false end.

(** The end of the trace of a run that opened the connection: what is
    logged for the outcome of the [try] block, the closing, the last log. *)
Definition guarded_tail (outcome : result unit) : list event :=
  [match outcome with inr _ => LogSuccess | inl e => LogFailed e end; Closed; LogEnd].

(** An event of a run that never had a connection *)
Definition before_connection (ev : event) : Prop :=
  uses_connection ev = false /\ is_closed ev = false /\ is_failure_log ev = false
  /\ ev <> LogEnd /\ ev <> LogSuccess.

End Orchestrator.

(** ** What [extract_acs_and_mapping] needs and gives on the ACS side *)
Module Extraction.

(** The four columns that the extraction takes from the ACS file *)
Definition acs_present (acs : DataFrame) : Prop :=
  "Community Area Number"%string ∈ columns acs
  /\ "COMMUNITY AREA NAME"%string ∈ columns acs
  /\ "PER CAPITA INCOME "%string ∈ columns acs
  /\ "HARDSHIP INDEX"%string ∈ columns acs.

(** How a row of [acs_small] relates to the cells of the ACS file: the name
    is normalised, the three other cells are those of the file. *)
Definition acs_row_of_cells (code name income hardship : option string)
    (row : Canonical.DemographicsRow) : Prop :=
  Canonical.acs_community_area_int row = code
  /\ Canonical.acs_community_area_name row
     = PyStr.upper (PyStr.strip (Canonical.astype_str name))
  /\ Canonical.per_capita_income row = income
  /\ Canonical.hardship_index row = hardship.

End Extraction.

(** ** Further sample inputs *)
Module MoreSamples.

(** An ACS file without its income column *)
Definition acs_frame_without_income : DataFrame :=
  {| columns := ["Community Area Number"; "COMMUNITY AREA NAME"; "HARDSHIP INDEX"]%string;
     data := [[Some "8"; Some "Near North Side"; Some "1"]]%string |}.

(** A boundaries file in which no header is a known alias *)
Definition mapping_frame_unknown : DataFrame :=
  {| columns := Samples.unknown_headers;
     data := [[Some "MULTIPOLYGON"; Some "1.5"; Some "2.5"]]%string |}.

Definition expected_acs_small : list Canonical.DemographicsRow :=
  [ {| Canonical.acs_community_area_int := Some "8"%string;
       Canonical.acs_community_area_name := "NEAR NORTH SIDE";
       Canonical.per_capita_income := Some "88669"%string;
       Canonical.hardship_index := Some "1"%string |} ].

Definition expected_df_map : list Canonical.AreaMapRow :=
  [ {| Canonical.community_area_int := Some 8;
       Canonical.community_area_name := "NEAR NORTH SIDE" |};
    {| Canonical.community_area_int := None;
       Canonical.community_area_name := "NEAR  NORTH" |} ].

(** A transformed frame with one open request, without the split columns
    and without ward and area; its creation instant has half a second. *)
Definition request_frame : FactParams.Frame :=
  {| FactParams.fcolumns :=
       ["sr_number"; "sr_type"; "status"; "created_date"; "closed_date"; "open_flag"]%string;
     FactParams.frows :=
       [[FactParams.CText "SR24-1"; FactParams.CText "Pothole in Street Complaint";
         FactParams.CText "Open"; FactParams.CTimestamp 1500000000; FactParams.NaN;
         FactParams.CInt 1]] |}.

(** A conversion that knows instants only *)
Definition instant_of_cell (c : FactParams.cell) : option Z :=
  match c with
  | FactParams.CTimestamp ns => Some ns
  | _ => None
  end.

Definition expected_tuple : list FactParams.cell :=
  [FactParams.CText "SR24-1"; FactParams.CText "Pothole in Street Complaint";
   FactParams.PyNone; FactParams.CText "Open";
   FactParams.CTimeText 1; FactParams.NaN;
   FactParams.PyNone; FactParams.PyNone; FactParams.PyNone; FactParams.PyNone;
   FactParams.PyNone; FactParams.PyNone;
   FactParams.PyNone; FactParams.PyNone; FactParams.PyNone; FactParams.PyNone;
   FactParams.PyNone; FactParams.PyNone;
   FactParams.PyNone; FactParams.PyNone;
   FactParams.PyNone; FactParams.PyNone; FactParams.CInt 1; FactParams.PyNone].

(** An area without code, and a demographics row without code for the same
    name *)
Definition area_without_code : DimView.AreaMapStaged :=
  {| DimView.m_community_area_int := None;
     DimView.m_community_area_name := Some "LOOP"%string |}.

Definition demographics_without_code : DimView.DemographicsStaged :=
  {| DimView.a_community_area_int := None;
     DimView.a_community_area_name := Some "LOOP"%string;
     DimView.a_per_capita_income := Loader.SReal (65526 # 1);
     DimView.a_hardship_index := Loader.SReal (3 # 1) |}.

(** The steps of a run, over trivial data: every step succeeds, except that
    the fact load violates a constraint. *)
Definition step_ok : result unit := inr tt.
Definition load_violation : exn := OtherError "IntegrityError".

Definition run_with_failing_load : Orchestrator.prog unit :=
  Orchestrator.run_etl unit unit unit step_ok step_ok (fun _ => step_ok) step_ok
    (fun _ => step_ok) (fun _ _ => raise load_violation) (fun _ _ => step_ok)
    (fun _ => step_ok).

(** The same steps when the feed cannot be fetched *)
Definition fetch_failure : exn := OtherError "HTTPError".

Definition run_with_failing_fetch : Orchestrator.prog unit :=
  Orchestrator.run_etl unit unit unit (raise fetch_failure) step_ok (fun _ => step_ok)
    step_ok (fun _ => step_ok) (fun _ _ => step_ok) (fun _ _ => step_ok)
    (fun _ => step_ok).

End MoreSamples.

(** * Properties of the string primitives *)
Section PyStrFacts.

Import PyStr.

Ltac by_cases_on_char c :=
  destruct c as [[] [] [] [] [] [] [] []]; reflexivity.

Lemma isspace_lower_char (c : ascii) : isspace (lower_char c) = isspace c.
Proof. by_cases_on_char c. Qed.



Lemma append_nil_l (t : string) : EmptyString +:+ t = t.
Proof. reflexivity. Qed.

Lemma append_cons (a : ascii) (w t : string) : String a w +:+ t = String a (w +:+ t).
Proof. reflexivity. Qed.

Lemma append_nil_r (w : string) : w +:+ EmptyString = w.
Proof. induction w as [|a w IH]; [reflexivity | rewrite append_cons, IH; reflexivity]. Qed.

Lemma append_snoc_assoc (w : string) (c : ascii) (t : string) :
  (w +:+ String c EmptyString) +:+ t = w +:+ String c t.
Proof.
  induction w as [|a w IH]; [reflexivity|].
  rewrite !append_cons, IH. reflexivity.
Qed.

Lemma append_snoc_nonempty (w : string) (c : ascii) :
  w +:+ String c EmptyString <> EmptyString.
Proof. destruct w; discriminate. Qed.

Lemma ends_clean_inv (c : ascii) (t : string) :
  ends_clean (String c t) -> ends_clean t /\ (t = EmptyString -> isspace c = false).
Proof.
  unfold ends_clean. simpl. destruct (rstrip t) as [|a u] eqn:E.
  - destruct (isspace c) eqn:Hc; [discriminate|].
    intros [= <-]. split; [reflexivity | intros _; reflexivity].
  - intros [= <-]. split; [reflexivity | discriminate].
Qed.

Lemma rstrip_idem (s : string) : rstrip (rstrip s) = rstrip s.
Proof.
  induction s as [|c s IH]; simpl; [reflexivity|].
  destruct (rstrip s) as [|a u] eqn:E.
  - destruct (isspace c) eqn:Hc; simpl; [reflexivity | rewrite Hc; reflexivity].
  - simpl in *. rewrite IH. reflexivity.
Qed.

Lemma lstrip_starts_clean (s : string) : starts_clean (lstrip s).
Proof.
  induction s as [|c s IH]; simpl; [exact I|].
  destruct (isspace c) eqn:Hc; [exact IH | exact Hc].
Qed.

Lemma rstrip_starts_clean (s : string) : starts_clean s -> starts_clean (rstrip s).
Proof.
  destruct s as [|c s]; simpl; [trivial|]. intros Hc.
  destruct (rstrip s); [rewrite Hc|]; exact Hc.
Qed.


Lemma strip_ends_clean (s : string) : ends_clean (strip s).
Proof. apply rstrip_idem. Qed.

Lemma strip_starts_clean (s : string) : starts_clean (strip s).
Proof. apply rstrip_starts_clean, lstrip_starts_clean. Qed.


(** Case mapping keeps white characters in place, so it commutes with the
    strips. *)
Section CaseMap.

Variable f : ascii -> ascii.
Hypothesis f_space : forall c, isspace (f c) = isspace c.


Lemma rstrip_map_chars (s : string) : rstrip (map_chars f s) = map_chars f (rstrip s).
Proof.
  induction s as [|c s IH]; simpl; [reflexivity|].
  rewrite IH, f_space. destruct (rstrip s) as [|a u]; simpl; [|reflexivity].
  destruct (isspace c); reflexivity.
Qed.


End CaseMap.


(** [split] never returns nothing while a word is being read, nor on a
    non-empty text that is clean at its end. *)
Lemma split_from_word_nonempty (t w : string) :
  w <> EmptyString -> split_from w t <> [].
Proof.
  revert w. induction t as [|c t IH]; intros w Hw; simpl.
  - destruct w; [contradiction | discriminate].
  - destruct (isspace c).
    + destruct w; [contradiction | discriminate].
    + apply IH, append_snoc_nonempty.
Qed.

Lemma split_from_clean_nonempty (t : string) :
  t <> EmptyString -> ends_clean t -> split_from EmptyString t <> [].
Proof.
  induction t as [|c t IH]; intros Hne Hclean; [contradiction|].
  apply ends_clean_inv in Hclean as [Ht Hc]. simpl.
  destruct (isspace c) eqn:Ec.
  - apply IH; [|exact Ht]. intros ->. specialize (Hc eq_refl). congruence.
  - apply split_from_word_nonempty. discriminate.
Qed.

Lemma join_cons (sep w : string) (ws : list string) :
  ws <> [] -> join sep (w :: ws) = w +:+ sep +:+ join sep ws.
Proof. destruct ws; [contradiction | reflexivity]. Qed.

(** Joining the words of a text that is clean at its end collapses its runs
    of white characters. *)
Lemma join_split_from (t w : string) :
  ends_clean t ->
  join " " (split_from w t)
  = match w with
    | EmptyString => Spec.collapse_from true t
    | _ => w +:+ Spec.collapse_from false t
    end.
Proof.
  revert w. induction t as [|c t IH]; intros w Hclean.
  - simpl. destruct w; [reflexivity | rewrite append_nil_r; reflexivity].
  - apply ends_clean_inv in Hclean as [Ht Hc]. simpl.
    destruct (isspace c) eqn:Ec.
    + assert (Hne : t <> EmptyString).
      { intros ->. specialize (Hc eq_refl). congruence. }
      destruct w as [|a w].
      * rewrite (IH EmptyString Ht). reflexivity.
      * rewrite join_cons by (apply split_from_clean_nonempty; assumption).
        rewrite (IH EmptyString Ht). reflexivity.
    + rewrite (IH _ Ht).
      destruct (w +:+ String c EmptyString) eqn:E.
      * exfalso. exact (append_snoc_nonempty w c E).
      * rewrite <- E, append_snoc_assoc. destruct w; reflexivity.
Qed.

End PyStrFacts.

(** * Properties of the column resolver *)
Section ResolverFacts.

Import PyStr Resolver.

(** [_norm] trims, lowercases and collapses, as the specification words it. *)
Lemma norm_is_normalize_header (s : string) : _norm s = Spec.normalize_header s.
Proof.
  unfold _norm, Spec.normalize_header, Spec.collapse, split, lower.
  assert (Hend : ends_clean (map_chars lower_char (strip s))).
  { unfold ends_clean. rewrite (rstrip_map_chars _ isspace_lower_char).
    rewrite strip_ends_clean. reflexivity. }
  rewrite (join_split_from _ EmptyString Hend).
  pose proof (strip_starts_clean s) as Hstart.
  destruct (strip s) as [|c t]; simpl in *; [reflexivity|].
  rewrite isspace_lower_char, Hstart. reflexivity.
Qed.

Lemma build_lookup_snoc (cols : list string) (c : string) :
  build_lookup (cols ++ [c]) = <[_norm c := c]> (build_lookup cols).
Proof. unfold build_lookup. rewrite foldl_app. reflexivity. Qed.

(** The lookup sends a normal form to the last header that has it. *)
Lemma build_lookup_last (cols : list string) (k : string) :
  build_lookup cols !! k = last (filter (fun c => _norm c = k) cols).
Proof.
  induction cols as [|c cols IH] using rev_ind; [reflexivity|].
  rewrite build_lookup_snoc, filter_app, lookup_insert.
  rewrite filter_cons, filter_nil.
  destruct (decide (_norm c = k)) as [E|E].
  - rewrite last_snoc. reflexivity.
  - rewrite app_nil_r. exact IH.
Qed.

Lemma build_lookup_Some (cols : list string) (k col : string) :
  build_lookup cols !! k = Some col -> col ∈ cols /\ _norm col = k.
Proof.
  rewrite build_lookup_last. intros H.
  apply last_Some_elem_of in H. apply list_elem_of_filter in H. tauto.
Qed.

Lemma build_lookup_None (cols : list string) (k : string) :
  build_lookup cols !! k = None <-> forall c, c ∈ cols -> _norm c <> k.
Proof.
  rewrite build_lookup_last, last_None. split.
  - intros H c Hc E.
    assert (Hin : c ∈ filter (fun c => _norm c = k) cols) by (apply list_elem_of_filter; auto).
    rewrite H in Hin. apply elem_of_nil in Hin. exact Hin.
  - intros H. apply elem_of_nil_inv. intros c Hc.
    apply list_elem_of_filter in Hc as [E Hc]. exact (H c Hc E).
Qed.

(** The probe returns the entry of the first key that the lookup has. *)
Lemma first_match_Some (keys : list string) (lookup : gmap string string) (col : string) :
  first_match keys lookup = Some col
  <-> exists i key, keys !! i = Some key /\ lookup !! key = Some col
        /\ forall j earlier, (j < i)%nat -> keys !! j = Some earlier -> lookup !! earlier = None.
Proof.
  induction keys as [|k keys IH]; simpl.
  - split; [discriminate | intros (i & key & H & _); discriminate].
  - destruct (lookup !! k) as [c|] eqn:Hk.
    + split.
      * intros [= ->]. exists O, k. split; [reflexivity|]. split; [exact Hk|]. intros; lia.
      * intros (i & key & Hi & Hcol & Hbefore). destruct i as [|i].
        -- simpl in Hi. injection Hi as <-. congruence.
        -- specialize (Hbefore O k ltac:(lia) eq_refl). congruence.
    + rewrite IH. split.
      * intros (i & key & Hi & Hcol & Hbefore). exists (S i), key.
        split; [exact Hi|]. split; [exact Hcol|].
        intros [|j] earlier Hj He; simpl in He.
        -- injection He as <-. exact Hk.
        -- apply (Hbefore j); [lia | exact He].
      * intros (i & key & Hi & Hcol & Hbefore). destruct i as [|i].
        -- simpl in Hi. injection Hi as <-. congruence.
        -- exists i, key. split; [exact Hi|]. split; [exact Hcol|].
           intros j earlier Hj He. apply (Hbefore (S j)); [lia | exact He].
Qed.

Lemma first_match_None (keys : list string) (lookup : gmap string string) :
  first_match keys lookup = None <-> forall key, key ∈ keys -> lookup !! key = None.
Proof.
  induction keys as [|k keys IH]; simpl.
  - split; [intros _ key Hin; apply elem_of_nil in Hin; contradiction | reflexivity].
  - destruct (lookup !! k) as [c|] eqn:Hk.
    + split; [discriminate|]. intros H. rewrite (H k) in Hk; [discriminate | left].
    + rewrite IH. split.
      * intros H key Hin. apply elem_of_cons in Hin as [->|Hin]; [exact Hk | exact (H key Hin)].
      * intros H key Hin. apply H. right. exact Hin.
Qed.

(** A role none of whose keys is the normal form of a header is not found. *)
Lemma first_match_no_header (keys cols : list string) :
  (forall c, c ∈ cols -> _norm c ∉ keys) -> first_match keys (build_lookup cols) = None.
Proof.
  intros H. apply first_match_None. intros key Hkey.
  apply build_lookup_None. intros c Hc E. apply (H c Hc). rewrite E. exact Hkey.
Qed.

Lemma norm_empty : _norm EmptyString = EmptyString.
Proof. reflexivity. Qed.

(** A header found for a non-empty key is not the empty text, hence true. *)
Lemma first_match_truthy (keys cols : list string) (col : string) :
  EmptyString ∉ keys ->
  first_match keys (build_lookup cols) = Some col -> falsy (Some col) = false.
Proof.
  intros Hkeys H. apply first_match_Some in H as (i & key & Hi & Hcol & _).
  apply build_lookup_Some in Hcol as [_ Hnorm].
  destruct col; [|reflexivity].
  exfalso. apply Hkeys. rewrite <- norm_empty, Hnorm.
  apply list_elem_of_lookup. exists i. exact Hi.
Qed.

Lemma id_keys_nonempty : EmptyString ∉ id_keys.
Proof. unfold id_keys. intros H. repeat (apply elem_of_cons in H as [H|H]; [discriminate|]). inversion H. Qed.

Lemma name_keys_nonempty : EmptyString ∉ name_keys.
Proof. unfold name_keys. intros H. repeat (apply elem_of_cons in H as [H|H]; [discriminate|]). inversion H. Qed.

(** The resolver returns the two probes when both succeed, and raises
    otherwise. *)
Lemma resolve_columns_found (cols : list string) (i n : string) :
  first_match id_keys (build_lookup cols) = Some i ->
  first_match name_keys (build_lookup cols) = Some n ->
  resolve_columns cols = inr (i, n).
Proof.
  intros Hi Hn. unfold resolve_columns.
  rewrite Hi, Hn.
  rewrite (first_match_truthy _ _ _ id_keys_nonempty Hi).
  rewrite (first_match_truthy _ _ _ name_keys_nonempty Hn).
  reflexivity.
Qed.

Lemma resolve_columns_missing (cols : list string) :
  first_match id_keys (build_lookup cols) = None
  \/ first_match name_keys (build_lookup cols) = None ->
  resolve_columns cols = inl (ValueError (unresolved_message cols)).
Proof.
  intros H. unfold resolve_columns.
  destruct H as [H|H]; rewrite H; simpl.
  - reflexivity.
  - rewrite orb_true_r. reflexivity.
Qed.

Lemma resolve_columns_inr (cols : list string) (i n : string) :
  resolve_columns cols = inr (i, n) ->
  first_match id_keys (build_lookup cols) = Some i
  /\ first_match name_keys (build_lookup cols) = Some n.
Proof.
  unfold resolve_columns.
  destruct (first_match id_keys _) as [a|], (first_match name_keys _) as [b|];
    destruct (falsy _ || falsy _); try discriminate.
  intros [= -> ->]. split; reflexivity.
Qed.

Lemma message_lists_headers (cols : list string) :
  Spec.occurs_in (repr_list cols) (unresolved_message cols).
Proof.
  unfold Spec.occurs_in, unresolved_message.
  exists ("Konnte Mapping-Spalten nicht erkennen." +:+ newline +:+ "Vorhandene Spalten: ").
  exists (newline +:+ "Erwartet etwas wie 'AREA_NUMBE' (ID) und 'COMMUNITY' (Name).").
  reflexivity.
Qed.


(** C5. [_norm] is the trim-lowercase-collapse normalisation; the lookup maps
    a normal form to an original header that has it; each role is resolved
    to the lookup entry of the first key of its fixed list that the lookup
    has, whatever later keys would give; and the headers AREA_NUMBE,
    COMMUNITY, SHAPE_AREA resolve to AREA_NUMBE and COMMUNITY. *)
Theorem resolver_first_alias_wins :
  (forall s : string, _norm s = Spec.normalize_header s)
  /\ (forall (cols : list string) (k col : string),
         build_lookup cols !! k = Some col -> col ∈ cols /\ _norm col = k)
  /\ (forall (cols : list string) (c : string),
         c ∈ cols -> is_Some (build_lookup cols !! _norm c))
  /\ (forall (keys : list string) (lookup : gmap string string) (col : string),
         first_match keys lookup = Some col
         <-> exists i key, keys !! i = Some key /\ lookup !! key = Some col
               /\ forall j earlier, (j < i)%nat -> keys !! j = Some earlier ->
                                    lookup !! earlier = None)
  /\ (forall (cols : list string) (i n : string),
         resolve_columns cols = inr (i, n)
         <-> first_match id_keys (build_lookup cols) = Some i
             /\ first_match name_keys (build_lookup cols) = Some n)
  /\ resolve_columns Samples.boundary_headers = inr ("AREA_NUMBE"%string, "COMMUNITY"%string).
Proof.
  split; [exact norm_is_normalize_header|].
  split; [exact build_lookup_Some|].
  split.
  { intros cols c Hc. destruct (build_lookup cols !! _norm c) eqn:E; [eauto|].
    exfalso. exact (proj1 (build_lookup_None cols (_norm c)) E c Hc eq_refl). }
  split; [exact first_match_Some|].
  split.
  - intros cols i n. split.
    + apply resolve_columns_inr.
    + intros [Hi Hn]. apply resolve_columns_found; assumption.
  - vm_compute. reflexivity.
Qed.

(** C6. When no header has the normal form of a key of the code role, or
    none has one of the name role, the resolver returns no pair: it raises
    the error whose message contains the printed list of all headers. *)
Theorem resolver_raises_with_all_headers (cols : list string) :
  Forall (fun c => _norm c ∉ id_keys) cols \/ Forall (fun c => _norm c ∉ name_keys) cols ->
  resolve_columns cols = inl (ValueError (unresolved_message cols))
  /\ Spec.occurs_in (repr_list cols) (unresolved_message cols).
Proof.
  intros H. split; [|apply message_lists_headers].
  apply resolve_columns_missing.
  destruct H as [H|H]; [left | right]; apply first_match_no_header;
    intros c Hc; exact (proj1 (Forall_forall _ _) H c Hc).
Qed.

Lemma resolver_raises_with_all_headers_witness :
  Forall (fun c => _norm c ∉ id_keys) Samples.unknown_headers
  /\ resolve_columns Samples.unknown_headers
     = inl (ValueError (unresolved_message Samples.unknown_headers))
  /\ Spec.occurs_in "['the_geom', 'PERIMETER', 'SHAPE_LEN']"
                    (unresolved_message Samples.unknown_headers).
Proof.
  assert (H : Forall (fun c => _norm c ∉ id_keys) Samples.unknown_headers).
  { apply (bool_decide_unpack _). vm_compute. exact I. }
  split; [exact H|].
  exact (resolver_raises_with_all_headers Samples.unknown_headers (or_introl H)).
Defined.

End ResolverFacts.

(** * Properties of the KPI deriver *)
Section KpiFacts.

Import Kpi.

Lemma astype_int_1 (b : bool) : astype_int b = 1 <-> b = true.
Proof. destruct b; simpl; split; intros H; try reflexivity; discriminate. Qed.

Lemma astype_int_0 (b : bool) : astype_int b = 0 <-> b = false.
Proof. destruct b; simpl; split; intros H; try reflexivity; discriminate. Qed.

Lemma series_eq_true (x : option string) (v : string) :
  series_eq x v = true <-> x = Some v.
Proof.
  destruct x as [s|]; simpl.
  - rewrite String.eqb_eq. split; [intros -> | intros [= ->]]; reflexivity.
  - split; discriminate.
Qed.

Lemma series_ne_negb (x : option string) (v : string) :
  series_ne x v = negb (series_eq x v).
Proof. destruct x; reflexivity. Qed.

Lemma series_le_true (x : option Q) (v : Q) :
  series_le x v = true <-> exists h, x = Some h /\ (h <= v)%Q.
Proof.
  destruct x as [q|]; simpl.
  - rewrite Qle_bool_iff. split.
    + intros H. exists q. split; [reflexivity | exact H].
    + intros (h & [= ->] & H). exact H.
  - split; [discriminate | intros (h & E & _); discriminate].
Qed.

(** The condition of the CASE of [sla_met] is true exactly under the rule;
    otherwise it is false or NULL. *)
Lemma sql_sla_condition (st : option string) (x : option Q) (target : Z) :
  sql_and (sql_eq_text (UPPER st) (Some "COMPLETED"%string)) (sql_le x (sql_int target))
    = Some true
  <-> UPPER st = Some "COMPLETED"%string
      /\ exists h, x = Some h /\ (h <= inject_Z target)%Q.
Proof.
  unfold sql_int. destruct (UPPER st) as [u|]; simpl.
  - destruct (String.eqb u "COMPLETED") eqn:E.
    + apply String.eqb_eq in E. subst u.
      destruct x as [q|]; simpl.
      * destruct (Qle_bool q (inject_Z target)) eqn:L.
        -- apply Qle_bool_iff in L. split; [|reflexivity].
           intros _. split; [reflexivity|]. exists q. split; [reflexivity | exact L].
        -- split; [discriminate|]. intros (_ & h & [= <-] & H).
           apply Qle_bool_iff in H. congruence.
      * split; [discriminate|]. intros (_ & h & Hh & _). discriminate.
    + apply String.eqb_neq in E.
      split.
      * destruct x as [q|]; simpl; discriminate.
      * intros ([= Hu] & _). contradiction.
  - split.
    + destruct x as [q|]; simpl; try discriminate.
      destruct (Qle_bool q (inject_Z target)); discriminate.
    + intros (Hu & _). discriminate.
Qed.

Lemma etl_sla_met_rule (sla_hours : Z) (r : RawRequest) :
  sla_met (transform_311_row sla_hours r) = 1
  <-> Spec.sla_rule (str_upper (status r)) (transform_311_row sla_hours r).
Proof.
  unfold Spec.sla_rule. cbn [transform_311_row sla_met resolution_time_h sla_target_h].
  rewrite astype_int_1, andb_true_iff, series_eq_true, series_le_true.
  reflexivity.
Qed.

Lemma elt_sla_met_rule (s : StagedRequest) :
  sla_met (fact_requests_v_row s) = 1
  <-> Spec.sla_rule (UPPER (stg_status s)) (fact_requests_v_row s).
Proof.
  unfold Spec.sla_rule. cbn [fact_requests_v_row sla_met resolution_time_h sla_target_h].
  rewrite <- sql_sla_condition. unfold CASE_WHEN.
  destruct (sql_and _ _) as [[|]|]; split; intros H; try reflexivity; discriminate.
Qed.

Lemma etl_sla_met_binary (sla_hours : Z) (r : RawRequest) :
  sla_met (transform_311_row sla_hours r) = 1 \/ sla_met (transform_311_row sla_hours r) = 0.
Proof. cbn [transform_311_row sla_met]. destruct (_ && _); simpl; auto. Qed.

Lemma elt_sla_met_binary (s : StagedRequest) :
  sla_met (fact_requests_v_row s) = 1 \/ sla_met (fact_requests_v_row s) = 0.
Proof.
  cbn [fact_requests_v_row sla_met]. unfold CASE_WHEN.
  destruct (sql_and _ _) as [[|]|]; auto.
Qed.


Lemma etl_open_flag_1 (sla_hours : Z) (r : RawRequest) :
  open_flag (transform_311_row sla_hours r) = 1
  <-> str_upper (status r) <> Some "COMPLETED"%string.
Proof.
  cbn [transform_311_row open_flag].
  rewrite astype_int_1, series_ne_negb, negb_true_iff, <- not_true_iff_false, series_eq_true.
  reflexivity.
Qed.

Lemma etl_open_flag_0 (sla_hours : Z) (r : RawRequest) :
  open_flag (transform_311_row sla_hours r) = 0
  <-> str_upper (status r) = Some "COMPLETED"%string.
Proof.
  cbn [transform_311_row open_flag].
  rewrite astype_int_0, series_ne_negb, negb_false_iff, series_eq_true.
  reflexivity.
Qed.

Lemma sql_eq_text_true (x : option string) (v : string) :
  sql_eq_text x (Some v) = Some true <-> x = Some v.
Proof.
  destruct x as [a|]; simpl.
  - split.
    + intros [= E]. apply String.eqb_eq in E. congruence.
    + intros [= ->]. rewrite String.eqb_refl. reflexivity.
  - split; discriminate.
Qed.

Lemma elt_open_flag_0 (s : StagedRequest) :
  open_flag (fact_requests_v_row s) = 0
  <-> UPPER (stg_status s) = Some "COMPLETED"%string.
Proof.
  cbn [fact_requests_v_row open_flag]. rewrite <- sql_eq_text_true.
  unfold CASE_WHEN. destruct (sql_eq_text _ _) as [[|]|]; split; intros H;
    try reflexivity; discriminate.
Qed.

Lemma elt_open_flag_1 (s : StagedRequest) :
  open_flag (fact_requests_v_row s) = 1
  <-> UPPER (stg_status s) <> Some "COMPLETED"%string.
Proof.
  rewrite <- elt_open_flag_0.
  cbn [fact_requests_v_row open_flag]. unfold CASE_WHEN.
  destruct (sql_eq_text _ _) as [[|]|]; split; intros H;
    try reflexivity; try discriminate; try (intros ?; discriminate); contradiction H; reflexivity.
Qed.

(** The resolution time of the view is the one of the transform when the two
    instants have the same fraction of a second. *)
Lemma resolution_time_agrees (o c : Z) :
  o mod 1000000000 = c mod 1000000000 ->
  (inject_Z (c - o) / inject_Z 1000000000 / 3600
   == ((24405875 # 10) + inject_Z (c / 1000000000) / 86400
       - ((24405875 # 10) + inject_Z (o / 1000000000) / 86400)) * inject_Z 24)%Q.
Proof.
  intros Hfrac.
  assert (E : c - o = 1000000000 * (c / 1000000000 - o / 1000000000)).
  { pose proof (Z.div_mod c 1000000000 ltac:(lia)).
    pose proof (Z.div_mod o 1000000000 ltac:(lia)). lia. }
  rewrite E, inject_Z_mult. unfold Zminus. rewrite inject_Z_plus, inject_Z_opp.
  field.
Qed.


(** C3. In both modes [open_flag] is 1 exactly when the upper-cased status is
    not COMPLETED (a missing status included), and 0 exactly when it is
    COMPLETED. *)
Theorem open_flag_iff_not_completed :
  (forall (sla_hours : Z) (r : RawRequest),
      (open_flag (transform_311_row sla_hours r) = 1
       <-> str_upper (status r) <> Some "COMPLETED"%string)
      /\ (open_flag (transform_311_row sla_hours r) = 0
          <-> str_upper (status r) = Some "COMPLETED"%string))
  /\ (forall s : StagedRequest,
         (open_flag (fact_requests_v_row s) = 1
          <-> UPPER (stg_status s) <> Some "COMPLETED"%string)
         /\ (open_flag (fact_requests_v_row s) = 0
             <-> UPPER (stg_status s) = Some "COMPLETED"%string)).
Proof.
  split.
  - intros sla_hours r. split; [apply etl_open_flag_1 | apply etl_open_flag_0].
  - intros s. split; [apply elt_open_flag_1 | apply elt_open_flag_0].
Qed.

(** C2. In both modes [sla_met] is 1 exactly when the upper-cased status is
    COMPLETED and the resolution time is defined and at most the row's
    [sla_target_h], and 0 otherwise; a missing closing time gives a missing
    resolution time, and a missing resolution time gives 0.  With a target of
    72 a completed request closed after exactly 72 hours meets the SLA, one
    closed after 72.01 hours does not. *)
Theorem sla_met_iff_completed_within_target :
  (forall (sla_hours : Z) (r : RawRequest),
      let k := transform_311_row sla_hours r in
      (sla_met k = 1 <-> Spec.sla_rule (str_upper (status r)) k)
      /\ (sla_met k = 0 <-> ~ Spec.sla_rule (str_upper (status r)) k)
      /\ (closed_date r = None -> resolution_time_h k = None)
      /\ (resolution_time_h k = None -> sla_met k = 0))
  /\ (forall s : StagedRequest,
         let k := fact_requests_v_row s in
         (sla_met k = 1 <-> Spec.sla_rule (UPPER (stg_status s)) k)
         /\ (sla_met k = 0 <-> ~ Spec.sla_rule (UPPER (stg_status s)) k)
         /\ (stg_closed_date s = None -> resolution_time_h k = None)
         /\ (resolution_time_h k = None -> sla_met k = 0))
  /\ (Spec.same_real (resolution_time_h (transform_311_row 72 Samples.completed_72h)) (Some 72%Q)
      /\ sla_met (transform_311_row 72 Samples.completed_72h) = 1
      /\ Spec.same_real (resolution_time_h (elt_kpis Samples.completed_72h)) (Some 72%Q)
      /\ sla_met (elt_kpis Samples.completed_72h) = 1)
  /\ (Spec.same_real (resolution_time_h (transform_311_row 72 Samples.completed_72_01h))
                     (Some (7201 # 100))
      /\ sla_met (transform_311_row 72 Samples.completed_72_01h) = 0
      /\ Spec.same_real (resolution_time_h (elt_kpis Samples.completed_72_01h))
                        (Some (7201 # 100))
      /\ sla_met (elt_kpis Samples.completed_72_01h) = 0).
Proof.
  split; [|split; [|split]].
  - intros sla_hours r k.
    assert (R1 := etl_sla_met_rule sla_hours r). fold k in R1.
    assert (B := etl_sla_met_binary sla_hours r). fold k in B.
    assert (Hnone : resolution_time_h k = None -> sla_met k = 0).
    { intros Hn. destruct B as [B|B]; [|exact B].
      apply R1 in B. destruct B as (_ & h & Hh & _). congruence. }
    split; [exact R1|]. split; [|split; [|exact Hnone]].
    + rewrite <- R1. destruct B as [B|B]; rewrite B; split; intros H; try reflexivity;
        try discriminate; try (intros ?; discriminate). contradiction H; reflexivity.
    + intros Hc. subst k. cbn [transform_311_row resolution_time_h]. rewrite Hc. reflexivity.
  - intros s k.
    assert (R1 := elt_sla_met_rule s). fold k in R1.
    assert (B := elt_sla_met_binary s). fold k in B.
    assert (Hnone : resolution_time_h k = None -> sla_met k = 0).
    { intros Hn. destruct B as [B|B]; [|exact B].
      apply R1 in B. destruct B as (_ & h & Hh & _). congruence. }
    split; [exact R1|]. split; [|split; [|exact Hnone]].
    + rewrite <- R1. destruct B as [B|B]; rewrite B; split; intros H; try reflexivity;
        try discriminate; try (intros ?; discriminate). contradiction H; reflexivity.
    + intros Hc. subst k. cbn [fact_requests_v_row resolution_time_h]. rewrite Hc. reflexivity.
  - repeat split; vm_compute; reflexivity.
  - repeat split; vm_compute; reflexivity.
Qed.

(** What the transform returns, when it returns: one pair per row of the
    frame, in order, with the columns of that row. *)
Lemma transform_311_inr (df : list RawRequest) (sla_hours : Z)
    (rows : list (RawRequest * KpiColumns)) :
  transform_311 df sla_hours = inr rows ->
  status_is_object df = true
  /\ rows = map (fun r => (r, transform_311_row sla_hours r)) df.
Proof.
  unfold transform_311, str_accessor, bind.
  destruct (status_is_object df); [|discriminate].
  intros [= <-]. split; reflexivity.
Qed.

Lemma transform_311_object (df : list RawRequest) (sla_hours : Z) :
  status_is_object df = true ->
  transform_311 df sla_hours = inr (map (fun r => (r, transform_311_row sla_hours r)) df).
Proof. intros H. unfold transform_311, str_accessor, bind. rewrite H. reflexivity. Qed.

Lemma status_is_object_elem (df : list RawRequest) (r : RawRequest) :
  r ∈ df -> status r <> None -> status_is_object df = true.
Proof.
  intros Hin Hst. destruct df as [|r0 df]; [reflexivity|].
  unfold status_is_object. apply existsb_exists. exists r.
  split; [apply list_elem_of_In; exact Hin|].
  destruct (status r); [reflexivity | contradiction].
Qed.

Lemma status_is_object_all_missing (df : list RawRequest) :
  df <> [] -> Forall (fun r => status r = None) df -> status_is_object df = false.
Proof.
  intros Hne Hall. destruct df as [|r0 df]; [contradiction|].
  unfold status_is_object. apply not_true_is_false. intros E.
  apply existsb_exists in E as (r & Hin & Hr).
  apply list_elem_of_In in Hin.
  rewrite Forall_forall in Hall. rewrite (Hall r Hin) in Hr. discriminate.
Qed.

(** A row without status, taken alone: in the transform the equality test
    with COMPLETED is false and the inequality test true; in the view the
    comparison is NULL, so both CASE expressions take their ELSE branch. *)
Lemma missing_status_row (sla_hours : Z) (r : RawRequest) :
  status r = None ->
  (series_eq (str_upper (status r)) "COMPLETED" = false
   /\ series_ne (str_upper (status r)) "COMPLETED" = true
   /\ open_flag (transform_311_row sla_hours r) = 1
   /\ sla_met (transform_311_row sla_hours r) = 0)
  /\ (sql_eq_text (UPPER (stg_status (extract_311_elt_row r))) (Some "COMPLETED"%string) = None
      /\ open_flag (elt_kpis r) = 1
      /\ sla_met (elt_kpis r) = 0).
Proof.
  intros Hst. unfold elt_kpis.
  cbn [transform_311_row fact_requests_v_row extract_311_elt_row open_flag sla_met
       stg_status stg_closed_date stg_created_date].
  rewrite Hst. cbn [str_upper UPPER fmap option_fmap option_map series_eq series_ne
                    sql_eq_text andb astype_int].
  repeat split.
  unfold CASE_WHEN.
  destruct (sql_le _ _) as [[|]|]; reflexivity.
Qed.

(** C10, on a frame without any status.  In the frame whose only row has no
    status the status column is a float64 column: the transform raises
    [AttributeError] at the [.str] accessor and gives the row no flag at
    all, where the view gives it [open_flag] 1 and [sla_met] 0; the
    transform raises on every frame with rows whose statuses are all
    missing, whatever the target. *)
Lemma missing_status_alone_raises :
  status Samples.no_status = None
  /\ transform_311 [Samples.no_status] 72 = inl AttributeError
  /\ open_flag (elt_kpis Samples.no_status) = 1
  /\ sla_met (elt_kpis Samples.no_status) = 0
  /\ (forall (sla_hours : Z) (df : list RawRequest),
         df <> [] -> Forall (fun r => status r = None) df ->
         transform_311 df sla_hours = inl AttributeError).
Proof.
  split; [reflexivity|]. split; [reflexivity|].
  split; [reflexivity|]. split; [reflexivity|].
  intros sla_hours df Hne Hall. unfold transform_311, str_accessor, bind.
  rewrite (status_is_object_all_missing df Hne Hall). reflexivity.
Qed.

(** Where the status column holds a text.  In a frame in which some row has
    a status, the transform returns, and each of its rows without status is
    open and misses the SLA; the view gives the same two flags to every
    staged row without status, whatever the other rows are. *)
Theorem missing_status_open_and_sla_unmet_where_text :
  (forall (sla_hours : Z) (df : list RawRequest) (r : RawRequest),
      r ∈ df -> status r = None ->
      (exists r', r' ∈ df /\ status r' <> None) ->
      exists rows,
        transform_311 df sla_hours = inr rows
        /\ (exists k, (r, k) ∈ rows)
        /\ forall k, (r, k) ∈ rows -> open_flag k = 1 /\ sla_met k = 0)
  /\ (forall (df : list RawRequest) (r : RawRequest),
         r ∈ df -> status r = None ->
         (exists k, (extract_311_elt_row r, k) ∈ fact_requests_v (map extract_311_elt_row df))
         /\ forall s k,
              (s, k) ∈ fact_requests_v (map extract_311_elt_row df) ->
              stg_status s = None -> open_flag k = 1 /\ sla_met k = 0).
Proof.
  split.
  - intros sla_hours df r Hin Hst (r' & Hin' & Hst').
    exists (map (fun r => (r, transform_311_row sla_hours r)) df).
    split; [apply transform_311_object, (status_is_object_elem df r' Hin' Hst')|].
    split.
    + exists (transform_311_row sla_hours r).
      apply (list_elem_of_fmap_2 (fun r => (r, transform_311_row sla_hours r))). exact Hin.
    + intros k Hk. apply list_elem_of_fmap in Hk as (x & [= <- ->] & _).
      destruct (missing_status_row sla_hours r Hst) as ((_ & _ & Ho & Hs) & _).
      split; assumption.
  - intros df r Hin Hst. split.
    + exists (fact_requests_v_row (extract_311_elt_row r)). unfold fact_requests_v.
      apply (list_elem_of_fmap_2 (fun s => (s, fact_requests_v_row s))).
      apply (list_elem_of_fmap_2 extract_311_elt_row). exact Hin.
    + intros s k Hk Hs. unfold fact_requests_v in Hk.
      apply list_elem_of_fmap in Hk as (s' & [= <- ->] & Hs').
      apply list_elem_of_fmap in Hs' as (x & -> & _).
      destruct (missing_status_row 72 x Hs) as (_ & _ & Ho & Hm).
      split; assumption.
Qed.

Lemma missing_status_open_and_sla_unmet_where_text_witness :
  Samples.no_status ∈ [Samples.open_request; Samples.no_status]
  /\ status Samples.no_status = None
  /\ (exists r', r' ∈ [Samples.open_request; Samples.no_status] /\ status r' <> None)
  /\ exists rows,
       transform_311 [Samples.open_request; Samples.no_status] 72 = inr rows
       /\ (exists k, (Samples.no_status, k) ∈ rows)
       /\ forall k, (Samples.no_status, k) ∈ rows -> open_flag k = 1 /\ sla_met k = 0.
Proof.
  assert (H1 : Samples.no_status ∈ [Samples.open_request; Samples.no_status]).
  { apply elem_of_cons. right. apply elem_of_cons. left. reflexivity. }
  assert (H2 : exists r', r' ∈ [Samples.open_request; Samples.no_status]
                          /\ status r' <> None).
  { exists Samples.open_request. split; [apply elem_of_cons; left; reflexivity|].
    discriminate. }
  split; [exact H1|]. split; [reflexivity|]. split; [exact H2|].
  exact (proj1 missing_status_open_and_sla_unmet_where_text 72
           [Samples.open_request; Samples.no_status] Samples.no_status H1 eq_refl H2).
Defined.

(** C1, refuted as stated.  With the default target of 72 hours, a request
    closed one second and a half after its creation gets different
    resolution times in the two modes, and a request closed half a second
    after the 72 hours misses the SLA in the transform and meets it in the
    view; and with a configured target of 48 hours a request completed after
    60 hours gets different SLA flags. *)
Lemma etl_elt_kpis_differ :
  ~ Spec.kpis_agree (transform_311_row 72 Samples.completed_1500ms)
                    (elt_kpis Samples.completed_1500ms)
  /\ ~ Spec.kpis_agree (transform_311_row 48 Samples.completed_60h)
                       (elt_kpis Samples.completed_60h)
  /\ (sla_met (transform_311_row 72 Samples.completed_72h_500ms) = 0
      /\ sla_met (elt_kpis Samples.completed_72h_500ms) = 1).
Proof.
  split; [|split].
  - intros (Hres & _). vm_compute in Hres. discriminate.
  - intros (_ & Hsla & _). vm_compute in Hsla. discriminate.
  - split; vm_compute; reflexivity.
Qed.

(** The doubles of a request created at the epoch and closed one hour later,
    both on whole seconds: the transform computes 1.0, the view
    0.9999999962747097, that is 9007199221186560 / 2^53.  So the two stored
    resolution times are not equal even on whole seconds. *)
Example whole_second_doubles_differ :
  Binary64.etl_resolution_time_h 0 Samples.hour = S754_finite false 4503599627370496 (-52)
  /\ Binary64.elt_resolution_time_h 0 3600 = S754_finite false 9007199221186560 (-53)
  /\ SFeqb (Binary64.etl_resolution_time_h 0 Samples.hour)
           (Binary64.elt_resolution_time_h 0 3600) = false.
Proof. repeat split; vm_compute; reflexivity. Qed.

(** At the target of 72 hours the doubles pass the comparison exactly as the
    exact values do: closed after 72 hours the request is within the target
    in both modes, one nanosecond later it is not in the transform, one
    second later it is not in the view. *)
Example doubles_at_the_target :
  Binary64.leb (Binary64.etl_resolution_time_h 0 (72 * Samples.hour)) (Binary64.of_Z 72) = true
  /\ Binary64.leb (Binary64.etl_resolution_time_h 0 (72 * Samples.hour + 1))
                  (Binary64.of_Z 72) = false
  /\ Binary64.leb (Binary64.elt_resolution_time_h 0 259200) (Binary64.of_Z 72) = true
  /\ Binary64.leb (Binary64.elt_resolution_time_h 0 259201) (Binary64.of_Z 72) = false.
Proof. repeat split; vm_compute; reflexivity. Qed.

(** With the same fraction of a second in both instants, the two resolution
    times pass the same threshold or fail it together. *)
Lemma resolution_within_agrees (r : RawRequest) (target : Z) :
  Spec.same_subsecond r ->
  series_le (resolution_time_h (transform_311_row target r)) (inject_Z target) = true
  <-> sql_le (sql_mul (sql_sub (JULIANDAY (strftime_seconds (closed_date r)))
                               (JULIANDAY (strftime_seconds (created_date r))))
                      (sql_int 24))
             (sql_int target) = Some true.
Proof.
  unfold Spec.same_subsecond. intros Hfrac.
  cbn [transform_311_row resolution_time_h]. unfold to_datetime_coerce, sql_int.
  destruct (created_date r) as [o|], (closed_date r) as [c|]; simpl;
    try (split; discriminate).
  rewrite (resolution_time_agrees o c Hfrac).
  split; [intros -> | intros [= ->]]; reflexivity.
Qed.

(** C1, amended.  When the transform returns, its rows and the rows of the
    view over the staged frame go by pairs, and for each pair: the two
    [open_flag] are equal; the two resolution times are missing together;
    and, when created and closed instants have the same fraction of a
    second (whole seconds in particular) and the two rows store the same
    [sla_target_h], the two [sla_met] are equal. *)
Theorem etl_elt_flags_agree (sla_hours : Z) (df : list RawRequest)
    (rows : list (RawRequest * KpiColumns)) :
  transform_311 df sla_hours = inr rows ->
  length rows = length (fact_requests_v (map extract_311_elt_row df))
  /\ forall (i : nat) (r : RawRequest) (k : KpiColumns),
       rows !! i = Some (r, k) ->
       exists k',
         fact_requests_v (map extract_311_elt_row df) !! i
           = Some (extract_311_elt_row r, k')
         /\ open_flag k = open_flag k'
         /\ (resolution_time_h k = None <-> resolution_time_h k' = None)
         /\ (Spec.same_subsecond r -> sla_target_h k = sla_target_h k' ->
             sla_met k = sla_met k').
Proof.
  intros Hrows. apply transform_311_inr in Hrows as [_ ->].
  split; [unfold fact_requests_v; rewrite !length_map; reflexivity|].
  intros i r k Hi. rewrite list_lookup_fmap in Hi.
  destruct (df !! i) as [x|] eqn:Hx; [|discriminate].
  simpl in Hi. injection Hi as <- <-.
  exists (elt_kpis x). split.
  { unfold fact_requests_v. rewrite !list_lookup_fmap, Hx. reflexivity. }
  split; [|split].
  - unfold elt_kpis.
    cbn [transform_311_row fact_requests_v_row extract_311_elt_row open_flag stg_status].
    unfold str_upper, UPPER.
    destruct (PyStr.upper <$> status x) as [u|]; simpl; [|reflexivity].
    destruct (String.eqb u "COMPLETED"); reflexivity.
  - unfold elt_kpis.
    cbn [transform_311_row fact_requests_v_row extract_311_elt_row resolution_time_h
         stg_closed_date stg_created_date].
    unfold to_datetime_coerce.
    destruct (created_date x), (closed_date x); simpl; split; intros H;
      try reflexivity; discriminate.
  - intros Hfrac Htarget.
    cbn [transform_311_row sla_target_h] in Htarget.
    unfold elt_kpis in Htarget. cbn [fact_requests_v_row sla_target_h] in Htarget.
    subst sla_hours.
    pose proof (resolution_within_agrees x 72 Hfrac) as Hle.
    unfold elt_kpis.
    cbn [transform_311_row fact_requests_v_row extract_311_elt_row sla_met
         stg_status stg_closed_date stg_created_date] in *.
    cbn [resolution_time_h] in Hle.
    set (a := series_le _ _) in *. set (b := sql_le _ _) in *.
    unfold str_upper, UPPER.
    destruct (PyStr.upper <$> status x) as [u|]; simpl.
    + destruct (String.eqb u "COMPLETED"); simpl; [|reflexivity].
      destruct a, b as [[|]|]; try reflexivity; exfalso;
        try (destruct Hle as [Hle _]; specialize (Hle eq_refl); discriminate);
        try (destruct Hle as [_ Hle]; specialize (Hle eq_refl); discriminate).
    + destruct b as [[|]|]; reflexivity.
Qed.

Lemma etl_elt_flags_agree_witness :
  transform_311 [Samples.completed_72h] 72
    = inr [(Samples.completed_72h, transform_311_row 72 Samples.completed_72h)]
  /\ exists k',
       fact_requests_v (map extract_311_elt_row [Samples.completed_72h]) !! 0%nat
         = Some (extract_311_elt_row Samples.completed_72h, k')
       /\ open_flag (transform_311_row 72 Samples.completed_72h) = open_flag k'
       /\ (resolution_time_h (transform_311_row 72 Samples.completed_72h) = None
           <-> resolution_time_h k' = None)
       /\ (Spec.same_subsecond Samples.completed_72h ->
           sla_target_h (transform_311_row 72 Samples.completed_72h) = sla_target_h k' ->
           sla_met (transform_311_row 72 Samples.completed_72h) = sla_met k').
Proof.
  assert (H : transform_311 [Samples.completed_72h] 72
              = inr [(Samples.completed_72h, transform_311_row 72 Samples.completed_72h)])
    by reflexivity.
  split; [exact H|].
  exact (proj2 (etl_elt_flags_agree 72 [Samples.completed_72h] _ H) 0%nat
           Samples.completed_72h (transform_311_row 72 Samples.completed_72h) eq_refl).
Defined.

End KpiFacts.

(** * Properties of the reference reader *)
Section ReaderFacts.

Import Reader.

Variable read_csv : string -> separator -> encoding -> result DataFrame.

(** What one attempt returns, by cases on the plain parse. *)
Lemma read_attempt_cases (path : string) (enc : encoding) :
  match read_csv path Comma enc with
  | inl e => read_attempt read_csv path enc = inl e
  | inr df =>
      if Nat.eqb (shape1 df) 1
      then read_attempt read_csv path enc = read_csv path Semicolon enc
      else read_attempt read_csv path enc = inr df
  end.
Proof.
  unfold read_attempt, bind. destruct (read_csv path Comma enc) as [e|df]; [reflexivity|].
  destruct (Nat.eqb (shape1 df) 1); reflexivity.
Qed.

(** C7. One column after the plain parse leads to the semicolon parse; a
    decoding error in the default decoding leads to the same attempt in
    Latin-1, semicolon retry included; any other error, and any error of the
    Latin-1 attempt, is the error of the reader: nothing else is tried. *)
Theorem reader_retries_then_propagates (path : string) :
  (forall df, read_csv path Comma Utf8 = inr df -> shape1 df <> 1%nat ->
              _robust_read_csv_local read_csv path = inr df)
  /\ (forall df, read_csv path Comma Utf8 = inr df -> shape1 df = 1%nat ->
                 read_csv path Semicolon Utf8 <> inl UnicodeDecodeError ->
                 _robust_read_csv_local read_csv path = read_csv path Semicolon Utf8)
  /\ (read_csv path Comma Utf8 = inl UnicodeDecodeError
      \/ (exists df, read_csv path Comma Utf8 = inr df /\ shape1 df = 1%nat
                     /\ read_csv path Semicolon Utf8 = inl UnicodeDecodeError) ->
      _robust_read_csv_local read_csv path = read_attempt read_csv path Latin1)
  /\ (forall df, read_csv path Comma Latin1 = inr df ->
                 (shape1 df = 1%nat ->
                  read_attempt read_csv path Latin1 = read_csv path Semicolon Latin1)
                 /\ (shape1 df <> 1%nat -> read_attempt read_csv path Latin1 = inr df))
  /\ (forall e, read_csv path Comma Latin1 = inl e ->
                read_attempt read_csv path Latin1 = inl e)
  /\ (forall e, read_attempt read_csv path Utf8 = inl e -> e <> UnicodeDecodeError ->
                _robust_read_csv_local read_csv path = inl e)
  /\ (forall e, read_attempt read_csv path Utf8 = inl UnicodeDecodeError ->
                read_attempt read_csv path Latin1 = inl e ->
                _robust_read_csv_local read_csv path = inl e).
Proof.
  unfold _robust_read_csv_local, try_except_decode.
  pose proof (read_attempt_cases path Utf8) as HU.
  pose proof (read_attempt_cases path Latin1) as HL.
  repeat split.
  - intros df Hdf Hn. rewrite Hdf in HU.
    apply Nat.eqb_neq in Hn. rewrite Hn in HU. rewrite HU. reflexivity.
  - intros df Hdf H1 Hsemi. rewrite Hdf in HU.
    apply Nat.eqb_eq in H1. rewrite H1 in HU. rewrite HU.
    destruct (read_csv path Semicolon Utf8) as [[]|]; try reflexivity. contradiction.
  - intros [Hdec | (df & Hdf & H1 & Hdec)]; rewrite ?Hdf, ?Hdec in HU.
    + rewrite HU. reflexivity.
    + apply Nat.eqb_eq in H1. rewrite H1 in HU. rewrite HU. reflexivity.
  - intros H1. rewrite H in HL. apply Nat.eqb_eq in H1. rewrite H1 in HL. exact HL.
  - intros Hn. rewrite H in HL. apply Nat.eqb_neq in Hn. rewrite Hn in HL. exact HL.
  - intros e He. rewrite He in HL. exact HL.
  - intros e He Hne. rewrite He. destruct e; try reflexivity. contradiction.
  - intros e He HeL. rewrite He. exact HeL.
Qed.

End ReaderFacts.

Lemma reader_retries_then_propagates_witness :
  Reader._robust_read_csv_local Samples.disk_read_csv "semicolon.csv"
    = inr Samples.semicolon_frame
  /\ Reader._robust_read_csv_local Samples.disk_read_csv "latin1.csv"
     = inr Samples.semicolon_frame
  /\ Reader._robust_read_csv_local Samples.disk_read_csv "broken.csv"
     = inl (OtherError "ParserError").
Proof.
  split; [|split].
  - pose proof (reader_retries_then_propagates Samples.disk_read_csv "semicolon.csv")
      as (_ & H & _).
    apply (H Samples.one_column_frame); [reflexivity | reflexivity | discriminate].
  - pose proof (reader_retries_then_propagates Samples.disk_read_csv "latin1.csv")
      as (_ & _ & H & Hsemi & _).
    rewrite H by (left; reflexivity).
    apply (Hsemi Samples.one_column_frame); reflexivity.
  - pose proof (reader_retries_then_propagates Samples.disk_read_csv "broken.csv")
      as (_ & _ & _ & _ & _ & _ & H).
    apply H; reflexivity.
Defined.

(** * Properties of the canonical area key *)
Section CanonicalFacts.

Import PyStr Canonical.



Lemma column_length (df : DataFrame) (name : string) (cells : list (option string)) :
  column df name = inr cells -> length cells = length (data df).
Proof.
  unfold column. destruct (index_of name (columns df)); [|discriminate].
  intros [= <-]. apply length_map.
Qed.

Variable to_numeric_scalar : string -> option Q.





Lemma astype_Int64_raises (col : list (option Q)) (e : exn) :
  astype_Int64 col = inl e -> exists q, Some q ∈ col /\ castable q = false.
Proof.
  unfold astype_Int64. destruct (forallb _ col) eqn:E; [discriminate|]. intros _.
  induction col as [|x col IH]; [discriminate|].
  simpl in E. apply andb_false_iff in E as [E|E].
  - destruct x as [q|]; [|discriminate]. exists q. split; [left | exact E].
  - destruct (IH E) as (q & Hq & Hw). exists q. split; [right; exact Hq | exact Hw].
Qed.


Lemma lookup_map {A B} (f : A -> B) (l : list A) (i : nat) :
  map f l !! i = f <$> (l !! i).
Proof. revert i. induction l as [|a l IH]; intros [|i]; simpl; auto. Qed.

Lemma to_numeric_coerce_lookup (cells : list (option string)) (i : nat) (cell : option string) :
  cells !! i = Some cell ->
  to_numeric_coerce to_numeric_scalar cells !! i = Some (cell ≫= to_numeric_scalar).
Proof. intros H. unfold to_numeric_coerce. rewrite lookup_map, H. reflexivity. Qed.

Lemma index_of_elem (name : string) (cols : list string) :
  name ∈ cols -> is_Some (index_of name cols).
Proof.
  induction cols as [|c cols IH]; intros H.
  - apply elem_of_nil in H. contradiction.
  - simpl. destruct (String.eqb c name) eqn:E; [eauto|].
    apply elem_of_cons in H as [->|H].
    + rewrite String.eqb_refl in E. discriminate.
    + destruct (IH H) as [i ->]. simpl. eauto.
Qed.

Lemma column_of_header (df : DataFrame) (name : string) :
  name ∈ columns df -> exists cells, column df name = inr cells.
Proof.
  intros H. unfold column. destruct (index_of_elem _ _ H) as [i ->]. eauto.
Qed.




End CanonicalFacts.



(** A code that is a number but not a whole one is not coerced: the cast to
    the nullable integer type raises. *)
Example fractional_code_raises :
  Canonical.extract_acs_and_mapping Samples.parse_number Samples.acs_frame
    Samples.mapping_frame_fraction
  = inl (TypeError "cannot safely cast non-equivalent float64 to int64").
Proof. vm_compute. reflexivity. Qed.

(** A whole code beyond the range of int64 is not coerced either: the cast
    raises a [TypeError]. *)
Example huge_code_raises :
  exists msg,
    Canonical.extract_acs_and_mapping Samples.parse_number Samples.acs_frame
      Samples.mapping_frame_huge
    = inl (TypeError msg).
Proof. eexists. vm_compute. reflexivity. Qed.

(** * Properties of the warehouse loader *)
Section LoaderFacts.

Import Loader.

Lemma filter_all {A} (P : A -> Prop) `{forall x, Decision (P x)} (l : list A) :
  (forall x, P x) -> filter P l = l.
Proof.
  intros HP. induction l as [|x l IH]; [reflexivity|].
  rewrite filter_cons_True by apply HP. rewrite IH. reflexivity.
Qed.

Lemma filter_none {A} (P : A -> Prop) `{forall x, Decision (P x)} (l : list A) :
  (forall x, x ∈ l -> ~ P x) -> filter P l = [].
Proof.
  intros HP. induction l as [|x l IH]; [reflexivity|].
  rewrite filter_cons_False by (apply HP; left).
  apply IH. intros y Hy. apply HP. right. exact Hy.
Qed.

(** Loading into a table keeps the surviving rows, in their order, and
    appends what loading into the empty table gives. *)
Lemma load_fact_split (rows : list FactRow) (t : table) :
  load_fact t rows = filter (survives rows) t ++ load_fact [] rows.
Proof.
  revert t. induction rows as [|r rows IH]; intros t.
  - simpl. rewrite app_nil_r. symmetry. apply filter_all. intros x. constructor.
  - change (load_fact t (r :: rows)) with (load_fact (insert_or_replace t r) rows).
    change (load_fact [] (r :: rows)) with (load_fact [r] rows).
    rewrite (IH (insert_or_replace t r)), (IH [r]).
    unfold insert_or_replace. rewrite filter_app, list_filter_filter, <- app_assoc.
    f_equal. apply list_filter_iff. intros old. unfold survives.
    rewrite Forall_cons. tauto.
Qed.

Lemma load_fact_elem (rows : list FactRow) (t : table) (x : FactRow) :
  x ∈ load_fact t rows -> x ∈ t \/ x ∈ rows.
Proof.
  revert t. induction rows as [|r rows IH]; intros t H; [left; exact H|].
  apply IH in H as [H|H].
  - unfold insert_or_replace in H. apply elem_of_app in H as [H|H].
    + apply list_elem_of_filter in H. left. tauto.
    + apply list_elem_of_singleton in H. subst. right. left.
  - right. right. exact H.
Qed.

(** X17. Loading a batch whose rows all have a request number twice is loading it
    once, whatever the table held before. *)
Lemma load_fact_twice_keyed (rows : list FactRow) (t : table) :
  Forall (fun r => fr_sr_number r <> None) rows ->
  load_fact (load_fact t rows) rows = load_fact t rows.
Proof.
  intros Hkeys.
  rewrite (load_fact_split rows (load_fact t rows)).
  rewrite (load_fact_split rows t).
  rewrite filter_app, list_filter_filter.
  rewrite (filter_none (survives rows) (load_fact [] rows)).
  - rewrite app_nil_r. f_equal. apply list_filter_iff. tauto.
  - intros x Hx Hs. apply load_fact_elem in Hx as [Hx|Hx].
    + apply elem_of_nil in Hx. exact Hx.
    + pose proof (proj1 (Forall_forall _ _) Hkeys x Hx) as Hkey.
      pose proof (proj1 (Forall_forall _ _) Hs x Hx) as Hself.
      unfold pk_conflict in Hself. simpl in Hkey. destruct (fr_sr_number x) as [k|]; [|congruence].
      rewrite String.eqb_refl in Hself. discriminate.
Qed.

(** C9, on rows without request number.  The row of the sample batch has no
    request number: one load stores it once, a second load of the same batch
    stores it a second time. *)
Lemma load_fact_twice_duplicates_unkeyed_row :
  load_fact (ensure_schema []) Samples.unkeyed_rows = [Samples.fact_row None 1]
  /\ load_fact (load_fact (ensure_schema []) Samples.unkeyed_rows) Samples.unkeyed_rows
     = [Samples.fact_row None 1; Samples.fact_row None 1].
Proof. split; vm_compute; reflexivity. Qed.

End LoaderFacts.

(** * Properties of the run configuration *)
Section ConfigFacts.

Import Kpi Config.

Lemma getenv_int_default (env : gmap string string) :
  env !! "SLA_HOURS"%string = None -> getenv_int env "SLA_HOURS" "72" = inr 72.
Proof. intros H. unfold getenv_int, getenv. rewrite H. reflexivity. Qed.

(** The ETL rows store the configured hours and compare with them. *)
Lemma etl_rows_use_configured_sla (env : gmap string string) (df : list RawRequest)
    (limit hours : Z) :
  getenv_int env "ROW_LIMIT" "10000" = inr limit ->
  getenv_int env "SLA_HOURS" "72" = inr hours ->
  etl_fact_rows env df = transform_311 df hours
  /\ Forall (fun r => sla_target_h (transform_311_row hours r) = hours) df.
Proof.
  intros Hl Hs. unfold etl_fact_rows, etl_config, bind. rewrite Hl, Hs.
  split; [reflexivity|]. apply Forall_forall. intros r _. reflexivity.
Qed.

(** The rows of the view always carry 72. *)
Lemma elt_rows_carry_72 (s : StagedRequest) : sla_target_h (fact_requests_v_row s) = 72.
Proof. reflexivity. Qed.

(** C4, on a run configured with 48 hours.  The ETL rows store 48 and the
    request completed after 60 hours misses the SLA; the ELT rows store 72
    and the same request meets it. *)
Lemma elt_ignores_configured_sla_hours :
  targets_and_flags (etl_fact_rows Samples.env_sla_48 [Samples.completed_60h])
    = inr [(48, 0)]
  /\ targets_and_flags (elt_fact_rows Samples.env_sla_48 [Samples.completed_60h])
     = inr [(72, 1)].
Proof. split; vm_compute; reflexivity. Qed.

End ConfigFacts.

(** * Further properties of header normalisation *)
Section NormFacts.

Import PyStr Resolver.

Lemma lower_char_idem (c : ascii) : lower_char (lower_char c) = lower_char c.
Proof. destruct c as [[] [] [] [] [] [] [] []]; reflexivity. Qed.

Lemma lower_idem (s : string) : lower (lower s) = lower s.
Proof.
  unfold lower. induction s as [|c s IH]; simpl; [reflexivity|].
  rewrite lower_char_idem, IH. reflexivity.
Qed.

(** White text has no word. *)
Lemma split_from_lstrip (s w : string) :
  w = EmptyString -> split_from w (lstrip s) = split_from w s.
Proof.
  intros ->. induction s as [|c s IH]; simpl; [reflexivity|].
  destruct (isspace c) eqn:E; [exact IH|]. simpl. rewrite E. reflexivity.
Qed.

Lemma split_from_blank (s w : string) :
  rstrip s = EmptyString ->
  split_from w s = match w with EmptyString => [] | _ => [w] end.
Proof.
  revert w. induction s as [|c s IH]; intros w H; [reflexivity|].
  simpl in H. destruct (rstrip s) eqn:E; [|discriminate].
  destruct (isspace c) eqn:Ec; [|discriminate].
  simpl. rewrite Ec. destruct w; rewrite (IH EmptyString eq_refl); reflexivity.
Qed.

Lemma split_from_rstrip (s w : string) : split_from w (rstrip s) = split_from w s.
Proof.
  revert w. induction s as [|c s IH]; intros w; [reflexivity|].
  simpl. destruct (rstrip s) as [|a t] eqn:E.
  - destruct (isspace c) eqn:Ec.
    + simpl. rewrite (split_from_blank s EmptyString E). destruct w; reflexivity.
    + simpl. rewrite Ec. rewrite (split_from_blank s _ E). reflexivity.
  - simpl. destruct (isspace c).
    + rewrite <- (IH EmptyString). destruct w; reflexivity.
    + apply IH.
Qed.

Lemma split_strip (s : string) : split (strip s) = split s.
Proof.
  unfold split, strip. rewrite split_from_rstrip. apply split_from_lstrip. reflexivity.
Qed.


Lemma map_chars_append (f : ascii -> ascii) (u t : string) :
  map_chars f (u +:+ t) = map_chars f u +:+ map_chars f t.
Proof.
  induction u as [|a u IH]; [reflexivity|].
  rewrite append_cons. simpl. rewrite IH. reflexivity.
Qed.

Lemma split_from_lower (x w : string) :
  split_from (lower w) (lower x) = map lower (split_from w x).
Proof.
  revert w. induction x as [|c x IH]; intros w.
  - simpl. destruct w; reflexivity.
  - simpl. rewrite isspace_lower_char. destruct (isspace c).
    + destruct w as [|a w]; simpl; [apply (IH EmptyString)|].
      f_equal. apply (IH EmptyString).
    + rewrite <- IH. unfold lower. rewrite map_chars_append. reflexivity.
Qed.

Lemma split_lower (x : string) : split (lower x) = map lower (split x).
Proof. apply (split_from_lower x EmptyString). Qed.

Lemma split_from_word_prefix (u t w : string) :
  Words.has_space u = false -> split_from w (u +:+ t) = split_from (w +:+ u) t.
Proof.
  revert w. induction u as [|a u IH]; intros w Hu.
  - rewrite append_nil_l, append_nil_r. reflexivity.
  - simpl in Hu. apply orb_false_iff in Hu as [Ha Hu].
    rewrite append_cons. simpl. rewrite Ha. rewrite (IH _ Hu).
    rewrite append_snoc_assoc. reflexivity.
Qed.

Lemma split_from_after_word (w t : string) :
  w <> EmptyString -> split_from w (String " " t) = w :: split_from EmptyString t.
Proof. intros Hw. destruct w; [contradiction | reflexivity]. Qed.

Lemma split_join_words (ws : list string) :
  Forall Words.is_word ws -> split (join " " ws) = ws.
Proof.
  unfold split. induction ws as [|w ws IH]; intros H; [reflexivity|].
  apply Forall_cons in H as [[Hne Hw] Hws].
  destruct ws as [|w2 ws].
  - simpl. rewrite <- (append_nil_r w) at 1.
    rewrite (split_from_word_prefix w EmptyString EmptyString Hw).
    rewrite append_nil_l. simpl. destruct w; [contradiction | reflexivity].
  - change (join " " (w :: w2 :: ws)) with (w +:+ " " +:+ join " " (w2 :: ws)).
    rewrite (split_from_word_prefix w _ EmptyString Hw), append_nil_l.
    change (" " +:+ join " " (w2 :: ws)) with (String " " (join " " (w2 :: ws))).
    rewrite (split_from_after_word w _ Hne), (IH Hws). reflexivity.
Qed.

Lemma has_space_snoc (w : string) (c : ascii) :
  Words.has_space w = false -> isspace c = false ->
  Words.has_space (w +:+ String c EmptyString) = false.
Proof.
  intros Hw Hc. induction w as [|a w IH].
  - rewrite append_nil_l. simpl. rewrite Hc. reflexivity.
  - simpl in Hw. apply orb_false_iff in Hw as [Ha Hw].
    rewrite append_cons. simpl. rewrite Ha. apply IH. exact Hw.
Qed.

Lemma split_from_words (x w : string) :
  Words.has_space w = false -> Forall Words.is_word (split_from w x).
Proof.
  revert w. induction x as [|c x IH]; intros w Hw; simpl.
  - destruct w; [constructor|]. constructor; [|constructor]. split; [discriminate | exact Hw].
  - destruct (isspace c) eqn:Ec.
    + destruct w; [apply IH; reflexivity|].
      constructor; [split; [discriminate | exact Hw] | apply IH; reflexivity].
    + apply IH. apply has_space_snoc; assumption.
Qed.

Lemma norm_words (s : string) : _norm s = join " " (split (lower s)).
Proof.
  unfold _norm. rewrite !split_lower, split_strip. reflexivity.
Qed.

(** X1. Normalising a normal form changes nothing. *)
Theorem norm_idempotent (s : string) : _norm (_norm s) = _norm s.
Proof.
  rewrite (norm_words (_norm s)). rewrite (norm_words s).
  rewrite split_lower.
  rewrite split_join_words by (apply split_from_words; reflexivity).
  rewrite <- split_lower, lower_idem. reflexivity.
Qed.

(** X2. The normal form does not see the white space around the header nor
    a lower-casing done beforehand: it is made of the lower-cased words
    alone, so two headers with the same lower-cased words have the same
    normal form. *)
Theorem norm_ignores_lowering_and_padding (s : string) :
  _norm (lower s) = _norm s
  /\ _norm (strip s) = _norm s
  /\ (forall t : string, split (lower t) = split (lower s) -> _norm t = _norm s).
Proof.
  rewrite !norm_words. rewrite lower_idem.
  split; [reflexivity|]. split.
  - rewrite !split_lower, split_strip. reflexivity.
  - intros t Ht. rewrite norm_words, Ht. reflexivity.
Qed.

End NormFacts.

(** * Further properties of the column resolver *)
Section ResolverMore.

Import PyStr Resolver.

(** X3. When several headers have the same normal form the lookup keeps the
    last of them. *)
Theorem lookup_keeps_last_header (before after : list string) (c : string) :
  Forall (fun later => _norm later <> _norm c) after ->
  build_lookup (before ++ c :: after) !! _norm c = Some c.
Proof.
  intros Hafter. rewrite build_lookup_last, filter_app, filter_cons_True by reflexivity.
  replace (filter (fun x => _norm x = _norm c) after) with (@nil string).
  - rewrite last_app. reflexivity.
  - symmetry. apply elem_of_nil_inv. intros x Hx.
    apply list_elem_of_filter in Hx as [E Hx].
    exact (proj1 (Forall_forall _ _) Hafter x Hx E).
Qed.

Lemma first_match_Exists (keys cols : list string) :
  Exists (fun c => _norm c ∈ keys) cols ->
  exists col, first_match keys (build_lookup cols) = Some col.
Proof.
  intros H. destruct (first_match keys (build_lookup cols)) as [col|] eqn:E; [eauto|].
  exfalso. apply Exists_exists in H as (c & Hc & Hkey).
  pose proof (proj1 (first_match_None _ _) E _ Hkey) as Hnone.
  exact (proj1 (build_lookup_None _ _) Hnone c Hc eq_refl).
Qed.

Lemma first_match_header (keys cols : list string) (col : string) :
  first_match keys (build_lookup cols) = Some col -> col ∈ cols /\ _norm col ∈ keys.
Proof.
  intros H. apply first_match_Some in H as (i & key & Hi & Hcol & _).
  apply build_lookup_Some in Hcol as [Hin Hnorm]. split; [exact Hin|].
  rewrite Hnorm. apply list_elem_of_lookup. eauto.
Qed.

(** X4. The resolver returns a pair exactly when some header normalises to a key
    of the code role and some header to a key of the name role. *)
Theorem resolver_succeeds_iff_both_roles (cols : list string) :
  (exists i n, resolve_columns cols = inr (i, n))
  <-> Exists (fun c => _norm c ∈ id_keys) cols /\ Exists (fun c => _norm c ∈ name_keys) cols.
Proof.
  split.
  - intros (i & n & H). apply resolve_columns_inr in H as [Hi Hn].
    apply first_match_header in Hi as [Hi1 Hi2]. apply first_match_header in Hn as [Hn1 Hn2].
    split; apply Exists_exists; eauto.
  - intros [Hi Hn].
    apply first_match_Exists in Hi as [i Hi]. apply first_match_Exists in Hn as [n Hn].
    exists i, n. apply resolve_columns_found; assumption.
Qed.

Lemma roles_disjoint (k : string) : k ∈ id_keys -> k ∈ name_keys -> False.
Proof.
  unfold id_keys, name_keys. intros Hi Hn.
  repeat (apply elem_of_cons in Hi as [->|Hi];
          [repeat (apply elem_of_cons in Hn as [Hn|Hn]; [discriminate|]);
           apply elem_of_nil in Hn; exact Hn|]).
  apply elem_of_nil in Hi. exact Hi.
Qed.

(** X5. The two resolved columns are headers of the file and are two different
    headers, each with a normal form of its own role. *)
Theorem resolved_columns_are_distinct_headers (cols : list string) (i n : string) :
  resolve_columns cols = inr (i, n) ->
  i ∈ cols /\ n ∈ cols /\ i <> n /\ _norm i ∈ id_keys /\ _norm n ∈ name_keys.
Proof.
  intros H. apply resolve_columns_inr in H as [Hi Hn].
  apply first_match_header in Hi as [Hi1 Hi2]. apply first_match_header in Hn as [Hn1 Hn2].
  repeat split; try assumption.
  intros ->. exact (roles_disjoint _ Hi2 Hn2).
Qed.

End ResolverMore.

Lemma lookup_keeps_last_header_witness :
  Forall (fun later => Resolver._norm later <> Resolver._norm "area_numbe")
         ["COMMUNITY"%string]
  /\ Resolver.build_lookup ["AREA_NUMBE"; "area_numbe"; "COMMUNITY"]%string
       !! Resolver._norm "area_numbe" = Some "area_numbe"%string.
Proof.
  assert (H : Forall (fun later => Resolver._norm later <> Resolver._norm "area_numbe")
                     ["COMMUNITY"%string]).
  { repeat constructor. vm_compute. discriminate. }
  split; [exact H|].
  exact (lookup_keeps_last_header ["AREA_NUMBE"%string] ["COMMUNITY"%string]
           "area_numbe"%string H).
Defined.

Lemma resolved_columns_are_distinct_headers_witness :
  Resolver.resolve_columns Samples.boundary_headers
    = inr ("AREA_NUMBE"%string, "COMMUNITY"%string)
  /\ "AREA_NUMBE"%string <> "COMMUNITY"%string.
Proof.
  assert (H : Resolver.resolve_columns Samples.boundary_headers
              = inr ("AREA_NUMBE"%string, "COMMUNITY"%string)) by (vm_compute; reflexivity).
  split; [exact H|].
  apply (resolved_columns_are_distinct_headers _ _ _ H).
Defined.

(** * Further properties of [extract_acs_and_mapping] *)
Section ExtractMore.

Import PyStr Canonical Extraction.

Variable to_numeric_scalar : string -> option Q.

Lemma index_of_None (name : string) (cols : list string) :
  name ∉ cols -> index_of name cols = None.
Proof.
  induction cols as [|c cols IH]; intros H; [reflexivity|].
  simpl. destruct (String.eqb c name) eqn:E.
  - apply String.eqb_eq in E. subst. exfalso. apply H. left.
  - rewrite IH; [reflexivity|]. intros Hin. apply H. right. exact Hin.
Qed.

Lemma column_missing (df : DataFrame) (name : string) :
  name ∉ columns df -> column df name = inl (KeyError name).
Proof. intros H. unfold column. rewrite (index_of_None _ _ H). reflexivity. Qed.

Lemma column_present (df : DataFrame) (name : string) :
  name ∈ columns df -> exists cells, column df name = inr cells.
Proof. apply column_of_header. Qed.

(** X6. Without one of its four ACS columns the extraction raises [KeyError],
    whatever the mapping file holds: the mapping is not looked at. *)
Theorem extract_without_acs_column_raises (acs mapping : DataFrame) :
  ~ acs_present acs ->
  exists key, extract_acs_and_mapping to_numeric_scalar acs mapping = inl (KeyError key)
              /\ key ∉ columns acs.
Proof.
  intros Hmiss. unfold extract_acs_and_mapping, bind.
  destruct (decide ("Community Area Number"%string ∈ columns acs)) as [H1|H1].
  2:{ rewrite (column_missing _ _ H1). eauto. }
  destruct (column_present _ _ H1) as [c1 ->].
  destruct (decide ("COMMUNITY AREA NAME"%string ∈ columns acs)) as [H2|H2].
  2:{ rewrite (column_missing _ _ H2). eauto. }
  destruct (column_present _ _ H2) as [c2 ->].
  destruct (decide ("PER CAPITA INCOME "%string ∈ columns acs)) as [H3|H3].
  2:{ rewrite (column_missing _ _ H3). eauto. }
  destruct (column_present _ _ H3) as [c3 ->].
  destruct (decide ("HARDSHIP INDEX"%string ∈ columns acs)) as [H4|H4].
  2:{ rewrite (column_missing _ _ H4). eauto. }
  exfalso. apply Hmiss. repeat split; assumption.
Qed.

(** X7. With the ACS columns present, a mapping file whose headers leave a role
    unmatched makes the extraction raise the error of the resolver. *)
Theorem extract_with_unresolved_mapping_raises (acs mapping : DataFrame) :
  acs_present acs ->
  Forall (fun c => Resolver._norm c ∉ Resolver.id_keys) (columns mapping)
  \/ Forall (fun c => Resolver._norm c ∉ Resolver.name_keys) (columns mapping) ->
  extract_acs_and_mapping to_numeric_scalar acs mapping
  = inl (ValueError (Resolver.unresolved_message (columns mapping))).
Proof.
  intros (H1 & H2 & H3 & H4) Hroles. unfold extract_acs_and_mapping, bind.
  destruct (column_present _ _ H1) as [c1 ->].
  destruct (column_present _ _ H2) as [c2 ->].
  destruct (column_present _ _ H3) as [c3 ->].
  destruct (column_present _ _ H4) as [c4 ->].
  rewrite resolve_columns_missing; [reflexivity|].
  destruct Hroles as [H|H]; [left | right]; apply first_match_no_header;
    intros c Hc; exact (proj1 (Forall_forall _ _) H c Hc).
Qed.

(** X8. With the ACS columns present and the mapping resolved, one code that is
    a number but not a whole number makes the extraction raise [TypeError]:
    no key is produced for any row. *)
Theorem extract_with_fractional_code_raises (acs mapping : DataFrame)
    (id_col name_col : string) (code_cells : list (option string)) (q : Q) :
  acs_present acs ->
  Resolver.resolve_columns (columns mapping) = inr (id_col, name_col) ->
  column mapping id_col = inr code_cells ->
  Some q ∈ to_numeric_coerce to_numeric_scalar code_cells ->
  is_whole q = false ->
  extract_acs_and_mapping to_numeric_scalar acs mapping
  = inl (TypeError "cannot safely cast non-equivalent float64 to int64").
Proof.
  intros (H1 & H2 & H3 & H4) Hres Hcodes Hq Hfrac.
  assert (Hn : exists name_cells, column mapping name_col = inr name_cells).
  { apply column_present. apply resolve_columns_inr in Hres as [_ Hn].
    apply first_match_Some in Hn as (i & key & _ & Hn & _).
    apply build_lookup_Some in Hn. tauto. }
  destruct Hn as [name_cells Hnames].
  unfold extract_acs_and_mapping, bind.
  destruct (column_present _ _ H1) as [c1 ->].
  destruct (column_present _ _ H2) as [c2 ->].
  destruct (column_present _ _ H3) as [c3 ->].
  destruct (column_present _ _ H4) as [c4 ->].
  rewrite Hres. cbn [fst snd]. rewrite Hcodes, Hnames.
  unfold astype_Int64.
  replace (forallb _ (to_numeric_coerce to_numeric_scalar code_cells)) with false;
    [reflexivity|].
  symmetry. apply not_true_iff_false. intros Hall.
  rewrite forallb_forall in Hall.
  specialize (Hall (Some q) (proj1 (list_elem_of_In _ _) Hq)). simpl in Hall.
  unfold castable in Hall. apply andb_true_iff in Hall as [Hall _]. congruence.
Qed.

(** X9. The extraction returns one [acs_small] row per row of the ACS file, in
    order, with the code, income and hardship cells untouched (the code is
    not coerced) and the name trimmed and upper-cased. *)
Theorem extract_acs_small_rows (acs mapping : DataFrame)
    (acs_small : list DemographicsRow) (df_map : list AreaMapRow) :
  extract_acs_and_mapping to_numeric_scalar acs mapping = inr (acs_small, df_map) ->
  exists c1 c2 c3 c4,
    column acs "Community Area Number" = inr c1
    /\ column acs "COMMUNITY AREA NAME" = inr c2
    /\ column acs "PER CAPITA INCOME " = inr c3
    /\ column acs "HARDSHIP INDEX" = inr c4
    /\ length acs_small = length (data acs)
    /\ forall i row, acs_small !! i = Some row ->
         exists code name income hardship,
           c1 !! i = Some code /\ c2 !! i = Some name
           /\ c3 !! i = Some income /\ c4 !! i = Some hardship
           /\ acs_row_of_cells code name income hardship row.
Proof.
  unfold extract_acs_and_mapping, bind.
  destruct (column acs "Community Area Number") as [|c1] eqn:E1; [discriminate|].
  destruct (column acs "COMMUNITY AREA NAME") as [|c2] eqn:E2; [discriminate|].
  destruct (column acs "PER CAPITA INCOME ") as [|c3] eqn:E3; [discriminate|].
  destruct (column acs "HARDSHIP INDEX") as [|c4] eqn:E4; [discriminate|].
  destruct (Resolver.resolve_columns (columns mapping)) as [|[id_col name_col]]; [discriminate|].
  cbn [fst snd].
  destruct (column mapping id_col) as [|code_cells]; [discriminate|].
  destruct (column mapping name_col) as [|name_cells]; [discriminate|].
  destruct (astype_Int64 _) as [|codes]; [discriminate|].
  intros [= <- _].
  exists c1, c2, c3, c4. repeat (split; [reflexivity|]).
  apply column_length in E1, E2, E3, E4.
  split.
  - unfold zip_acs_rows. rewrite length_zip_with, !length_zip, length_map. lia.
  - intros i row Hrow. unfold zip_acs_rows in Hrow.
    apply lookup_zip_with_Some in Hrow as ([code nm] & [income hardship] & -> & Hcn & Hih).
    apply lookup_zip_with_Some in Hcn as (? & ? & [= <- <-] & Hc & Hn).
    apply lookup_zip_with_Some in Hih as (? & ? & [= <- <-] & Hi & Hh).
    rewrite lookup_map in Hn.
    destruct (c2 !! i) as [name|] eqn:En; [|discriminate]. injection Hn as <-.
    exists code, name, income, hardship.
    repeat (split; [assumption || reflexivity|]).
    repeat split.
Qed.

End ExtractMore.

(** * Further properties of the reference reader *)
Section ReaderMore.

Import Reader.

Variable read_csv : string -> separator -> encoding -> result DataFrame.

Lemma read_attempt_inr (path : string) (enc : encoding) (df : DataFrame) :
  read_attempt read_csv path enc = inr df ->
  (read_csv path Comma enc = inr df /\ shape1 df <> 1%nat)
  \/ (exists first, read_csv path Comma enc = inr first /\ shape1 first = 1%nat
                    /\ read_csv path Semicolon enc = inr df).
Proof.
  pose proof (read_attempt_cases read_csv path enc) as H.
  destruct (read_csv path Comma enc) as [e|first]; intros Hr.
  - rewrite H in Hr. discriminate.
  - destruct (Nat.eqb (shape1 first) 1) eqn:E.
    + right. exists first. apply Nat.eqb_eq in E. rewrite <- H, Hr. auto.
    + left. apply Nat.eqb_neq in E. rewrite H in Hr. injection Hr as <-. auto.
Qed.

(** X10. A frame that the reader returns is the outcome of a parse of the file:
    either a plain parse that found more or less than one column, or the
    semicolon parse that followed a plain parse with one column, in the same
    encoding.  A frame of one column is never the plain parse. *)
Theorem reader_returns_a_parse (path : string) (df : DataFrame) :
  _robust_read_csv_local read_csv path = inr df ->
  exists enc,
    (read_csv path Comma enc = inr df /\ shape1 df <> 1%nat)
    \/ (exists first, read_csv path Comma enc = inr first /\ shape1 first = 1%nat
                      /\ read_csv path Semicolon enc = inr df).
Proof.
  unfold _robust_read_csv_local, try_except_decode.
  destruct (read_attempt read_csv path Utf8) as [e|d] eqn:E.
  - destruct e; try discriminate.
    intros H. exists Latin1. apply read_attempt_inr. exact H.
  - intros [= ->]. exists Utf8. apply read_attempt_inr. exact E.
Qed.

(** X11. The reader raises a decoding error only when the Latin-1 attempt raised
    it, and any other error is the error of one of the two attempts. *)
Theorem reader_error_is_an_attempt_error (path : string) (e : exn) :
  _robust_read_csv_local read_csv path = inl e ->
  (read_attempt read_csv path Utf8 = inl e /\ e <> UnicodeDecodeError)
  \/ (read_attempt read_csv path Utf8 = inl UnicodeDecodeError
      /\ read_attempt read_csv path Latin1 = inl e).
Proof.
  unfold _robust_read_csv_local, try_except_decode.
  destruct (read_attempt read_csv path Utf8) as [e0|d] eqn:E; [|discriminate].
  destruct e0; try (intros [= <-]; left; split; [reflexivity | discriminate]).
  intros H. right. split; [reflexivity | exact H].
Qed.

End ReaderMore.

Lemma reader_returns_a_parse_witness :
  Reader._robust_read_csv_local Samples.disk_read_csv "latin1.csv"
    = inr Samples.semicolon_frame
  /\ exists enc,
       (Samples.disk_read_csv "latin1.csv" Reader.Comma enc = inr Samples.semicolon_frame
        /\ Reader.shape1 Samples.semicolon_frame <> 1%nat)
       \/ (exists first,
              Samples.disk_read_csv "latin1.csv" Reader.Comma enc = inr first
              /\ Reader.shape1 first = 1%nat
              /\ Samples.disk_read_csv "latin1.csv" Reader.Semicolon enc
                 = inr Samples.semicolon_frame).
Proof.
  assert (H : Reader._robust_read_csv_local Samples.disk_read_csv "latin1.csv"
              = inr Samples.semicolon_frame) by reflexivity.
  split; [exact H|].
  exact (reader_returns_a_parse Samples.disk_read_csv "latin1.csv" _ H).
Defined.

Lemma reader_error_is_an_attempt_error_witness :
  Reader._robust_read_csv_local Samples.disk_read_csv "broken.csv"
    = inl (OtherError "ParserError")
  /\ Reader.read_attempt Samples.disk_read_csv "broken.csv" Reader.Latin1
     = inl (OtherError "ParserError").
Proof.
  assert (H : Reader._robust_read_csv_local Samples.disk_read_csv "broken.csv"
              = inl (OtherError "ParserError")) by reflexivity.
  split; [exact H|].
  destruct (reader_error_is_an_attempt_error Samples.disk_read_csv "broken.csv" _ H)
    as [[Hu _]|[_ Hl]]; [discriminate Hu | exact Hl].
Defined.

(** * Further properties of the KPI deriver *)
Section KpiMore.

Import Kpi.

(** X12. A request that meets the SLA is not open, in both modes. *)
Theorem sla_met_only_when_closed :
  (forall (sla_hours : Z) (r : RawRequest),
      let k := transform_311_row sla_hours r in
      0 <= sla_met k /\ 0 <= open_flag k /\ sla_met k + open_flag k <= 1)
  /\ (forall s : StagedRequest,
         let k := fact_requests_v_row s in
         0 <= sla_met k /\ 0 <= open_flag k /\ sla_met k + open_flag k <= 1).
Proof.
  split.
  - intros sla_hours r. cbn [transform_311_row sla_met open_flag].
    rewrite series_ne_negb. destruct (series_eq _ _), (series_le _ _); simpl; lia.
  - intros s. cbn [fact_requests_v_row sla_met open_flag]. unfold CASE_WHEN.
    destruct (sql_eq_text _ _) as [[|]|]; destruct (sql_le _ _) as [[|]|]; simpl; lia.
Qed.

(** The resolution time of the transform against a whole number of hours,
    in nanoseconds. *)
Lemma hours_le_iff (d h : Z) :
  (inject_Z d / inject_Z 1000000000 / 3600 <= inject_Z h)%Q
  <-> d <= h * 3600000000000.
Proof.
  unfold Qle, Qdiv, Qmult, Qinv, inject_Z. simpl. lia.
Qed.

Lemma seconds_le_iff (c o h : Z) :
  (((24405875 # 10) + inject_Z c / 86400 - ((24405875 # 10) + inject_Z o / 86400))
   * inject_Z 24 <= inject_Z h)%Q
  <-> c - o <= h * 3600.
Proof.
  unfold Qle, Qdiv, Qmult, Qinv, Qminus, Qplus, Qopp, inject_Z. simpl. lia.
Qed.


(** X13. For a target of at most 2500 hours (up to there the nanoseconds of
    the target are a number that float64 holds exactly), a request meets the
    SLA in the transform exactly when its status is completed, both instants
    are present, and the closing is at most [sla_hours] whole hours, counted
    in nanoseconds, after the creation: a closing before the creation counts
    as met. *)
Theorem etl_sla_met_in_nanoseconds (sla_hours : Z) (r : RawRequest) :
  0 <= sla_hours <= 2500 ->
  sla_met (transform_311_row sla_hours r) = 1
  <-> str_upper (status r) = Some "COMPLETED"%string
      /\ exists o c, created_date r = Some o /\ closed_date r = Some c
                     /\ c - o <= sla_hours * 3600000000000.
Proof.
  intros _. rewrite etl_sla_met_rule. unfold Spec.sla_rule.
  cbn [transform_311_row resolution_time_h sla_target_h]. unfold to_datetime_coerce.
  split.
  - intros (Hst & h & Hh & Hle). split; [exact Hst|].
    destruct (created_date r) as [o|], (closed_date r) as [c|]; try discriminate.
    exists o, c. split; [reflexivity|]. split; [reflexivity|].
    simpl in Hh. injection Hh as <-. apply hours_le_iff. exact Hle.
  - intros (Hst & o & c & -> & -> & Hle). split; [exact Hst|].
    eexists. split; [reflexivity|]. apply hours_le_iff. exact Hle.
Qed.

(** X14. In the view a request meets the SLA exactly when its status is
    completed, both instants are present, and the whole seconds of the
    closing are at most 259200 after the whole seconds of the creation. *)
Theorem elt_sla_met_in_seconds (r : RawRequest) :
  sla_met (elt_kpis r) = 1
  <-> UPPER (status r) = Some "COMPLETED"%string
      /\ exists o c, created_date r = Some o /\ closed_date r = Some c
                     /\ c / 1000000000 - o / 1000000000 <= 259200.
Proof.
  unfold elt_kpis. rewrite elt_sla_met_rule. unfold Spec.sla_rule.
  cbn [fact_requests_v_row extract_311_elt_row resolution_time_h sla_target_h
       stg_status stg_closed_date stg_created_date].
  unfold CAST_AS_REAL, strftime_seconds, sql_int.
  split.
  - intros (Hst & h & Hh & Hle). split; [exact Hst|].
    destruct (created_date r) as [o|], (closed_date r) as [c|]; try discriminate.
    exists o, c. split; [reflexivity|]. split; [reflexivity|].
    simpl in Hh. injection Hh as <-. apply seconds_le_iff in Hle. lia.
  - intros (Hst & o & c & -> & -> & Hle). split; [exact Hst|].
    eexists. split; [reflexivity|]. apply seconds_le_iff. lia.
Qed.

(** X15. Staging keeps the whole second of each instant: the staged second
    is at or before the instant and less than a second before it, so the
    difference of the staged seconds is less than one second away from the
    difference of the instants. *)
Theorem elt_staging_within_a_second (r : RawRequest) (o c : Z) :
  created_date r = Some o ->
  closed_date r = Some c ->
  exists so sc,
    stg_created_date (extract_311_elt_row r) = Some so
    /\ stg_closed_date (extract_311_elt_row r) = Some sc
    /\ so * 1000000000 <= o < (so + 1) * 1000000000
    /\ sc * 1000000000 <= c < (sc + 1) * 1000000000
    /\ (sc - so - 1) * 1000000000 < c - o < (sc - so + 1) * 1000000000.
Proof.
  intros Ho Hc.
  cbn [extract_311_elt_row stg_closed_date stg_created_date].
  unfold strftime_seconds. rewrite Ho, Hc. simpl.
  exists (o / 1000000000), (c / 1000000000).
  split; [reflexivity|]. split; [reflexivity|].
  pose proof (Z.div_mod c 1000000000 ltac:(lia)) as Ec.
  pose proof (Z.div_mod o 1000000000 ltac:(lia)) as Eo.
  pose proof (Z.mod_pos_bound c 1000000000 ltac:(lia)) as Bc.
  pose proof (Z.mod_pos_bound o 1000000000 ltac:(lia)) as Bo.
  set (c1 := c / 1000000000) in *. set (o1 := o / 1000000000) in *.
  set (cm := c mod 1000000000) in *. set (om := o mod 1000000000) in *.
  lia.
Qed.

End KpiMore.

Lemma etl_sla_met_in_nanoseconds_witness :
  0 <= 72 <= 2500
  /\ (Kpi.sla_met (Kpi.transform_311_row 72 Samples.completed_72h) = 1
      <-> Kpi.str_upper (Kpi.status Samples.completed_72h) = Some "COMPLETED"%string
          /\ exists o c, Kpi.created_date Samples.completed_72h = Some o
                         /\ Kpi.closed_date Samples.completed_72h = Some c
                         /\ c - o <= 72 * 3600000000000).
Proof.
  assert (H : 0 <= 72 <= 2500) by lia.
  split; [exact H|].
  exact (etl_sla_met_in_nanoseconds 72 Samples.completed_72h H).
Defined.

Lemma elt_staging_within_a_second_witness :
  Kpi.created_date Samples.completed_1500ms = Some 0
  /\ Kpi.closed_date Samples.completed_1500ms = Some 1500000000
  /\ exists so sc,
       Kpi.stg_created_date (Kpi.extract_311_elt_row Samples.completed_1500ms) = Some so
       /\ Kpi.stg_closed_date (Kpi.extract_311_elt_row Samples.completed_1500ms) = Some sc
       /\ so * 1000000000 <= 0 < (so + 1) * 1000000000
       /\ sc * 1000000000 <= 1500000000 < (sc + 1) * 1000000000
       /\ (sc - so - 1) * 1000000000 < 1500000000 - 0 < (sc - so + 1) * 1000000000.
Proof.
  split; [reflexivity|]. split; [reflexivity|].
  exact (elt_staging_within_a_second Samples.completed_1500ms 0 1500000000
           eq_refl eq_refl).
Defined.

(** * Properties of the hour and weekday splits *)
Section SplitsFacts.

Import Splits.

Lemma dt_hour_range (t : option Z) (h : Z) : dt_hour t = Some h -> 0 <= h <= 23.
Proof.
  destruct t as [ns|]; [|discriminate]. intros [= <-].
  pose proof (Z.mod_pos_bound (ns / ns_per_hour) 24 ltac:(lia)). lia.
Qed.

Lemma dt_weekday_range (t : option Z) (d : Z) : dt_weekday t = Some d -> 0 <= d <= 6.
Proof.
  destruct t as [ns|]; [|discriminate]. intros [= <-].
  pose proof (Z.mod_pos_bound (ns / ns_per_day + 3) 7 ltac:(lia)). lia.
Qed.

Lemma dt_weekday_shift (ns days d : Z) :
  dt_weekday (Some ns) = Some d ->
  dt_weekday (Some (ns + days * ns_per_day)) = Some ((d + days) mod 7).
Proof.
  unfold dt_weekday, ns_per_day. simpl. intros [= <-]. f_equal.
  rewrite Z.div_add by lia. rewrite Zplus_mod_idemp_l. f_equal. lia.
Qed.

(** X16. The hour and weekday columns are missing exactly when the instant is,
    the hour lies in 0..23 and the weekday in 0..6; the weekday advances by
    one, modulo seven, with each day, the day of the epoch (a Thursday)
    being 3, so that Monday is 0. *)
Theorem hour_and_weekday_columns (r : Kpi.RawRequest) :
  let s := transform_311_hour_dow r in
  (created_hour s = None <-> Kpi.created_date r = None)
  /\ (created_dow s = None <-> Kpi.created_date r = None)
  /\ (closed_hour s = None <-> Kpi.closed_date r = None)
  /\ (closed_dow s = None <-> Kpi.closed_date r = None)
  /\ (forall h, created_hour s = Some h \/ closed_hour s = Some h -> 0 <= h <= 23)
  /\ (forall d, created_dow s = Some d \/ closed_dow s = Some d -> 0 <= d <= 6)
  /\ (forall ns days d, dt_weekday (Some ns) = Some d ->
                        dt_weekday (Some (ns + days * ns_per_day)) = Some ((d + days) mod 7))
  /\ dt_weekday (Some 0) = Some 3.
Proof.
  cbn [transform_311_hour_dow created_hour created_dow closed_hour closed_dow].
  unfold Kpi.to_datetime_coerce.
  split; [destruct (Kpi.created_date r); simpl; split; congruence|].
  split; [destruct (Kpi.created_date r); simpl; split; congruence|].
  split; [destruct (Kpi.closed_date r); simpl; split; congruence|].
  split; [destruct (Kpi.closed_date r); simpl; split; congruence|].
  split; [intros h [H|H]; exact (dt_hour_range _ _ H)|].
  split; [intros d [H|H]; exact (dt_weekday_range _ _ H)|].
  split; [exact dt_weekday_shift | reflexivity].
Qed.

End SplitsFacts.

(** * Further properties of the warehouse loader *)
Section LoaderMore.

Import Loader.

Lemma load_fact_snoc (t : table) (rows : list FactRow) (r : FactRow) :
  load_fact t (rows ++ [r]) = insert_or_replace (load_fact t rows) r.
Proof. unfold load_fact. rewrite foldl_app. reflexivity. Qed.

Lemma filter_ext_in {A} (P Q : A -> Prop) `{forall x, Decision (P x)}
    `{forall x, Decision (Q x)} (l : list A) :
  (forall x, x ∈ l -> (P x <-> Q x)) -> filter P l = filter Q l.
Proof.
  induction l as [|a l IH]; intros Hext; [reflexivity|].
  rewrite !filter_cons.
  assert (Ha : P a <-> Q a) by (apply Hext; left).
  rewrite IH by (intros x Hx; apply Hext; right; exact Hx).
  destruct (decide (P a)), (decide (Q a)); tauto.
Qed.

(** The rows stored under a key after a load: the last row of the batch
    with that key if there is one, else what the table held. *)
Lemma load_fact_by_key (rows : list FactRow) (t : table) (k : string) :
  filter (fun x => fr_sr_number x = Some k) (load_fact t rows)
  = match last (filter (fun x => fr_sr_number x = Some k) rows) with
    | Some r => [r]
    | None => filter (fun x => fr_sr_number x = Some k) t
    end.
Proof.
  induction rows as [|r rows IH] using rev_ind; [reflexivity|].
  rewrite load_fact_snoc. unfold insert_or_replace.
  rewrite !filter_app, list_filter_filter, filter_cons, filter_nil.
  destruct (decide (fr_sr_number r = Some k)) as [Hk|Hk].
  - rewrite last_snoc.
    rewrite (filter_none (fun x => fr_sr_number x = Some k /\ pk_conflict r x = false)).
    + reflexivity.
    + intros x _ [Hx Hc]. unfold pk_conflict in Hc. rewrite Hk, Hx in Hc.
      rewrite String.eqb_refl in Hc. discriminate.
  - rewrite !app_nil_r, <- IH. apply filter_ext_in. intros x _.
    split; [tauto|]. intros Hx. split; [exact Hx|].
    unfold pk_conflict. rewrite Hx. destruct (fr_sr_number r) as [k'|]; [|reflexivity].
    apply String.eqb_neq. congruence.
Qed.

(** X18. Last write wins: a key that occurs in the batch is stored once, with
    the last row of the batch that has it; a key that does not occur keeps
    the rows the table had. *)
Theorem load_fact_last_write_wins (rows : list FactRow) (t : table) (k : string) :
  (forall r, last (filter (fun x => fr_sr_number x = Some k) rows) = Some r ->
             filter (fun x => fr_sr_number x = Some k) (load_fact t rows) = [r])
  /\ (Forall (fun x => fr_sr_number x <> Some k) rows ->
      filter (fun x => fr_sr_number x = Some k) (load_fact t rows)
      = filter (fun x => fr_sr_number x = Some k) t).
Proof.
  split.
  - intros r Hr. rewrite load_fact_by_key, Hr. reflexivity.
  - intros Hnone. rewrite load_fact_by_key.
    rewrite (filter_none (fun x => fr_sr_number x = Some k) rows); [reflexivity|].
    intros x Hx. exact (proj1 (Forall_forall _ _) Hnone x Hx).
Qed.

(** X19. A load keeps the request numbers unique: if no request number was
    stored twice before, none is afterwards. *)
Theorem load_fact_keeps_keys_unique (rows : list FactRow) (t : table) :
  (forall k, length (filter (fun x => fr_sr_number x = Some k) t) <= 1)%nat ->
  forall k, (length (filter (fun x => fr_sr_number x = Some k) (load_fact t rows)) <= 1)%nat.
Proof.
  intros Ht k. rewrite load_fact_by_key.
  destruct (last _); [simpl; lia | apply Ht].
Qed.

(** X20. Rows without request number are never replaced: a load adds all those
    of the batch to those of the table. *)
Theorem load_fact_accumulates_unkeyed_rows (rows : list FactRow) (t : table) :
  filter (fun x => fr_sr_number x = None) (load_fact t rows)
  = filter (fun x => fr_sr_number x = None) t
    ++ filter (fun x => fr_sr_number x = None) rows.
Proof.
  induction rows as [|r rows IH] using rev_ind.
  - rewrite filter_nil, app_nil_r. reflexivity.
  - rewrite load_fact_snoc. unfold insert_or_replace.
    rewrite !filter_app, list_filter_filter, app_assoc, <- IH. f_equal.
    apply filter_ext_in. intros x _. split; [tauto|].
    intros Hx. split; [exact Hx|].
    unfold pk_conflict. rewrite Hx. destruct (fr_sr_number r); reflexivity.
Qed.

End LoaderMore.

Lemma load_fact_twice_keyed_witness :
  Forall (fun r => Loader.fr_sr_number r <> None) Samples.keyed_rows
  /\ Loader.load_fact (Loader.load_fact [] Samples.keyed_rows) Samples.keyed_rows
     = Loader.load_fact [] Samples.keyed_rows.
Proof.
  assert (H : Forall (fun r => Loader.fr_sr_number r <> None) Samples.keyed_rows).
  { repeat constructor; discriminate. }
  split; [exact H | exact (load_fact_twice_keyed Samples.keyed_rows [] H)].
Defined.

Lemma load_fact_keeps_keys_unique_witness :
  (forall k, length (filter (fun x => Loader.fr_sr_number x = Some k) []) <= 1)%nat
  /\ (length (filter (fun x => Loader.fr_sr_number x = Some "SR24-1"%string)
                     (Loader.load_fact [] Samples.keyed_rows)) <= 1)%nat.
Proof.
  assert (H : forall k : string,
             (length (filter (fun x => Loader.fr_sr_number x = Some k) []) <= 1)%nat).
  { intros k. simpl. lia. }
  split; [exact H | exact (load_fact_keeps_keys_unique Samples.keyed_rows [] H _)].
Defined.

(** * Properties of the parameter tuples of [load_fact] *)
Section FactParamsFacts.

Import FactParams.

Variable to_datetime_scalar : cell -> option Z.

Lemma has_column_true (d : Frame) (c : string) : has_column d c = true <-> c ∈ fcolumns d.
Proof. unfold has_column. apply bool_decide_eq_true. Qed.

Lemma has_column_false (d : Frame) (c : string) : has_column d c = false <-> c ∉ fcolumns d.
Proof. unfold has_column. apply bool_decide_eq_false. Qed.

Lemma map_under_length (c : string) (f : cell -> cell) (labels : list string)
    (row : list cell) :
  length (map_under c f labels row) = length row.
Proof.
  revert row. induction labels as [|l labels IH]; intros [|v row]; simpl; auto.
Qed.

Lemma map_under_lookup (c : string) (f : cell -> cell) (labels : list string)
    (row : list cell) (j : nat) (l : string) :
  labels !! j = Some l -> l <> c -> map_under c f labels row !! j = row !! j.
Proof.
  revert row j. induction labels as [|l0 labels IH]; intros [|v row] [|j] Hl Hne;
    simpl in *; try discriminate; try reflexivity.
  - injection Hl as ->. apply String.eqb_neq in Hne. rewrite Hne. reflexivity.
  - apply IH; assumption.
Qed.

(** The date step keeps the labels and the shape, and succeeds unless the
    label is repeated. *)
Lemma format_datetime_column_inr (col : string) (d d' : Frame) :
  format_datetime_column to_datetime_scalar col d = inr d' ->
  fcolumns d' = fcolumns d
  /\ length (frows d') = length (frows d)
  /\ (well_formed d -> well_formed d')
  /\ forall k row j l, frows d !! k = Some row -> fcolumns d !! j = Some l -> l <> col ->
       exists row', frows d' !! k = Some row' /\ row' !! j = row !! j.
Proof.
  unfold format_datetime_column.
  destruct (has_column d col); [|intros [= <-]; repeat split; eauto].
  destruct (Nat.eqb _ 1); [|discriminate]. intros [= <-]. simpl.
  split; [reflexivity|]. split; [apply length_map|]. split.
  - unfold well_formed. simpl. intros H. apply Forall_forall. intros row Hrow.
    apply list_elem_of_fmap in Hrow as (row0 & -> & Hrow0).
    rewrite map_under_length. exact (proj1 (Forall_forall _ _) H row0 Hrow0).
  - intros k row j l Hk Hj Hne. eexists. split.
    + rewrite list_lookup_fmap, Hk. reflexivity.
    + eapply map_under_lookup; eassumption.
Qed.

Lemma format_datetime_column_ok (col : string) (d : Frame) :
  (count_label col (fcolumns d) <= 1)%nat ->
  exists d', format_datetime_column to_datetime_scalar col d = inr d'.
Proof.
  intros Hc. unfold format_datetime_column.
  destruct (has_column d col) eqn:E; [|eauto].
  apply has_column_true in E.
  assert (Hpos : (0 < count_label col (fcolumns d))%nat).
  { unfold count_label. destruct (filter _ _) eqn:F; [|simpl; lia].
    exfalso. apply (filter_nil_not_elem_of _ _ col) in F; [contradiction | reflexivity]. }
  replace (count_label col (fcolumns d)) with 1%nat by lia. simpl. eauto.
Qed.

Lemma extend_nil (d : Frame) : extend d [] = d.
Proof.
  destruct d as [labels rows]. unfold extend. simpl. rewrite app_nil_r. f_equal.
  induction rows as [|row rows IH]; simpl; [reflexivity|].
  rewrite app_nil_r, IH. reflexivity.
Qed.

Lemma extend_extend (d : Frame) (a b : list string) :
  extend (extend d a) b = extend d (a ++ b).
Proof.
  destruct d as [labels rows]. unfold extend. simpl. rewrite app_assoc. f_equal.
  induction rows as [|row rows IH]; simpl; [reflexivity|].
  rewrite IH, length_app, replicate_add, app_assoc. reflexivity.
Qed.

Lemma fill_missing_extend (d : Frame) (c : string) :
  fill_missing d c = if has_column d c then d else extend d [c].
Proof. reflexivity. Qed.

(** The filling loop adds the missing labels, each once, as columns of
    [pd.NA]. *)
Lemma foldl_fill_missing (wanted : list string) (d : Frame) :
  foldl fill_missing d wanted = extend d (missing_of (fcolumns d) wanted).
Proof.
  revert d. induction wanted as [|c wanted IH]; intros d.
  - simpl. rewrite extend_nil. reflexivity.
  - simpl. rewrite IH, fill_missing_extend. unfold has_column.
    destruct (bool_decide (c ∈ fcolumns d)); [reflexivity|].
    rewrite extend_extend. reflexivity.
Qed.

Lemma missing_of_elem (wanted labels : list string) (c : string) :
  c ∈ wanted -> c ∈ labels \/ c ∈ missing_of labels wanted.
Proof.
  revert labels. induction wanted as [|w wanted IH]; intros labels H.
  - apply elem_of_nil in H. contradiction.
  - simpl. apply elem_of_cons in H as [->|H].
    + destruct (bool_decide (w ∈ labels)) eqn:E.
      * left. apply bool_decide_eq_true in E. exact E.
      * right. left.
    + destruct (bool_decide (w ∈ labels)).
      * apply IH. exact H.
      * destruct (IH (labels ++ [w]) H) as [Hl|Hm].
        -- apply elem_of_app in Hl as [Hl|Hl]; [left; exact Hl|].
           apply list_elem_of_singleton in Hl. subst. right. left.
        -- right. right. exact Hm.
Qed.

Lemma missing_of_fresh (wanted labels : list string) (c : string) :
  c ∈ missing_of labels wanted -> c ∉ labels.
Proof.
  revert labels. induction wanted as [|w wanted IH]; intros labels H.
  - apply elem_of_nil in H. contradiction.
  - simpl in H. destruct (bool_decide (w ∈ labels)) eqn:E.
    + apply IH. exact H.
    + apply bool_decide_eq_false in E.
      apply elem_of_cons in H as [->|H]; [exact E|].
      apply IH in H. intros Hc. apply H. apply elem_of_app. left. exact Hc.
Qed.

(** Reading a record. *)
Lemma record_get_app (labels ls : list string) (row rs : list cell) (c : string) :
  length labels = length row ->
  record_get (labels ++ ls) (row ++ rs) c
  = match record_get ls rs c with
    | Some x => Some x
    | None => record_get labels row c
    end.
Proof.
  revert row. induction labels as [|l labels IH]; intros [|v row] Hlen;
    simpl in Hlen; try discriminate.
  - simpl. destruct (record_get ls rs c); reflexivity.
  - simpl. rewrite IH by lia. destruct (record_get ls rs c); reflexivity.
Qed.

Lemma record_get_absent (labels : list string) (row : list cell) (c : string) :
  c ∉ labels -> record_get labels row c = None.
Proof.
  revert row. induction labels as [|l labels IH]; intros [|v row] H; simpl; try reflexivity.
  rewrite IH by (intros Hc; apply H; right; exact Hc).
  destruct (String.eqb l c) eqn:E; [|reflexivity].
  apply String.eqb_eq in E. subst. exfalso. apply H. left.
Qed.

Lemma record_get_present (labels : list string) (row : list cell) (c : string) :
  length labels = length row -> c ∈ labels -> is_Some (record_get labels row c).
Proof.
  revert row. induction labels as [|l labels IH]; intros [|v row] Hlen H;
    simpl in Hlen; try discriminate.
  - apply elem_of_nil in H. contradiction.
  - simpl. destruct (record_get labels row c) eqn:E; [eauto|].
    apply elem_of_cons in H as [->|H].
    + rewrite String.eqb_refl. eauto.
    + destruct (IH row ltac:(lia) H) as [x Hx]. congruence.
Qed.

Lemma record_get_replicate (added : list string) (c : string) :
  c ∈ added -> record_get added (replicate (length added) NA) c = Some NA.
Proof.
  induction added as [|a added IH]; intros H.
  - apply elem_of_nil in H. contradiction.
  - simpl. destruct (record_get added (replicate (length added) NA) c) as [x|] eqn:E.
    + destruct (decide (c ∈ added)) as [Hc|Hc].
      * exact (IH Hc).
      * rewrite (record_get_absent _ _ _ Hc) in E. discriminate.
    + apply elem_of_cons in H as [->|H].
      * rewrite String.eqb_refl. reflexivity.
      * specialize (IH H). discriminate.
Qed.

(** The record gives the cell of the last column with the label. *)
Lemma record_get_last (labels : list string) (row : list cell) (c : string) (j : nat) :
  length labels = length row ->
  labels !! j = Some c ->
  (forall j' l, (j < j')%nat -> labels !! j' = Some l -> l <> c) ->
  record_get labels row c = row !! j.
Proof.
  revert row j. induction labels as [|l labels IH]; intros [|v row] j Hlen Hj Hlast;
    simpl in Hlen; try discriminate.
  destruct j as [|j]; simpl in *.
  - injection Hj as ->. rewrite String.eqb_refl.
    rewrite record_get_absent; [reflexivity|].
    intros Hc. apply list_elem_of_lookup in Hc as [j' Hj'].
    exact (Hlast (S j') c ltac:(lia) Hj' eq_refl).
  - rewrite (IH row j ltac:(lia) Hj).
    + destruct (row !! j) eqn:E; [reflexivity|].
      apply lookup_lt_Some in Hj. apply lookup_ge_None in E. lia.
    + intros j' l' Hlt Hl'. apply (Hlast (S j') l'); [lia | exact Hl'].
Qed.

(** Boxing the cells of a row boxes what the record gives. *)
Lemma record_get_boxed (labels : list string) (row : list cell) (c : string) :
  record_get labels (map maybe_box_native row) c
  = maybe_box_native <$> record_get labels row c.
Proof.
  revert row. induction labels as [|l labels IH]; intros [|v row]; simpl; try reflexivity.
  rewrite IH. destruct (record_get labels row c); simpl; [reflexivity|].
  destruct (String.eqb l c); reflexivity.
Qed.

Lemma maybe_box_native_strftime_cell (t : option Z) :
  maybe_box_native (strftime_cell t) = strftime_cell t.
Proof. unfold strftime_cell. destruct (Kpi.strftime_seconds t); reflexivity. Qed.

(** Building one tuple, and all of them. *)
Lemma tuple_of_inr (labels : list string) (row : list cell) (wanted : list string)
    (t : list cell) :
  tuple_of labels row wanted = inr t ->
  length t = length wanted
  /\ forall i c, wanted !! i = Some c -> t !! i = record_get labels row c.
Proof.
  revert t. induction wanted as [|w wanted IH]; intros t; simpl.
  - intros [= <-]. split; [reflexivity | intros i c H; discriminate].
  - destruct (record_get labels row w) as [v|] eqn:E; [|discriminate].
    unfold bind. destruct (tuple_of labels row wanted) as [|vs]; [discriminate|].
    intros [= <-]. destruct (IH vs eq_refl) as [Hlen Hget].
    split; [simpl; lia|]. intros [|i] c Hc; simpl in *.
    + injection Hc as <-. congruence.
    + apply Hget. exact Hc.
Qed.

Lemma tuple_of_ok (labels : list string) (row : list cell) (wanted : list string) :
  (forall c, c ∈ wanted -> is_Some (record_get labels row c)) ->
  exists t, tuple_of labels row wanted = inr t.
Proof.
  induction wanted as [|w wanted IH]; intros H; simpl; [eauto|].
  destruct (H w ltac:(left)) as [v ->].
  destruct IH as [t ->]; [intros c Hc; apply H; right; exact Hc|].
  simpl. eauto.
Qed.

Lemma tuples_of_inr (labels : list string) (rows : list (list cell))
    (ts : list (list cell)) :
  tuples_of labels rows = inr ts ->
  length ts = length rows
  /\ forall k row, rows !! k = Some row ->
       exists t, ts !! k = Some t /\ tuple_of labels row cols = inr t.
Proof.
  revert ts. induction rows as [|row rows IH]; intros ts; cbn [tuples_of].
  - intros [= <-]. split; [reflexivity | intros k r H; destruct k; discriminate].
  - unfold bind. destruct (tuple_of labels row cols) as [|t] eqn:E; [discriminate|].
    destruct (tuples_of labels rows) as [|ts']; [discriminate|].
    intros [= <-]. destruct (IH ts' eq_refl) as [Hlen Hget].
    split; [simpl; lia|]. intros [|k] r Hr.
    + injection Hr as <-. exists t. split; [reflexivity | exact E].
    + apply (Hget k r). exact Hr.
Qed.

Lemma tuples_of_ok (labels : list string) (rows : list (list cell)) :
  Forall (fun row => exists t, tuple_of labels row cols = inr t) rows ->
  exists ts, tuples_of labels rows = inr ts.
Proof.
  induction 1 as [|row rows [t Ht] _ [ts Hts]]; cbn [tuples_of]; [eauto|].
  rewrite Ht, Hts. simpl. eauto.
Qed.


Lemma map_under_lookup_eq (c : string) (f : cell -> cell) (labels : list string)
    (row : list cell) (j : nat) (v : cell) :
  labels !! j = Some c -> row !! j = Some v -> map_under c f labels row !! j = Some (f v).
Proof.
  revert row j. induction labels as [|l0 labels IH]; intros [|v0 row] [|j] Hl Hv;
    simpl in *; try discriminate.
  - injection Hl as ->. injection Hv as ->. rewrite String.eqb_refl. reflexivity.
  - apply IH; assumption.
Qed.

Lemma format_datetime_column_cell (col : string) (d d' : Frame) (k j : nat)
    (row : list cell) (v : cell) :
  format_datetime_column to_datetime_scalar col d = inr d' ->
  frows d !! k = Some row -> fcolumns d !! j = Some col -> row !! j = Some v ->
  exists row', frows d' !! k = Some row'
               /\ row' !! j = Some (strftime_cell (to_datetime_scalar v)).
Proof.
  intros H Hk Hj Hv. unfold format_datetime_column in H.
  assert (Hhas : has_column d col = true).
  { apply has_column_true. apply list_elem_of_lookup. eauto. }
  rewrite Hhas in H. destruct (Nat.eqb _ 1); [|discriminate].
  injection H as <-. cbn [fcolumns frows]. eexists. split.
  - rewrite list_lookup_fmap, Hk. reflexivity.
  - apply (map_under_lookup_eq col (fun v => strftime_cell (to_datetime_scalar v)));
      assumption.
Qed.

(** The frames that [load_fact_parameters] goes through. *)
Lemma load_fact_parameters_inr (df : Frame) (tuples : list (list cell)) :
  load_fact_parameters to_datetime_scalar df = inr tuples ->
  exists d1 d2,
    format_datetime_column to_datetime_scalar "created_date" df = inr d1
    /\ format_datetime_column to_datetime_scalar "closed_date" d1 = inr d2
    /\ tuples_of (fcolumns (extend (rename d2) (missing_of (fcolumns (rename d2)) cols)))
                 (to_dict_records
                    (frows (extend (rename d2) (missing_of (fcolumns (rename d2)) cols))))
       = inr tuples.
Proof.
  unfold load_fact_parameters, bind.
  destruct (format_datetime_column _ "created_date" df) as [|d1]; [discriminate|].
  destruct (format_datetime_column _ "closed_date" d1) as [|d2] eqn:E2; [discriminate|].
  rewrite foldl_fill_missing. intros H. exists d1, d2.
  split; [reflexivity|]. split; [exact E2 | exact H].
Qed.

(** Every wanted label can be read in an extended row. *)
Lemma extended_row_has_every_target (labels : list string) (row : list cell) (c : string) :
  length row = length labels -> c ∈ cols ->
  is_Some (record_get (labels ++ missing_of labels cols)
                      (row ++ replicate (length (missing_of labels cols)) NA) c).
Proof.
  intros Hlen Hc. rewrite record_get_app by lia.
  destruct (decide (c ∈ missing_of labels cols)) as [Hm|Hm].
  - rewrite (record_get_replicate _ _ Hm). eauto.
  - rewrite (record_get_absent _ _ _ Hm).
    destruct (missing_of_elem cols labels c Hc) as [Hl|Hl]; [|contradiction].
    apply record_get_present; [lia | exact Hl].
Qed.

(** X21. For a well formed frame whose two date labels are not repeated,
    [load_fact] builds one tuple per row, in order, each of 24 cells: no
    target column can be missing when the tuples are built. *)
Theorem load_fact_parameters_one_tuple_per_row (df : Frame) :
  well_formed df ->
  (count_label "created_date" (fcolumns df) <= 1)%nat ->
  (count_label "closed_date" (fcolumns df) <= 1)%nat ->
  exists tuples,
    load_fact_parameters to_datetime_scalar df = inr tuples
    /\ length tuples = length (frows df)
    /\ Forall (fun t => length t = 24%nat) tuples.
Proof.
  intros Hwf Hc1 Hc2.
  destruct (format_datetime_column_ok "created_date" df Hc1) as [d1 H1].
  destruct (format_datetime_column_inr _ _ _ H1) as (L1 & N1 & W1 & _).
  rewrite <- L1 in Hc2.
  destruct (format_datetime_column_ok "closed_date" d1 Hc2) as [d2 H2].
  destruct (format_datetime_column_inr _ _ _ H2) as (L2 & N2 & W2 & _).
  specialize (W2 (W1 Hwf)).
  assert (Hts : exists ts,
             tuples_of (fcolumns (extend (rename d2) (missing_of (fcolumns (rename d2)) cols)))
                       (to_dict_records
                          (frows (extend (rename d2)
                                    (missing_of (fcolumns (rename d2)) cols))))
             = inr ts).
  { apply tuples_of_ok. apply Forall_forall. intros row4 Hrow4.
    unfold to_dict_records in Hrow4.
    apply list_elem_of_fmap in Hrow4 as (row3 & -> & Hrow3).
    cbn [extend rename fcolumns frows] in Hrow3.
    apply list_elem_of_fmap in Hrow3 as (row2 & -> & Hrow2).
    apply tuple_of_ok. intros c Hc. cbn [extend rename fcolumns frows].
    rewrite record_get_boxed. apply fmap_is_Some.
    apply extended_row_has_every_target; [|exact Hc].
    rewrite length_map. exact (proj1 (Forall_forall _ _) W2 row2 Hrow2). }
  destruct Hts as [ts Hts]. exists ts.
  split.
  { unfold load_fact_parameters, bind. rewrite H1, H2, foldl_fill_missing. exact Hts. }
  destruct (tuples_of_inr _ _ _ Hts) as [Hlen Hget].
  split.
  - rewrite Hlen. unfold to_dict_records. cbn [extend rename fcolumns frows].
    rewrite !length_map. lia.
  - apply Forall_forall. intros t Ht.
    apply list_elem_of_lookup in Ht as [k Hk].
    assert (Hrow : exists row, to_dict_records (frows (extend (rename d2)
                     (missing_of (fcolumns (rename d2)) cols))) !! k = Some row).
    { apply lookup_lt_is_Some. rewrite <- Hlen. apply lookup_lt_Some in Hk. exact Hk. }
    destruct Hrow as [row Hrow].
    destruct (Hget k row Hrow) as (t' & Ht' & Htup).
    assert (t' = t) by congruence. subst t'.
    apply tuple_of_inr in Htup as [Hl _]. rewrite Hl. reflexivity.
Qed.

(** The tuple of the row at position [k] of the frame. *)
Lemma tuple_of_row (df : Frame) (tuples : list (list cell)) (k : nat) (row t : list cell) :
  load_fact_parameters to_datetime_scalar df = inr tuples ->
  well_formed df ->
  frows df !! k = Some row ->
  tuples !! k = Some t ->
  exists row2,
    length row2 = length (fcolumns df)
    /\ (forall j l, fcolumns df !! j = Some l -> l <> "created_date"%string ->
                    l <> "closed_date"%string -> row2 !! j = row !! j)
    /\ (forall j v, fcolumns df !! j = Some "created_date"%string -> row !! j = Some v ->
                    row2 !! j = Some (strftime_cell (to_datetime_scalar v)))
    /\ forall i c, cols !! i = Some c ->
         t !! i = maybe_box_native <$>
                  record_get
                    (map rename_label (fcolumns df)
                     ++ missing_of (map rename_label (fcolumns df)) cols)
                    (row2 ++ replicate
                       (length (missing_of (map rename_label (fcolumns df)) cols)) NA) c.
Proof.
  intros Hload Hwf Hrow Ht.
  destruct (load_fact_parameters_inr _ _ Hload) as (d1 & d2 & H1 & H2 & Hts).
  destruct (format_datetime_column_inr _ _ _ H1) as (L1 & N1 & W1 & R1).
  destruct (format_datetime_column_inr _ _ _ H2) as (L2 & N2 & W2 & R2).
  specialize (W1 Hwf). specialize (W2 W1).
  assert (Hrow1 : exists row1, frows d1 !! k = Some row1).
  { apply lookup_lt_is_Some. rewrite N1. apply lookup_lt_Some in Hrow. exact Hrow. }
  destruct Hrow1 as [row1 Hrow1].
  assert (Hrow2 : exists row2, frows d2 !! k = Some row2).
  { apply lookup_lt_is_Some. rewrite N2. apply lookup_lt_Some in Hrow1. exact Hrow1. }
  destruct Hrow2 as [row2 Hrow2].
  exists row2.
  split.
  { rewrite <- L1, <- L2.
    apply (proj1 (Forall_forall _ _) W2). apply list_elem_of_lookup. eauto. }
  split.
  { intros j l Hj Hn1 Hn2.
    destruct (R1 k row j l Hrow Hj Hn1) as (r1 & Hr1 & E1).
    rewrite <- L1 in Hj.
    destruct (R2 k row1 j l Hrow1 Hj Hn2) as (r2 & Hr2 & E2).
    assert (r1 = row1) by congruence. assert (r2 = row2) by congruence. subst.
    congruence. }
  split.
  { intros j v Hj Hv.
    destruct (format_datetime_column_cell _ _ _ k j row v H1 Hrow Hj Hv) as (r1 & Hr1 & E1).
    rewrite <- L1 in Hj.
    destruct (R2 k row1 j _ Hrow1 Hj ltac:(discriminate)) as (r2 & Hr2 & E2).
    assert (r1 = row1) by congruence. assert (r2 = row2) by congruence. subst.
    congruence. }
  intros i c Hc.
  destruct (tuples_of_inr _ _ _ Hts) as [_ Hget].
  assert (Hrow4 : to_dict_records
                    (frows (extend (rename d2) (missing_of (fcolumns (rename d2)) cols)))
                    !! k
                  = Some (map maybe_box_native
                            (row2 ++ replicate
                               (length (missing_of (fcolumns (rename d2)) cols)) NA))).
  { unfold to_dict_records. cbn [extend rename fcolumns frows].
    rewrite !list_lookup_fmap, Hrow2. reflexivity. }
  destruct (Hget k _ Hrow4) as (t' & Ht' & Htup).
  assert (t' = t) by congruence. subst t'.
  apply tuple_of_inr in Htup as [_ Hcell].
  rewrite (Hcell i c Hc), record_get_boxed. cbn [extend rename fcolumns frows].
  rewrite L2, L1. reflexivity.
Qed.


Lemma load_fact_parameters_length (df : Frame) (tuples : list (list cell)) :
  load_fact_parameters to_datetime_scalar df = inr tuples ->
  length tuples = length (frows df).
Proof.
  intros Hload.
  destruct (load_fact_parameters_inr _ _ Hload) as (d1 & d2 & H1 & H2 & Hts).
  destruct (format_datetime_column_inr _ _ _ H1) as (_ & N1 & _).
  destruct (format_datetime_column_inr _ _ _ H2) as (_ & N2 & _).
  apply tuples_of_inr in Hts as [Hlen _]. rewrite Hlen.
  unfold to_dict_records. cbn [extend rename fcolumns frows]. rewrite !length_map. lia.
Qed.

Lemma rename_label_date (l : string) :
  rename_label l = "created_date"%string \/ rename_label l = "closed_date"%string ->
  rename_label l = l.
Proof.
  unfold rename_label, renames. cbn [dict_get].
  destruct (String.eqb "sr_type" l); [cbn; intros [H|H]; discriminate|].
  destruct (String.eqb "owner_department" l); [cbn; intros [H|H]; discriminate|].
  destruct (String.eqb "ward" l); [cbn; intros [H|H]; discriminate|].
  destruct (String.eqb "community_area" l); [cbn; intros [H|H]; discriminate|].
  reflexivity.
Qed.

(** X22. A target column that the frame does not have, even after renaming, is
    filled with [pd.NA], which the records turn into [None]: every tuple
    binds [None] at the position of the column. *)
Theorem load_fact_parameters_absent_column_is_none (df : Frame) (tuples : list (list cell))
    (i : nat) (c : string) :
  load_fact_parameters to_datetime_scalar df = inr tuples ->
  well_formed df ->
  cols !! i = Some c ->
  c ∉ map rename_label (fcolumns df) ->
  Forall (fun t => t !! i = Some PyNone) tuples.
Proof.
  intros Hload Hwf Hc Habs. apply Forall_forall. intros t Ht.
  apply list_elem_of_lookup in Ht as [k Hk].
  assert (Hrow : exists row, frows df !! k = Some row).
  { apply lookup_lt_is_Some. rewrite <- (load_fact_parameters_length _ _ Hload).
    apply lookup_lt_Some in Hk. exact Hk. }
  destruct Hrow as [row Hrow].
  destruct (tuple_of_row _ _ _ _ _ Hload Hwf Hrow Hk) as (row2 & Hlen & _ & _ & Hcell).
  rewrite (Hcell i c Hc), record_get_app by (rewrite length_map; lia).
  rewrite record_get_replicate; [reflexivity|].
  destruct (missing_of_elem cols (map rename_label (fcolumns df)) c) as [H|H];
    [apply list_elem_of_lookup; eauto | contradiction | exact H].
Qed.

(** X23. In a frame with distinct labels, a column other than the two dates whose
    renamed label is a target column, and the only one renamed to it, gives
    its cell to every tuple, at the position of the target: the cell as the
    records box it, that is [None] for a [pd.NA] cell and the cell itself
    otherwise. *)
Theorem load_fact_parameters_carry_renamed_cell (df : Frame) (tuples : list (list cell))
    (i j k : nat) (l : string) (row t : list cell) :
  load_fact_parameters to_datetime_scalar df = inr tuples ->
  well_formed df ->
  NoDup (fcolumns df) ->
  fcolumns df !! j = Some l ->
  l <> "created_date"%string -> l <> "closed_date"%string ->
  cols !! i = Some (rename_label l) ->
  (forall l', l' ∈ fcolumns df -> rename_label l' = rename_label l -> l' = l) ->
  frows df !! k = Some row ->
  tuples !! k = Some t ->
  t !! i = maybe_box_native <$> row !! j
  /\ (forall v, row !! j = Some v -> v <> NA -> t !! i = Some v).
Proof.
  intros Hload Hwf Hnodup Hj Hn1 Hn2 Hc Hinj Hrow Hk.
  assert (Hbox : t !! i = maybe_box_native <$> row !! j);
    [|split; [exact Hbox|];
      intros v Hv Hna; rewrite Hbox, Hv; destruct v; try reflexivity; contradiction].
  destruct (tuple_of_row _ _ _ _ _ Hload Hwf Hrow Hk) as (row2 & Hlen & Hkeep & _ & Hcell).
  rewrite (Hcell i _ Hc), record_get_app by (rewrite length_map; lia).
  rewrite record_get_absent.
  - rewrite <- (Hkeep j l Hj Hn1 Hn2). f_equal.
    apply record_get_last.
    + rewrite length_map. lia.
    + rewrite list_lookup_fmap, Hj. reflexivity.
    + intros j' l' Hlt Hl' ->. rewrite list_lookup_fmap in Hl'.
      destruct (fcolumns df !! j') as [l0|] eqn:E; [|discriminate].
      injection Hl' as Hl'.
      assert (l0 = l) by (apply Hinj; [apply list_elem_of_lookup; eauto | exact Hl']).
      subst l0. pose proof (NoDup_lookup _ _ _ _ Hnodup E Hj). lia.
  - intros Hm. apply missing_of_fresh in Hm. apply Hm.
    apply list_elem_of_lookup. exists j. rewrite list_lookup_fmap, Hj. reflexivity.
Qed.

(** X24. In a frame with distinct labels the creation instant is bound as the
    text of its whole second, or as a missing value when the cell is no
    instant: the fraction of the second is not stored. *)
Theorem load_fact_parameters_created_date_text (df : Frame) (tuples : list (list cell))
    (j k : nat) (row t : list cell) (v : cell) :
  load_fact_parameters to_datetime_scalar df = inr tuples ->
  well_formed df ->
  NoDup (fcolumns df) ->
  fcolumns df !! j = Some "created_date"%string ->
  frows df !! k = Some row ->
  row !! j = Some v ->
  tuples !! k = Some t ->
  t !! 4%nat = Some (strftime_cell (to_datetime_scalar v)).
Proof.
  intros Hload Hwf Hnodup Hj Hrow Hv Hk.
  destruct (tuple_of_row _ _ _ _ _ Hload Hwf Hrow Hk) as (row2 & Hlen & _ & Hdate & Hcell).
  rewrite (Hcell 4%nat "created_date"%string eq_refl),
    record_get_app by (rewrite length_map; lia).
  rewrite record_get_absent.
  - rewrite <- (maybe_box_native_strftime_cell (to_datetime_scalar v)).
    change (Some (maybe_box_native (strftime_cell (to_datetime_scalar v))))
      with (maybe_box_native <$> Some (strftime_cell (to_datetime_scalar v))).
    rewrite <- (Hdate j v Hj Hv). f_equal.
    apply record_get_last.
    + rewrite length_map. lia.
    + rewrite list_lookup_fmap, Hj. reflexivity.
    + intros j' l' Hlt Hl' ->. rewrite list_lookup_fmap in Hl'.
      destruct (fcolumns df !! j') as [l0|] eqn:E; [|discriminate].
      injection Hl' as Hl'.
      assert (l0 = "created_date"%string).
      { rewrite <- Hl'. symmetry. apply rename_label_date. left. exact Hl'. }
      subst l0. pose proof (NoDup_lookup _ _ _ _ Hnodup E Hj). lia.
  - intros Hm. apply missing_of_fresh in Hm. apply Hm.
    apply list_elem_of_lookup. exists j. rewrite list_lookup_fmap, Hj. reflexivity.
Qed.

End FactParamsFacts.

(** * Properties of the dimension view *)
Section DimViewFacts.

Import DimView.

Lemma elem_of_concat {A} (x : A) (ls : list (list A)) :
  x ∈ concat ls <-> exists l, x ∈ l /\ l ∈ ls.
Proof.
  induction ls as [|l ls IH]; simpl.
  - split; [intros H; apply elem_of_nil in H; contradiction|].
    intros (l & _ & H). apply elem_of_nil in H. contradiction.
  - rewrite elem_of_app, IH. split.
    + intros [H|(l' & H1 & H2)]; [exists l; split; [exact H | left]|].
      exists l'. split; [exact H1 | right; exact H2].
    + intros (l' & H1 & H2). apply elem_of_cons in H2 as [->|H2]; [left; exact H1|].
      right. eauto.
Qed.

Lemma left_join_rows_key (demographics : list DemographicsStaged) (m : AreaMapStaged)
    (row : DimAreaRow) :
  row ∈ left_join_rows demographics m ->
  community_area_int row = m_community_area_int m
  /\ community_area_name row = m_community_area_name m.
Proof.
  unfold left_join_rows. destruct (matches m demographics) as [|a found].
  - intros H. apply list_elem_of_singleton in H. subst. split; reflexivity.
  - intros H. apply list_elem_of_fmap in H as (a' & -> & _). split; reflexivity.
Qed.

Lemma left_join_rows_length (demographics : list DemographicsStaged) (m : AreaMapStaged) :
  length (left_join_rows demographics m) = Nat.max 1 (length (matches m demographics)).
Proof.
  unfold left_join_rows. destruct (matches m demographics) as [|a found]; [reflexivity|].
  rewrite length_map. simpl. reflexivity.
Qed.

(** X25. Every area of the map is in the view, with its own code and name: with
    the income and hardship of each demographics row that matches it, or
    once with both missing when none does.  No row of the view comes from
    anything else. *)
Theorem dim_view_keeps_every_area (stg_area_map : list AreaMapStaged)
    (stg_demographics : list DemographicsStaged) :
  (forall m, m ∈ stg_area_map ->
     (matches m stg_demographics = [] ->
      unmatched m ∈ dim_area_extended_v stg_area_map stg_demographics)
     /\ (forall a, a ∈ stg_demographics -> on_condition m a = Some true ->
                   joined m a ∈ dim_area_extended_v stg_area_map stg_demographics))
  /\ (forall row, row ∈ dim_area_extended_v stg_area_map stg_demographics ->
        exists m, m ∈ stg_area_map
                  /\ community_area_int row = m_community_area_int m
                  /\ community_area_name row = m_community_area_name m).
Proof.
  unfold dim_area_extended_v. split.
  - intros m Hm. split.
    + intros Hnone. apply elem_of_concat. exists [unmatched m].
      split; [left|]. apply list_elem_of_fmap. exists m. split; [|exact Hm].
      unfold left_join_rows. rewrite Hnone. reflexivity.
    + intros a Ha Hon. apply elem_of_concat.
      exists (left_join_rows stg_demographics m).
      split; [|apply list_elem_of_fmap; eauto].
      assert (Hin : a ∈ matches m stg_demographics).
      { unfold matches. apply list_elem_of_filter. auto. }
      unfold left_join_rows. destruct (matches m stg_demographics) as [|a0 found] eqn:E.
      * apply elem_of_nil in Hin. contradiction.
      * apply list_elem_of_fmap. eauto.
  - intros row Hrow. apply elem_of_concat in Hrow as (rows & Hrow & Hrows).
    apply list_elem_of_fmap in Hrows as (m & -> & Hm).
    exists m. split; [exact Hm|]. apply (left_join_rows_key _ _ _ Hrow).
Qed.

(** X26. The view has, for each area, as many rows as demographics rows match it,
    and one row when none does: never fewer rows than the map. *)
Theorem dim_view_row_count (stg_area_map : list AreaMapStaged)
    (stg_demographics : list DemographicsStaged) :
  length (dim_area_extended_v stg_area_map stg_demographics)
  = sum_list (map (fun m => Nat.max 1 (length (matches m stg_demographics))) stg_area_map)
  /\ (length stg_area_map <= length (dim_area_extended_v stg_area_map stg_demographics))%nat.
Proof.
  unfold dim_area_extended_v.
  assert (E : length (concat (map (left_join_rows stg_demographics) stg_area_map))
              = sum_list (map (fun m => Nat.max 1 (length (matches m stg_demographics)))
                              stg_area_map)).
  { induction stg_area_map as [|m ms IH]; [reflexivity|].
    simpl. rewrite length_app, IH, left_join_rows_length. reflexivity. }
  split; [exact E|]. rewrite E. clear E.
  induction stg_area_map as [|m ms IH]; [simpl; lia|].
  pose proof (Nat.le_max_l 1 (length (matches m stg_demographics))) as Hmax.
  cbn [map length]. cbn [sum_list sum_list_with] in *. exact (Nat.add_le_mono 1 _ _ _ Hmax IH).
Qed.

(** X27. An area whose code is missing matches no demographics row, even one
    whose code is missing too and whose name is the same: it is in the view
    once, with income and hardship missing. *)
Theorem dim_view_null_code_unmatched (demographics : list DemographicsStaged)
    (m : AreaMapStaged) :
  m_community_area_int m = None \/ m_community_area_name m = None ->
  left_join_rows demographics m = [unmatched m].
Proof.
  intros H. unfold left_join_rows.
  replace (matches m demographics) with (@nil DemographicsStaged); [reflexivity|].
  symmetry. unfold matches. apply filter_none. intros a _.
  unfold on_condition, sql_eq_num, Kpi.sql_eq_text, Kpi.UPPER.
  destruct H as [-> | ->]; simpl.
  - destruct (_ <$> m_community_area_name m); simpl;
      [destruct (_ <$> a_community_area_name a); simpl; [destruct (String.eqb _ _)|]|];
      discriminate.
  - destruct (m_community_area_int m), (a_community_area_int a); simpl;
      try discriminate. destruct (Qeq_bool _ _); discriminate.
Qed.

End DimViewFacts.

(** * Properties of the orchestration *)
Section OrchestratorFacts.

Import Orchestrator.

Variables Frame Refs Conn : Type.
Variable extract_311 : result Frame.
Variable extract_acs_and_mapping : result Refs.
Variable transform_311 : Frame -> result Frame.
Variable connect : result Conn.
Variable ensure_schema : Conn -> result unit.
Variable load_fact : Conn -> Frame -> result unit.
Variable load_dim_area_extended : Conn -> Refs -> result unit.
Variable health_check : Conn -> result unit.
Variable stage : Conn -> string -> result unit.
Variable ensure_schema_and_views : Conn -> result unit.

Local Abbreviation the_run_etl :=
  (run_etl Frame Refs Conn extract_311 extract_acs_and_mapping transform_311 connect
           ensure_schema load_fact load_dim_area_extended health_check).
Local Abbreviation the_run_elt :=
  (run_elt Frame Refs Conn extract_311 extract_acs_and_mapping connect health_check
           stage ensure_schema_and_views).
Local Abbreviation the_etl_outcome :=
  (etl_outcome Frame Refs Conn extract_311 extract_acs_and_mapping transform_311 connect
               ensure_schema load_fact load_dim_area_extended health_check).
Local Abbreviation the_elt_outcome :=
  (elt_outcome Frame Refs Conn extract_311 extract_acs_and_mapping connect health_check
               stage ensure_schema_and_views).
Local Abbreviation the_etl_opening :=
  (etl_opening Frame Refs Conn extract_311 extract_acs_and_mapping transform_311 connect).
Local Abbreviation the_elt_opening :=
  (elt_opening Frame Refs Conn extract_311 extract_acs_and_mapping connect).
Local Abbreviation the_etl_body :=
  (etl_body Frame Refs Conn ensure_schema load_fact load_dim_area_extended health_check).
Local Abbreviation the_elt_body :=
  (elt_body Conn health_check stage ensure_schema_and_views).

(** X28. What a run returns is the plain sequencing of its steps: the handlers
    and the closing neither swallow nor replace an exception, and a run
    succeeds exactly when every step does. *)
Theorem run_returns_first_failure :
  snd (run_etl Frame Refs Conn extract_311 extract_acs_and_mapping transform_311 connect
               ensure_schema load_fact load_dim_area_extended health_check)
  = etl_outcome Frame Refs Conn extract_311 extract_acs_and_mapping transform_311 connect
                ensure_schema load_fact load_dim_area_extended health_check
  /\ snd (run_elt Frame Refs Conn extract_311 extract_acs_and_mapping connect health_check
                  stage ensure_schema_and_views)
     = elt_outcome Frame Refs Conn extract_311 extract_acs_and_mapping connect health_check
                   stage ensure_schema_and_views.
Proof.
  split.
  - unfold run_etl, etl_outcome, seq, call, emit, try_finally, try_except, throw, bind.
    simpl.
    destruct extract_311 as [|df]; [reflexivity|]. simpl.
    destruct extract_acs_and_mapping as [|refs]; [reflexivity|]. simpl.
    destruct (transform_311 df) as [|tf]; [reflexivity|]. simpl.
    destruct connect as [|conn]; [reflexivity|]. simpl.
    destruct (ensure_schema conn) as [|[]]; [reflexivity|]. simpl.
    destruct (load_fact conn tf) as [|[]]; [reflexivity|]. simpl.
    destruct (load_dim_area_extended conn refs) as [|[]]; [reflexivity|]. simpl.
    destruct (health_check conn) as [|[]]; reflexivity.
  - unfold run_elt, elt_outcome, seq, call, emit, try_finally, try_except, throw, bind.
    simpl.
    destruct extract_311 as [|df]; [reflexivity|]. simpl.
    destruct extract_acs_and_mapping as [|refs]; [reflexivity|]. simpl.
    destruct connect as [|conn]; [reflexivity|]. simpl.
    destruct (stage conn "stg_requests") as [|[]]; [reflexivity|]. simpl.
    destruct (stage conn "stg_demographics") as [|[]]; [reflexivity|]. simpl.
    destruct (stage conn "stg_area_map") as [|[]]; [reflexivity|]. simpl.
    destruct (ensure_schema_and_views conn) as [|[]]; [reflexivity|]. simpl.
    destruct (health_check conn) as [|[]]; reflexivity.
Qed.

Lemma etl_opening_inr (tf : Frame) (refs : Refs) (conn : Conn) :
  the_etl_opening = inr (tf, refs, conn) ->
  exists df, extract_311 = inr df /\ extract_acs_and_mapping = inr refs
             /\ transform_311 df = inr tf /\ connect = inr conn.
Proof.
  unfold etl_opening, bind.
  destruct extract_311 as [|df]; [discriminate|].
  destruct extract_acs_and_mapping as [|refs']; [discriminate|].
  destruct (transform_311 df) as [|tf'] eqn:E; [discriminate|].
  destruct connect as [|conn']; [discriminate|].
  intros [= -> -> ->]. eauto.
Qed.

Lemma elt_opening_inr (df : Frame) (refs : Refs) (conn : Conn) :
  the_elt_opening = inr (df, refs, conn) ->
  extract_311 = inr df /\ extract_acs_and_mapping = inr refs /\ connect = inr conn.
Proof.
  unfold elt_opening, bind.
  destruct extract_311 as [|df']; [discriminate|].
  destruct extract_acs_and_mapping as [|refs']; [discriminate|].
  destruct connect as [|conn']; [discriminate|].
  intros [= -> -> ->]. auto.
Qed.

(** X29. Once the connection is open, the trace of a run is: the steps before
    the connection; then steps that use the connection, up to the first that
    fails; then one log entry for the outcome, the closing of the
    connection, and the last log entry.  The connection is closed exactly
    once, after its last use, on success and on failure alike. *)
Theorem run_closes_connection_once :
  (forall tf refs conn,
      the_etl_opening = inr (tf, refs, conn) ->
      exists uses,
        fst the_run_etl
        = [LogStart; Called Extract311; Called ExtractAcsAndMapping; Called Transform311;
           Called Connect] ++ uses ++ guarded_tail (the_etl_body tf refs conn)
        /\ Forall (fun ev => uses_connection ev = true) uses)
  /\ (forall df refs conn,
         the_elt_opening = inr (df, refs, conn) ->
         exists uses,
           fst the_run_elt
           = [LogStart; Called Extract311; Called ExtractAcsAndMapping; Called Connect]
             ++ uses ++ guarded_tail (the_elt_body conn)
           /\ Forall (fun ev => uses_connection ev = true) uses).
Proof.
  split.
  - intros tf refs conn H. apply etl_opening_inr in H as (df & H1 & H2 & H3 & H4).
    unfold run_etl, etl_body, guarded_tail, seq, call, emit, try_finally, try_except,
      throw, bind.
    rewrite H1. simpl. rewrite H2. simpl. rewrite H3. simpl. rewrite H4. simpl.
    destruct (ensure_schema conn) as [|[]]; simpl;
      [eexists [_]; split; [reflexivity | repeat constructor]|].
    destruct (load_fact conn tf) as [|[]]; simpl;
      [eexists [_; _]; split; [reflexivity | repeat constructor]|].
    destruct (load_dim_area_extended conn refs) as [|[]]; simpl;
      [eexists [_; _; _]; split; [reflexivity | repeat constructor]|].
    destruct (health_check conn) as [|[]]; simpl;
      eexists [_; _; _; _]; split; try reflexivity; repeat constructor.
  - intros df refs conn H. apply elt_opening_inr in H as (H1 & H2 & H4).
    unfold run_elt, elt_body, guarded_tail, seq, call, emit, try_finally, try_except,
      throw, bind.
    rewrite H1. simpl. rewrite H2. simpl. rewrite H4. simpl.
    destruct (stage conn "stg_requests") as [|[]]; simpl;
      [eexists [_]; split; [reflexivity | repeat constructor]|].
    destruct (stage conn "stg_demographics") as [|[]]; simpl;
      [eexists [_; _]; split; [reflexivity | repeat constructor]|].
    destruct (stage conn "stg_area_map") as [|[]]; simpl;
      [eexists [_; _; _]; split; [reflexivity | repeat constructor]|].
    destruct (ensure_schema_and_views conn) as [|[]]; simpl;
      [eexists [_; _; _; _]; split; [reflexivity | repeat constructor]|].
    destruct (health_check conn) as [|[]]; simpl;
      eexists [_; _; _; _; _]; split; try reflexivity; repeat constructor.
Qed.

(** X30. A failure of the fetch, of the reference extraction, of the transform
    or of the connection leaves the run at once: the exception is that of
    the run, nothing used a connection, nothing is closed, and the run logs
    neither the failure nor its end. *)
Theorem run_failure_before_connection_is_not_logged (e : exn) :
  (the_etl_opening = inl e ->
   snd the_run_etl = inl e /\ Forall before_connection (fst the_run_etl))
  /\ (the_elt_opening = inl e ->
      snd the_run_elt = inl e /\ Forall before_connection (fst the_run_elt)).
Proof.
  assert (Q : forall ev, uses_connection ev = false -> is_closed ev = false ->
                         is_failure_log ev = false -> ev <> LogEnd -> ev <> LogSuccess ->
                         before_connection ev).
  { intros ev ? ? ? ? ?. repeat split; assumption. }
  split.
  - unfold etl_opening, run_etl, seq, call, emit, try_finally, try_except, throw, bind.
    simpl.
    destruct extract_311 as [|df]; simpl;
      [intros [= ->]; split; [reflexivity|];
       repeat (constructor; [apply Q; (reflexivity || discriminate)|]); constructor|].
    destruct extract_acs_and_mapping as [|refs]; simpl;
      [intros [= ->]; split; [reflexivity|];
       repeat (constructor; [apply Q; (reflexivity || discriminate)|]); constructor|].
    destruct (transform_311 df) as [|tf]; simpl;
      [intros [= ->]; split; [reflexivity|];
       repeat (constructor; [apply Q; (reflexivity || discriminate)|]); constructor|].
    destruct connect as [|conn]; simpl; [|discriminate].
    intros [= ->]; split; [reflexivity|];
      repeat (constructor; [apply Q; (reflexivity || discriminate)|]); constructor.
  - unfold elt_opening, run_elt, seq, call, emit, try_finally, try_except, throw, bind.
    simpl.
    destruct extract_311 as [|df]; simpl;
      [intros [= ->]; split; [reflexivity|];
       repeat (constructor; [apply Q; (reflexivity || discriminate)|]); constructor|].
    destruct extract_acs_and_mapping as [|refs]; simpl;
      [intros [= ->]; split; [reflexivity|];
       repeat (constructor; [apply Q; (reflexivity || discriminate)|]); constructor|].
    destruct connect as [|conn]; simpl; [|discriminate].
    intros [= ->]; split; [reflexivity|];
      repeat (constructor; [apply Q; (reflexivity || discriminate)|]); constructor.
Qed.

End OrchestratorFacts.

(** * The further properties on the sample inputs *)

Lemma acs_frame_present : Extraction.acs_present Samples.acs_frame.
Proof. repeat split; apply (bool_decide_unpack _); vm_compute; exact I. Qed.

Lemma extract_without_acs_column_raises_witness :
  ~ Extraction.acs_present MoreSamples.acs_frame_without_income
  /\ exists key,
       Canonical.extract_acs_and_mapping Samples.parse_number
         MoreSamples.acs_frame_without_income Samples.mapping_frame = inl (KeyError key)
       /\ key ∉ columns MoreSamples.acs_frame_without_income.
Proof.
  assert (H : ~ Extraction.acs_present MoreSamples.acs_frame_without_income).
  { intros (_ & _ & H & _). revert H. apply (bool_decide_unpack _). vm_compute. exact I. }
  split; [exact H|].
  exact (extract_without_acs_column_raises Samples.parse_number
           MoreSamples.acs_frame_without_income Samples.mapping_frame H).
Defined.

Lemma extract_with_unresolved_mapping_raises_witness :
  Forall (fun c => Resolver._norm c ∉ Resolver.id_keys)
         (columns MoreSamples.mapping_frame_unknown)
  /\ Canonical.extract_acs_and_mapping Samples.parse_number Samples.acs_frame
       MoreSamples.mapping_frame_unknown
     = inl (ValueError (Resolver.unresolved_message Samples.unknown_headers)).
Proof.
  assert (H : Forall (fun c => Resolver._norm c ∉ Resolver.id_keys)
                     (columns MoreSamples.mapping_frame_unknown)).
  { apply (bool_decide_unpack _). vm_compute. exact I. }
  split; [exact H|].
  exact (extract_with_unresolved_mapping_raises Samples.parse_number Samples.acs_frame
           MoreSamples.mapping_frame_unknown acs_frame_present (or_introl H)).
Defined.

Lemma extract_with_fractional_code_raises_witness :
  Canonical.is_whole (7 # 2) = false
  /\ Canonical.extract_acs_and_mapping Samples.parse_number Samples.acs_frame
       Samples.mapping_frame_fraction
     = inl (TypeError "cannot safely cast non-equivalent float64 to int64").
Proof.
  split; [reflexivity|].
  apply (extract_with_fractional_code_raises Samples.parse_number Samples.acs_frame
           Samples.mapping_frame_fraction "AREA_NUMBE" "COMMUNITY" [Some "3.5"%string]
           (7 # 2) acs_frame_present).
  - vm_compute. reflexivity.
  - reflexivity.
  - vm_compute. left.
  - reflexivity.
Defined.

Lemma extract_acs_small_rows_witness :
  Canonical.extract_acs_and_mapping Samples.parse_number Samples.acs_frame
    Samples.mapping_frame
  = inr (MoreSamples.expected_acs_small, MoreSamples.expected_df_map)
  /\ length MoreSamples.expected_acs_small = length (data Samples.acs_frame).
Proof.
  assert (H : Canonical.extract_acs_and_mapping Samples.parse_number Samples.acs_frame
                Samples.mapping_frame
              = inr (MoreSamples.expected_acs_small, MoreSamples.expected_df_map))
    by (vm_compute; reflexivity).
  split; [exact H|].
  destruct (extract_acs_small_rows Samples.parse_number _ _ _ _ H)
    as (c1 & c2 & c3 & c4 & _ & _ & _ & _ & Hlen & _).
  exact Hlen.
Defined.

Lemma request_frame_well_formed : FactParams.well_formed MoreSamples.request_frame.
Proof. repeat constructor. Qed.

Lemma request_frame_tuples :
  FactParams.load_fact_parameters MoreSamples.instant_of_cell MoreSamples.request_frame
  = inr [MoreSamples.expected_tuple].
Proof. vm_compute. reflexivity. Qed.

Lemma load_fact_parameters_one_tuple_per_row_witness :
  FactParams.well_formed MoreSamples.request_frame
  /\ exists tuples,
       FactParams.load_fact_parameters MoreSamples.instant_of_cell MoreSamples.request_frame
       = inr tuples
       /\ length tuples = length (FactParams.frows MoreSamples.request_frame)
       /\ Forall (fun t => length t = 24%nat) tuples.
Proof.
  split; [exact request_frame_well_formed|].
  apply (load_fact_parameters_one_tuple_per_row MoreSamples.instant_of_cell
           MoreSamples.request_frame request_frame_well_formed);
    vm_compute; lia.
Defined.

Lemma load_fact_parameters_absent_column_is_none_witness :
  ("ward_int"%string ∉ map FactParams.rename_label
                            (FactParams.fcolumns MoreSamples.request_frame))
  /\ Forall (fun t => t !! 18%nat = Some FactParams.PyNone) [MoreSamples.expected_tuple].
Proof.
  assert (H : "ward_int"%string ∉ map FactParams.rename_label
                                      (FactParams.fcolumns MoreSamples.request_frame)).
  { apply (bool_decide_unpack _). vm_compute. exact I. }
  split; [exact H|].
  exact (load_fact_parameters_absent_column_is_none MoreSamples.instant_of_cell
           MoreSamples.request_frame _ 18%nat "ward_int"%string request_frame_tuples
           request_frame_well_formed eq_refl H).
Defined.

Lemma request_frame_labels_distinct :
  NoDup (FactParams.fcolumns MoreSamples.request_frame).
Proof. apply (bool_decide_unpack _). vm_compute. exact I. Qed.

Lemma load_fact_parameters_carry_renamed_cell_witness :
  FactParams.rename_label "sr_type" = "request_type_name"%string
  /\ MoreSamples.expected_tuple !! 1%nat
     = Some (FactParams.CText "Pothole in Street Complaint").
Proof.
  split; [reflexivity|].
  refine (proj1 (load_fact_parameters_carry_renamed_cell MoreSamples.instant_of_cell
           MoreSamples.request_frame _ 1%nat 1%nat 0%nat "sr_type"%string
           [FactParams.CText "SR24-1"; FactParams.CText "Pothole in Street Complaint";
            FactParams.CText "Open"; FactParams.CTimestamp 1500000000; FactParams.NaN;
            FactParams.CInt 1]
           MoreSamples.expected_tuple request_frame_tuples request_frame_well_formed
           request_frame_labels_distinct _ _ _ _ _ _ _));
    try reflexivity; try discriminate.
  intros l' Hl' Hr. vm_compute in Hl'.
  repeat (apply elem_of_cons in Hl' as [->|Hl']; [try reflexivity; discriminate Hr|]).
  apply elem_of_nil in Hl'. contradiction.
Defined.

Lemma load_fact_parameters_created_date_text_witness :
  FactParams.fcolumns MoreSamples.request_frame !! 3%nat = Some "created_date"%string
  /\ MoreSamples.expected_tuple !! 4%nat = Some (FactParams.CTimeText 1).
Proof.
  split; [reflexivity|].
  exact (load_fact_parameters_created_date_text MoreSamples.instant_of_cell
           MoreSamples.request_frame _ 3%nat 0%nat _ MoreSamples.expected_tuple
           (FactParams.CTimestamp 1500000000) request_frame_tuples
           request_frame_well_formed request_frame_labels_distinct eq_refl eq_refl
           eq_refl eq_refl).
Defined.

Lemma dim_view_null_code_unmatched_witness :
  DimView.m_community_area_int MoreSamples.area_without_code = None
  /\ DimView.dim_area_extended_v [MoreSamples.area_without_code]
       [MoreSamples.demographics_without_code]
     = [DimView.unmatched MoreSamples.area_without_code].
Proof.
  split; [reflexivity|].
  unfold DimView.dim_area_extended_v. cbn [map concat].
  rewrite (dim_view_null_code_unmatched [MoreSamples.demographics_without_code]
             MoreSamples.area_without_code (or_introl eq_refl)).
  reflexivity.
Defined.

Lemma run_closes_connection_once_witness :
  exists uses,
    fst MoreSamples.run_with_failing_load
    = [Orchestrator.LogStart; Orchestrator.Called Orchestrator.Extract311;
       Orchestrator.Called Orchestrator.ExtractAcsAndMapping;
       Orchestrator.Called Orchestrator.Transform311;
       Orchestrator.Called Orchestrator.Connect]
      ++ uses
      ++ [Orchestrator.LogFailed MoreSamples.load_violation; Orchestrator.Closed;
          Orchestrator.LogEnd]
    /\ Forall (fun ev => Orchestrator.uses_connection ev = true) uses.
Proof.
  exact (proj1 (run_closes_connection_once unit unit unit MoreSamples.step_ok
                  MoreSamples.step_ok (fun _ => MoreSamples.step_ok) MoreSamples.step_ok
                  (fun _ => MoreSamples.step_ok)
                  (fun _ _ => raise MoreSamples.load_violation)
                  (fun _ _ => MoreSamples.step_ok) (fun _ => MoreSamples.step_ok)
                  (fun _ _ => MoreSamples.step_ok) (fun _ => MoreSamples.step_ok))
           tt tt tt eq_refl).
Defined.

Lemma run_failure_before_connection_is_not_logged_witness :
  snd MoreSamples.run_with_failing_fetch = inl MoreSamples.fetch_failure
  /\ Forall Orchestrator.before_connection (fst MoreSamples.run_with_failing_fetch).
Proof.
  exact (proj1 (run_failure_before_connection_is_not_logged unit unit unit
                  (raise MoreSamples.fetch_failure) MoreSamples.step_ok
                  (fun _ => MoreSamples.step_ok) MoreSamples.step_ok
                  (fun _ => MoreSamples.step_ok) (fun _ _ => MoreSamples.step_ok)
                  (fun _ _ => MoreSamples.step_ok) (fun _ => MoreSamples.step_ok)
                  (fun _ _ => MoreSamples.step_ok) (fun _ => MoreSamples.step_ok)
                  MoreSamples.fetch_failure)
           eq_refl).
Defined.
